(** * ActiveStorage: the attachment engine of [core/storage]

    A shallow embedding of the Go package [storage]:
    [active_storage.go] (the orchestrator), [r2.go] (the Cloudflare R2
    provider), the three converters (image to WebP, video to WebM, audio to
    Opus) and the theorems that relate them to the written specification.

    Conventions.
    - A Go [string] is a byte string: Rocq's [string] (a list of 8-bit
      [ascii]).  A [[]byte] that can be [nil] is an [option (list ascii)]:
      [None] is the nil slice, [Some []] an empty non-nil slice.
    - [int64], [int] and [uint] are [Z]; only comparisons and [len] are
      taken on them, so no wrap-around is involved.
    - A Go [error] is its message; [fmt.Errorf("ctx: %w", err)] is string
      concatenation.  A function returning [(T, error)] returns [Result T].
    - The object store, the relational store and the spy log of the calls
      made on them are threaded explicitly through the state-and-error
      monad [M]. *)

From Stdlib Require Import ZArith Lia Ascii String List Bool.
From stdpp Require Import base strings pretty gmap.
Import ListNotations.

Open Scope string_scope.
Open Scope list_scope.
Open Scope Z_scope.

(* ===================================================================== *)
(** * Go standard library: [strings] and [path/filepath]                 *)
(* ===================================================================== *)

Module GoLib.

(** [unicode.ToLower] on one byte.  Only the ASCII letters are folded;
    the file names of interest are ASCII. *)
Definition lower_ascii (c : ascii) : ascii :=
  let n := nat_of_ascii c in
  if (Nat.leb 65 n && Nat.leb n 90)%bool then ascii_of_nat (n + 32) else c.

(** [strings.ToLower]. *)
Fixpoint strings_ToLower (s : string) : string :=
  match s with
  | EmptyString => EmptyString
  | String c rest => String (lower_ascii c) (strings_ToLower rest)
  end.

(** The loop of [filepath.Ext]: [rev_path] is [path[:i+1]] read backwards
    and [acc] is [path[i+1:]]; the scan stops at a path separator. *)
Fixpoint ext_scan (rev_path acc : list ascii) : list ascii :=
  match rev_path with
  | [] => []
  | c :: before =>
      if Ascii.eqb c "/" then []
      else if Ascii.eqb c "." then c :: acc
      else ext_scan before (c :: acc)
  end.

(** [filepath.Ext]: the suffix beginning at the final dot in the final
    element of [path]; empty if there is no dot. *)
Definition filepath_Ext (path : string) : string :=
  string_of_list_ascii (ext_scan (rev (list_ascii_of_string path)) []).

(** [strings.HasPrefix]. *)
Fixpoint strings_HasPrefix (s prefix : string) {struct prefix} : bool :=
  match prefix, s with
  | EmptyString, _ => true
  | String _ _, EmptyString => false
  | String a p, String b r => (Ascii.eqb a b && strings_HasPrefix r p)%bool
  end.

(** [strings.Contains]: [substr] occurs somewhere within [s]. *)
Fixpoint strings_Contains (s substr : string) : bool :=
  (strings_HasPrefix s substr
   || match s with
      | EmptyString => false
      | String _ r => strings_Contains r substr
      end)%bool.

(** [strings.HasSuffix]. *)
Definition strings_HasSuffix (s suffix : string) : bool :=
  strings_HasPrefix (string_of_list_ascii (rev (list_ascii_of_string s)))
                    (string_of_list_ascii (rev (list_ascii_of_string suffix))).

(** [strings.TrimSuffix]: [s] without the trailing [suffix], or [s] itself
    when it does not end in [suffix]. *)
Definition strings_TrimSuffix (s suffix : string) : string :=
  if strings_HasSuffix s suffix
  then String.substring 0 (String.length s - String.length suffix) s
  else s.

(** [strings.Join]. *)
Fixpoint strings_Join (elems : list string) (sep : string) : string :=
  match elems with
  | [] => ""
  | [a] => a
  | a :: rest => a +:+ sep +:+ strings_Join rest sep
  end.

(** [strings.TrimRight(s, "/")]: all trailing slashes removed. *)
Fixpoint drop_slashes (l : list ascii) : list ascii :=
  match l with
  | c :: r => if Ascii.eqb c "/" then drop_slashes r else l
  | [] => []
  end.

Definition strings_TrimRight_slash (s : string) : string :=
  string_of_list_ascii (rev (drop_slashes (rev (list_ascii_of_string s)))).

(** Splitting a path at its separators, for [filepath.Clean]. *)
Fixpoint split_sep (l : list ascii) (cur : list ascii) : list string :=
  match l with
  | [] => [string_of_list_ascii (rev cur)]
  | c :: r =>
      if Ascii.eqb c "/"
      then string_of_list_ascii (rev cur) :: split_sep r []
      else split_sep r (c :: cur)
  end.

(** One element of a path being cleaned; [stack] holds the elements kept so
    far, innermost first. *)
Definition clean_step (rooted : bool) (stack : list string) (elem : string)
  : list string :=
  if String.eqb elem "" then stack
  else if String.eqb elem "." then stack
  else if String.eqb elem ".." then
    match stack with
    | top :: below => if String.eqb top ".." then elem :: stack else below
    | [] => if rooted then [] else [elem]
    end
  else elem :: stack.

(** [filepath.Clean] (Unix): the shortest path equivalent to [path] by
    purely lexical processing. *)
Definition filepath_Clean (path : string) : string :=
  let rooted := strings_HasPrefix path "/" in
  let elems := split_sep (list_ascii_of_string path) [] in
  let kept := rev (fold_left (clean_step rooted) elems []) in
  let body := strings_Join kept "/" in
  let out := if rooted then "/" +:+ body else body in
  if String.eqb out "" then "." else out.

(** [filepath.Join]: empty elements are ignored and the result is cleaned;
    the empty string when every element is empty. *)
Definition filepath_Join (elems : list string) : string :=
  match List.filter (fun e => negb (String.eqb e "")) elems with
  | [] => ""
  | nonempty => filepath_Clean (strings_Join nonempty "/")
  end.

End GoLib.
Export GoLib.

(* ===================================================================== *)
(** * Errors, results and the data model                                  *)
(* ===================================================================== *)

(** A Go [error] value, identified with its message. *)
Definition error := string.

Inductive Result (A : Type) : Type :=
| Ok (a : A)
| Err (e : error).
Arguments Ok {A} a.
Arguments Err {A} e.

(** [fmt.Errorf(ctx + "%w", err)]. *)
Definition wrap {A : Type} (ctx : string) (r : Result A) : Result A :=
  match r with
  | Ok a => Ok a
  | Err e => Err (ctx +:+ e)
  end.

(** What [file.Open()] followed by reading the stream yields. *)
Inductive FileBody :=
| OpenFails (e : error)
| ReadFails (e : error)
| Content (data : list ascii).

(** [multipart.FileHeader]: the client-supplied name and size, the
    Content-Type of its MIME header, and the uploaded stream. *)
Module FileHeader.
Record t := mk {
  Filename : string;
  Size : Z;
  Header : string;
  Body : FileBody
}.
End FileHeader.

(** Modelled from the spec: the [Attachment] row (its Go declaration is not
    part of the sources at hand).  Section 3: Id, ModelType, ModelId, Field,
    Filename, Path, URL, Size and a soft-delete marker; the timestamps are
    left out. *)
Module Attachment.
Record t := mk {
  Id : Z;
  ModelType : string;
  ModelId : Z;
  Field : string;
  Filename : string;
  Path : string;
  URL : string;
  Size : Z;
  Deleted : bool
}.

Definition with_Path_URL (a : t) (path url : string) : t :=
  mk (Id a) (ModelType a) (ModelId a) (Field a) (Filename a) path url
     (Size a) (Deleted a).

Definition with_URL (a : t) (url : string) : t :=
  with_Path_URL a (Path a) url.

Definition with_Id (a : t) (id : Z) : t :=
  mk id (ModelType a) (ModelId a) (Field a) (Filename a) (Path a) (URL a)
     (Size a) (Deleted a).

Definition with_Deleted (a : t) (d : bool) : t :=
  mk (Id a) (ModelType a) (ModelId a) (Field a) (Filename a) (Path a) (URL a)
     (Size a) d.
End Attachment.

(** Modelled from the spec: [AttachmentConfig], the upload policy of one
    (model, field) pair, with the fields the registrations in
    [core/app/media/service.go] and [core/app/users/service.go] set. *)
Module AttachmentConfig.
Record t := mk {
  Field : string;
  Path : string;
  AllowedExtensions : list string;
  MaxFileSize : Z;
  Multiple : bool
}.
End AttachmentConfig.

(** Modelled from the spec: [UploadConfig], as [Attach] builds it. *)
Module UploadConfig.
Record t := mk {
  AllowedExtensions : list string;
  MaxFileSize : Z;
  UploadPath : string
}.
End UploadConfig.

(** Modelled from the spec: [UploadResult], as the providers build it. *)
Module UploadResult.
Record t := mk {
  Filename : string;
  Path : string;
  Size : Z
}.
End UploadResult.

(** Modelled from the spec: the [Attachable] interface, reduced to the two
    methods [Attach] and [LoadAttachment] call on an owner. *)
Module Attachable.
Record t := mk {
  GetModelName : string;
  GetId : Z
}.
End Attachable.

(* ===================================================================== *)
(** * The outside world                                                   *)
(* ===================================================================== *)

(** An object of the remote bucket (or a file of the local root). *)
Record Object := mkObject {
  obj_ContentType : string;
  obj_Body : list ascii
}.

(** The blob backend: objects by (bucket, key), and the failure the next
    write or delete request runs into, if any. *)
Record Store := mkStore {
  objects : gmap (string * string) Object;
  put_error : option error;
  delete_error : option error
}.

Inductive DbOp := OpMigrate | OpCreate | OpDelete | OpQuery.

(** The relational store: the [attachments] table, the [value_bool] column
    of the [settings] table by [setting_key], the next auto-increment id,
    and the failure each kind of statement runs into, if any. *)
Record DB := mkDB {
  attachments : list Attachment.t;
  next_id : Z;
  settings : gmap string bool;
  db_fault : DbOp -> option error
}.

(** The calls observed by a spy on the converters, the provider and the
    relational store, oldest first. *)
Inductive Event :=
| EvConvertToWebP (file : FileHeader.t)
| EvConvertToWebM (file : FileHeader.t)
| EvConvertToOpus (file : FileHeader.t)
| EvLookPath (binary : string)
| EvRunFfmpeg (args : list string)
| EvUpload (file : FileHeader.t) (config : UploadConfig.t)
| EvUploadBytes (data : list ascii) (filename : string) (config : UploadConfig.t)
| EvProviderDelete (path : string)
| EvDBCreate (row : Attachment.t)
| EvDBDelete (row : Attachment.t).

Record World := mkWorld {
  store : Store;
  db : DB;
  log : list Event
}.

(** A decoded raster. *)
Inductive Image := Raster (width height : Z) (pixels : list ascii).

(** What the package calls but does not define: the image codecs, the
    process environment of the encoder, and [generateUniqueFilename], a
    function of this package whose source is not at hand and which is
    taken as a parameter. *)
Record Env := mkEnv {
  generateUniqueFilename : string -> string;
  jpeg_Decode : list ascii -> Result Image;
  png_Decode : list ascii -> Result Image;
  webp_Decode : list ascii -> Result Image;
  image_Decode : list ascii -> Result Image;
  NewLossyEncoderOptions : Z -> option error;
  (** the bytes [webp.Encode] writes to the buffer *)
  webp_Encode : Z -> Image -> Result (list ascii);
  exec_LookPath : string -> bool;
  os_CreateTemp : string -> Result string;
  (** the failure of copying an upload into its temporary file, if any *)
  tmp_write_error : option error;
  (** [cmd.Run()]: the content of the output file, or the error and the
      captured stderr (a timeout kills the process and is such an error) *)
  ffmpeg_Run : list string -> list ascii -> (error * string) + list ascii;
  os_ReadFile_error : option error;
  os_Getwd : Result string;
  (** [awsconfig.LoadDefaultConfig], by region *)
  aws_LoadDefaultConfig_error : string -> option error
}.

(* ===================================================================== *)
(** * The state-and-error monad                                           *)
(* ===================================================================== *)

Definition M (A : Type) : Type := World -> World * Result A.

Definition ret {A : Type} (a : A) : M A := fun w => (w, Ok a).

Definition fail {A : Type} (e : error) : M A := fun w => (w, Err e).

Definition bind {A B : Type} (m : M A) (k : A -> M B) : M B :=
  fun w =>
    match m w with
    | (w', Ok a) => k a w'
    | (w', Err e) => (w', Err e)
    end.

(** A pure fallible step. *)
Definition lift {A : Type} (r : Result A) : M A := fun w => (w, r).

(** [if err != nil { return nil, fmt.Errorf(ctx + "%w", err) }]. *)
Definition wrapM {A : Type} (ctx : string) (m : M A) : M A :=
  fun w => let '(w', r) := m w in (w', wrap ctx r).

(** One more call seen by the spy. *)
Definition tell (ev : Event) : M unit :=
  fun w => (mkWorld (store w) (db w) (log w ++ [ev]), Ok tt).

Declare Scope go_scope.
Delimit Scope go_scope with go.
Notation "x <- m ;; k" := (bind m (fun x => k))
  (at level 100, m at next level, right associativity) : go_scope.
Notation "m ;;; k" := (bind m (fun _ => k))
  (at level 100, right associativity) : go_scope.
Open Scope go_scope.

(* ===================================================================== *)
(** * The converters                                                      *)
(* ===================================================================== *)

(** A possibly-nil byte slice and the new file name: what each converter
    returns besides its error. *)
Definition Converted : Type := option (list ascii) * string.

(** [buf.Bytes()] of a [bytes.Buffer] that started empty: nil as long as
    nothing was written. *)
Definition buffer_Bytes (written : list ascii) : option (list ascii) :=
  match written with
  | [] => None
  | _ :: _ => Some written
  end.

Module ImageProcessor.

Record t := mk {
  Quality : Z (* WebP quality (0-100) *)
}.

Definition NewImageProcessor (quality : Z) : t :=
  let quality :=
    if ((quality <=? 0) || (quality >? 100))%bool
    then 85 (* Default quality *)
    else quality in
  mk quality.

Definition supportedExts : list string :=
  [".jpg"; ".jpeg"; ".png"; ".bmp"; ".tiff"; ".tif"; ".webp"].

Definition IsImageFile (filename : string) : bool :=
  let ext := strings_ToLower (filepath_Ext filename) in
  existsb (fun supported => String.eqb ext supported) supportedExts.

Definition decodeImage (env : Env) (data : list ascii) (filename : string)
  : Result Image :=
  let ext := strings_ToLower (filepath_Ext filename) in
  if (String.eqb ext ".jpg" || String.eqb ext ".jpeg")%bool then jpeg_Decode env data
  else if String.eqb ext ".png" then png_Decode env data
  else if String.eqb ext ".webp" then webp_Decode env data
  else image_Decode env data.

Definition ConvertToWebP (env : Env) (ip : t) (file : FileHeader.t)
  : M Converted :=
  let filename := FileHeader.Filename file in
  tell (EvConvertToWebP file) ;;;
  (* Check if it's an image file *)
  if negb (IsImageFile filename) then ret (None, filename)
  (* Check if already WebP *)
  else if String.eqb (strings_ToLower (filepath_Ext filename)) ".webp"
  then ret (None, filename)
  else
    match FileHeader.Body file with
    | OpenFails e => fail ("failed to open file: " +:+ e)
    | ReadFails e => fail ("failed to read file: " +:+ e)
    | Content data =>
        img <- lift (wrap "failed to decode image: "
                          (decodeImage env data filename)) ;;
        match NewLossyEncoderOptions env (Quality ip) with
        | Some e => fail ("failed to create encoder options: " +:+ e)
        | None =>
            written <- lift (wrap "failed to encode to webp: "
                                  (webp_Encode env (Quality ip) img)) ;;
            let ext := filepath_Ext filename in
            let newFilename := strings_TrimSuffix filename ext +:+ ".webp" in
            ret (buffer_Bytes written, newFilename)
        end
    end.

End ImageProcessor.

(** The part [ConvertToWebM] and [ConvertToOpus] share once a file has been
    selected: the upload is copied to a temporary input file, the encoder
    runs with [args_of input output], and the output file is read back. *)
Definition run_encoder (env : Env) (prefix target : string)
    (args_of : string -> string -> list string) (file : FileHeader.t)
  : M Converted :=
  let filename := FileHeader.Filename file in
  tmpInput <- lift (wrap "failed to create temp input file: "
                (os_CreateTemp env (prefix +:+ "-input-*" +:+ filepath_Ext filename))) ;;
  match FileHeader.Body file with
  | OpenFails e => fail ("failed to open file: " +:+ e)
  | ReadFails e => fail ("failed to write temp file: " +:+ e)
  | Content data =>
      match tmp_write_error env with
      | Some e => fail ("failed to write temp file: " +:+ e)
      | None =>
          tmpOutput <- lift (wrap "failed to create temp output file: "
                         (os_CreateTemp env (prefix +:+ "-output-*" +:+ target))) ;;
          let args := args_of tmpInput tmpOutput in
          tell (EvRunFfmpeg args) ;;;
          match ffmpeg_Run env args data with
          | inl (e, stderr) =>
              fail ("ffmpeg conversion failed: " +:+ e +:+ ", stderr: " +:+ stderr)
          | inr output =>
              match os_ReadFile_error env with
              | Some e => fail ("failed to read converted file: " +:+ e)
              | None =>
                  let ext := filepath_Ext filename in
                  let newFilename := strings_TrimSuffix filename ext +:+ target in
                  ret (Some output, newFilename)
              end
          end
      end
  end.

Module VideoConverter.

Record t := mk {
  Quality : Z (* CRF quality (0-51, lower is better) *)
}.

Definition NewVideoConverter (quality : Z) : t :=
  let quality :=
    if ((quality <? 0) || (quality >? 51))%bool
    then 23 (* Default quality (good balance) *)
    else quality in
  mk quality.

Definition supportedExts : list string :=
  [".mp4"; ".mov"; ".avi"; ".mkv"; ".flv"; ".wmv"; ".webm"; ".m4v"; ".mpeg"; ".mpg"].

Definition IsVideoFile (filename : string) : bool :=
  let ext := strings_ToLower (filepath_Ext filename) in
  existsb (fun supported => String.eqb ext supported) supportedExts.

Definition ffmpeg_args (vc : t) (input output : string) : list string :=
  ["-i"; input; "-c:v"; "libvpx-vp9"; "-crf"; pretty (Quality vc);
   "-b:v"; "0"; "-c:a"; "libopus"; "-y"; output].

Definition ConvertToWebM (env : Env) (vc : t) (file : FileHeader.t)
  : M Converted :=
  let filename := FileHeader.Filename file in
  tell (EvConvertToWebM file) ;;;
  (* Check if it's a video file *)
  if negb (IsVideoFile filename) then ret (None, filename)
  (* Check if already WebM *)
  else if String.eqb (strings_ToLower (filepath_Ext filename)) ".webm"
  then ret (None, filename)
  else
    (* Check if ffmpeg is available *)
    tell (EvLookPath "ffmpeg") ;;;
    if negb (exec_LookPath env "ffmpeg")
    then fail "ffmpeg not found: video conversion requires ffmpeg to be installed"
    else run_encoder env "video" ".webm" (ffmpeg_args vc) file.

End VideoConverter.

Module AudioConverter.

Record t := mk {
  Bitrate : Z (* kbps *)
}.

Definition NewAudioConverter (bitrate : Z) : t :=
  let bitrate :=
    if bitrate <=? 0
    then 96 (* Default bitrate (good for speech) *)
    else bitrate in
  mk bitrate.

Definition supportedExts : list string :=
  [".mp3"; ".wav"; ".flac"; ".aac"; ".m4a"; ".ogg"; ".wma"; ".opus"].

Definition IsAudioFile (filename : string) : bool :=
  let ext := strings_ToLower (filepath_Ext filename) in
  existsb (fun supported => String.eqb ext supported) supportedExts.

Definition ffmpeg_args (ac : t) (input output : string) : list string :=
  ["-i"; input; "-c:a"; "libopus"; "-b:a"; pretty (Bitrate ac) +:+ "k";
   "-vn"; "-y"; output].

Definition ConvertToOpus (env : Env) (ac : t) (file : FileHeader.t)
  : M Converted :=
  let filename := FileHeader.Filename file in
  tell (EvConvertToOpus file) ;;;
  (* Check if it's an audio file *)
  if negb (IsAudioFile filename) then ret (None, filename)
  (* Check if already Opus *)
  else if String.eqb (strings_ToLower (filepath_Ext filename)) ".opus"
  then ret (None, filename)
  else
    (* Check if ffmpeg is available *)
    tell (EvLookPath "ffmpeg") ;;;
    if negb (exec_LookPath env "ffmpeg")
    then fail "ffmpeg not found: audio conversion requires ffmpeg to be installed"
    else run_encoder env "audio" ".opus" (ffmpeg_args ac) file.

End AudioConverter.

(* ===================================================================== *)
(** * Media classification ([media_utils.go])                             *)
(* ===================================================================== *)

Inductive MediaType :=
| MediaTypeImage
| MediaTypeVideo
| MediaTypeAudio
| MediaTypeDocument
| MediaTypeOther.

Definition DetectMediaType (filename : string) : MediaType :=
  let ext := strings_ToLower (filepath_Ext filename) in
  let among := existsb (fun e => String.eqb ext e) in
  (* Image formats *)
  if among [".jpg"; ".jpeg"; ".png"; ".gif"; ".webp"; ".bmp"; ".tiff"; ".tif"; ".svg"]
  then MediaTypeImage
  (* Video formats *)
  else if among [".mp4"; ".mov"; ".avi"; ".mkv"; ".webm"; ".flv"; ".wmv"; ".m4v";
                 ".mpeg"; ".mpg"]
  then MediaTypeVideo
  (* Audio formats *)
  else if among [".mp3"; ".wav"; ".flac"; ".aac"; ".m4a"; ".ogg"; ".wma"; ".opus"]
  then MediaTypeAudio
  (* Document formats *)
  else if among [".pdf"; ".doc"; ".docx"; ".xls"; ".xlsx"; ".ppt"; ".pptx"; ".txt";
                 ".csv"]
  then MediaTypeDocument
  else MediaTypeOther.

Definition GetTargetFormat (mediaType : MediaType) : string :=
  match mediaType with
  | MediaTypeImage => "webp"
  | MediaTypeVideo => "webm"
  | MediaTypeAudio => "opus"
  | _ => "" (* No conversion *)
  end.

Definition ShouldConvert (filename : string) : bool :=
  let ext := strings_ToLower (filepath_Ext filename) in
  let mediaType := DetectMediaType filename in
  let targetFormat := GetTargetFormat mediaType in
  if String.eqb targetFormat "" then false (* No target format, don't convert *)
  (* Don't convert if already in target format *)
  else negb (String.eqb ext ("." +:+ targetFormat)).

(* ===================================================================== *)
(** * Providers                                                           *)
(* ===================================================================== *)

(** Modelled from the spec: the [Provider] interface (section 4.1), with
    the four methods [r2Provider] and [s3Provider] implement.  The three
    requests act on the [Store]; [GetURL] is pure. *)
Module Provider.
Record t := mk {
  Upload : FileHeader.t -> UploadConfig.t -> Store -> Store * Result UploadResult.t;
  UploadBytes : list ascii -> string -> UploadConfig.t -> Store -> Store * Result UploadResult.t;
  Delete : string -> Store -> Store * option error;
  GetURL : string -> string
}.
End Provider.

(** The two requests of the S3 API the providers send. *)
Definition PutObject (bucket key contentType : string) (body : FileBody)
    (s : Store) : Store * option error :=
  match put_error s, body with
  | Some e, _ => (s, Some e)
  | None, Content data =>
      (mkStore (<[(bucket, key) := mkObject contentType data]> (objects s))
               (put_error s) (delete_error s), None)
  | None, OpenFails e => (s, Some e)
  | None, ReadFails e => (s, Some e)
  end.

Definition DeleteObject (bucket key : string) (s : Store)
  : Store * option error :=
  match delete_error s with
  | Some e => (s, Some e)
  | None =>
      (mkStore (delete (bucket, key) (objects s)) (put_error s) (delete_error s),
       None)
  end.

Module R2.

Record R2Config := mkR2Config {
  AccessKeyID : string;
  AccessKeySecret : string;
  AccountID : string;
  Bucket : string;
  BaseURL : string;
  CDN : string
}.

(** The [client] field is left out: its requests are [PutObject] and
    [DeleteObject] above. *)
Record r2Provider := mk {
  bucket : string;
  endpoint : string;
  baseURL : string;
  cdn : string
}.

Definition Upload (env : Env) (p : r2Provider) (file : FileHeader.t)
    (config : UploadConfig.t) (s : Store) : Store * Result UploadResult.t :=
  match FileHeader.Body file with
  | OpenFails e => (s, Err ("failed to open source file: " +:+ e))
  | body =>
      (* Generate unique filename *)
      let filename := generateUniqueFilename env (FileHeader.Filename file) in
      let key := UploadConfig.UploadPath config +:+ "/" +:+ filename in
      match PutObject (bucket p) key (FileHeader.Header file) body s with
      | (s', Some e) => (s', Err ("failed to upload to R2: " +:+ e))
      | (s', None) =>
          (s', Ok (UploadResult.mk filename key (FileHeader.Size file)))
      end
  end.

Definition UploadBytes (env : Env) (p : r2Provider) (data : list ascii)
    (filename : string) (config : UploadConfig.t) (s : Store)
  : Store * Result UploadResult.t :=
  (* Generate unique filename *)
  let uniqueFilename := generateUniqueFilename env filename in
  let key := UploadConfig.UploadPath config +:+ "/" +:+ uniqueFilename in
  (* Detect content type from filename *)
  let contentType :=
    if strings_HasSuffix (strings_ToLower filename) ".webp" then "image/webp"
    else if strings_HasSuffix (strings_ToLower filename) ".webm" then "video/webm"
    else "application/octet-stream" in
  match PutObject (bucket p) key contentType (Content data) s with
  | (s', Some e) => (s', Err ("failed to upload to R2: " +:+ e))
  | (s', None) =>
      (s', Ok (UploadResult.mk uniqueFilename key (Z.of_nat (List.length data))))
  end.

Definition Delete (p : r2Provider) (path : string) (s : Store)
  : Store * option error :=
  DeleteObject (bucket p) path s.

Definition GetURL (p : r2Provider) (path : string) : string :=
  (* Always prefer CDN for R2 storage *)
  if negb (String.eqb (cdn p) "")
  then strings_TrimRight_slash (cdn p) +:+ "/" +:+ path
  (* Fallback to BaseURL if CDN is not configured *)
  else if negb (String.eqb (baseURL p) "")
  then strings_TrimRight_slash (baseURL p) +:+ "/" +:+ path
  (* Last resort: use R2 URL *)
  else "https://" +:+ endpoint p +:+ "/" +:+ bucket p +:+ "/" +:+ path.

Definition as_Provider (env : Env) (p : r2Provider) : Provider.t :=
  Provider.mk (Upload env p) (UploadBytes env p) (Delete p) (GetURL p).

Definition NewR2Provider (env : Env) (config : R2Config) : Result Provider.t :=
  (* R2 endpoint format: https://<account_id>.r2.cloudflarestorage.com *)
  let endpoint := "https://" +:+ AccountID config +:+ ".r2.cloudflarestorage.com" in
  match aws_LoadDefaultConfig_error env "auto" with
  | Some e => Err ("failed to create R2 config: " +:+ e)
  | None =>
      Ok (as_Provider env (mk (Bucket config) endpoint (BaseURL config) (CDN config)))
  end.

End R2.

Module S3.

Record S3Config := mkS3Config {
  APIKey : string;
  APISecret : string;
  AccessKeyID : string;
  AccessKeySecret : string;
  AccountID : string;
  Endpoint : string;
  Bucket : string;
  BaseURL : string;
  Region : string
}.

Record s3Provider := mk {
  bucket : string;
  endpoint : string;
  baseURL : string
}.

Definition Upload (env : Env) (p : s3Provider) (file : FileHeader.t)
    (config : UploadConfig.t) (s : Store) : Store * Result UploadResult.t :=
  match FileHeader.Body file with
  | OpenFails e => (s, Err ("failed to open source file: " +:+ e))
  | body =>
      let filename := generateUniqueFilename env (FileHeader.Filename file) in
      let key := UploadConfig.UploadPath config +:+ "/" +:+ filename in
      match PutObject (bucket p) key "" body s with
      | (s', Some e) => (s', Err ("failed to upload to S3: " +:+ e))
      | (s', None) =>
          (s', Ok (UploadResult.mk filename key (FileHeader.Size file)))
      end
  end.

Definition UploadBytes (env : Env) (p : s3Provider) (data : list ascii)
    (filename : string) (config : UploadConfig.t) (s : Store)
  : Store * Result UploadResult.t :=
  let uniqueFilename := generateUniqueFilename env filename in
  let key := UploadConfig.UploadPath config +:+ "/" +:+ uniqueFilename in
  match PutObject (bucket p) key "" (Content data) s with
  | (s', Some e) => (s', Err ("failed to upload to S3: " +:+ e))
  | (s', None) =>
      (s', Ok (UploadResult.mk uniqueFilename key (Z.of_nat (List.length data))))
  end.

Definition Delete (p : s3Provider) (path : string) (s : Store)
  : Store * option error :=
  DeleteObject (bucket p) path s.

Definition GetURL (p : s3Provider) (path : string) : string :=
  "https://" +:+ endpoint p +:+ "/" +:+ bucket p +:+ "/" +:+ path.

Definition as_Provider (env : Env) (p : s3Provider) : Provider.t :=
  Provider.mk (Upload env p) (UploadBytes env p) (Delete p) (GetURL p).

Definition NewS3Provider (env : Env) (config : S3Config) : Result Provider.t :=
  let endpoint :=
    if String.eqb (Endpoint config) "" then "s3.amazonaws.com"
    else Endpoint config in
  (* Region default *)
  let region :=
    if String.eqb (Region config) "" then "us-east-1" else Region config in
  match aws_LoadDefaultConfig_error env region with
  | Some e => Err ("failed to create AWS config: " +:+ e)
  | None => Ok (as_Provider env (mk (Bucket config) endpoint (BaseURL config)))
  end.

End S3.

(* ===================================================================== *)
(** * The relational store (GORM calls of the package)                    *)
(* ===================================================================== *)

(** [db.AutoMigrate(&Attachment{})]. *)
Definition db_AutoMigrate : M unit :=
  fun w =>
    match db_fault (db w) OpMigrate with
    | Some e => (w, Err e)
    | None => (w, Ok tt)
    end.

(** [db.Create(attachment)]: the row is inserted under a fresh primary key
    when its [Id] is zero, and the pointer then holds that key. *)
Definition db_Create (a : Attachment.t) : M Attachment.t :=
  tell (EvDBCreate a) ;;;
  fun w =>
    match db_fault (db w) OpCreate with
    | Some e => (w, Err e)
    | None =>
        let d := db w in
        let row :=
          if Attachment.Id a =? 0 then Attachment.with_Id a (next_id d) else a in
        (mkWorld (store w)
                 (mkDB (attachments d ++ [row]) (Z.max (next_id d) (Attachment.Id row) + 1)
                       (settings d) (db_fault d))
                 (log w),
         Ok row)
    end.

(** [db.Delete(attachment)]: the rows with the attachment's primary key get
    their soft-delete marker set. *)
Definition db_Delete (a : Attachment.t) : M unit :=
  tell (EvDBDelete a) ;;;
  fun w =>
    match db_fault (db w) OpDelete with
    | Some e => (w, Err e)
    | None =>
        let d := db w in
        let mark (row : Attachment.t) :=
          if Attachment.Id row =? Attachment.Id a
          then Attachment.with_Deleted row true else row in
        (mkWorld (store w)
                 (mkDB (map mark (attachments d)) (next_id d) (settings d) (db_fault d))
                 (log w),
         Ok tt)
    end.

(** The condition of the query of [LoadAttachment], on a live row. *)
Definition matches_key (modelType : string) (modelId : Z) (field : string)
    (row : Attachment.t) : bool :=
  (negb (Attachment.Deleted row)
   && String.eqb (Attachment.ModelType row) modelType
   && (Attachment.ModelId row =? modelId)
   && String.eqb (Attachment.Field row) field)%bool.

(** [First] orders by primary key: the row of least [Id]. *)
Definition least_Id (best : option Attachment.t) (row : Attachment.t)
  : option Attachment.t :=
  match best with
  | None => Some row
  | Some b => if Attachment.Id row <? Attachment.Id b then Some row else Some b
  end.

(** [db.Where("model_type = ? AND model_id = ? AND field = ?", ...).First(&a)]. *)
Definition db_First_Attachment (modelType : string) (modelId : Z)
    (field : string) : M Attachment.t :=
  fun w =>
    match db_fault (db w) OpQuery with
    | Some e => (w, Err e)
    | None =>
        match fold_left least_Id
                (List.filter (matches_key modelType modelId field)
                             (attachments (db w))) None with
        | Some row => (w, Ok row)
        | None => (w, Err "record not found")
        end
    end.

(** The logged calls of the provider. *)
Definition provider_Upload (p : Provider.t) (file : FileHeader.t)
    (config : UploadConfig.t) : M UploadResult.t :=
  tell (EvUpload file config) ;;;
  fun w =>
    let '(s', r) := Provider.Upload p file config (store w) in
    (mkWorld s' (db w) (log w), r).

Definition provider_UploadBytes (p : Provider.t) (data : list ascii)
    (filename : string) (config : UploadConfig.t) : M UploadResult.t :=
  tell (EvUploadBytes data filename config) ;;;
  fun w =>
    let '(s', r) := Provider.UploadBytes p data filename config (store w) in
    (mkWorld s' (db w) (log w), r).

(** [provider.Delete(path)], the outcome returned as a value. *)
Definition provider_Delete (p : Provider.t) (path : string) : M (option error) :=
  tell (EvProviderDelete path) ;;;
  fun w =>
    let '(s', r) := Provider.Delete p path (store w) in
    (mkWorld s' (db w) (log w), Ok r).

(* ===================================================================== *)
(** * The orchestrator                                                    *)
(* ===================================================================== *)

(** Modelled from the spec: the construction-time [Config] (section 6),
    with the fields [NewActiveStorage] reads. *)
Module Config.
Record t := mk {
  Provider : string;
  Path : string;
  BaseURL : string;
  APIKey : string;
  APISecret : string;
  AccountID : string;
  Endpoint : string;
  Bucket : string;
  CDN : string;
  Region : string
}.
End Config.

Module ActiveStorage.

(** Modelled from the spec: the [ActiveStorage] struct, with the fields
    [NewActiveStorage] sets.  The [db] handle is the [db] of the [World];
    a nil converter is [None]. *)
Record t := mk {
  provider : Provider.t;
  defaultPath : string;
  configs : gmap string (gmap string AttachmentConfig.t);
  imageProcessor : option ImageProcessor.t;
  videoConverter : option VideoConverter.t;
  audioConverter : option AudioConverter.t
}.

(** [NewLocalProvider], whose source is not at hand, is the parameter
    [newLocal] (base path, base URL). *)
Definition NewActiveStorage (env : Env)
    (newLocal : string -> string -> Result Provider.t) (config : Config.t)
  : M t :=
  (* Get current working directory *)
  cwd <- lift (wrap "failed to get working directory: " (os_Getwd env)) ;;
  (* If path is relative, make it absolute using cwd *)
  let storagePath :=
    if strings_HasPrefix (Config.Path config) "/" then Config.Path config
    else filepath_Join [cwd; Config.Path config] in
  let kind := strings_ToLower (Config.Provider config) in
  let made :=
    if String.eqb kind "local" then
      Some (newLocal storagePath (Config.BaseURL config))
    else if String.eqb kind "s3" then
      Some (S3.NewS3Provider env
              (S3.mkS3Config (Config.APIKey config) (Config.APISecret config)
                 (Config.APIKey config) (Config.APISecret config)
                 (Config.AccountID config) (Config.Endpoint config)
                 (Config.Bucket config) (Config.BaseURL config)
                 (Config.Region config)))
    else if String.eqb kind "r2" then
      Some (R2.NewR2Provider env
              (R2.mkR2Config (Config.APIKey config) (Config.APISecret config)
                 (Config.AccountID config) (Config.Bucket config)
                 (Config.BaseURL config) (Config.CDN config)))
    else None in
  match made with
  | None => fail ("unsupported storage provider: " +:+ Config.Provider config)
  | Some r =>
      provider <- lift (wrap "failed to initialize storage provider: " r) ;;
      let as_ :=
        mk provider storagePath ∅
           (Some (ImageProcessor.NewImageProcessor 85))
           (Some (VideoConverter.NewVideoConverter 23))
           (Some (AudioConverter.NewAudioConverter 96)) in
      (* Auto-migrate the Attachment model *)
      wrapM "failed to migrate attachments table: " db_AutoMigrate ;;;
      ret as_
  end.

Definition RegisterAttachment (as_ : t) (modelName : string)
    (config : AttachmentConfig.t) : t :=
  let fields :=
    match configs as_ !! modelName with
    | Some m => m
    | None => ∅
    end in
  mk (provider as_) (defaultPath as_)
     (<[modelName := <[AttachmentConfig.Field config := config]> fields]> (configs as_))
     (imageProcessor as_) (videoConverter as_) (audioConverter as_).

Definition getConfig (as_ : t) (modelName field : string)
  : Result AttachmentConfig.t :=
  match configs as_ !! modelName with
  | None => Err ("no attachment config found for model " +:+ modelName)
  | Some modelConfigs =>
      match modelConfigs !! field with
      | None =>
          Err ("no attachment config found for field " +:+ field
               +:+ " in model " +:+ modelName)
      | Some config => Ok config
      end
  end.

(** [nil] is [None]. *)
Definition validateFile (file : FileHeader.t) (config : AttachmentConfig.t)
  : option error :=
  if FileHeader.Size file >? AttachmentConfig.MaxFileSize config
  then Some ("file size exceeds maximum allowed size of "
             +:+ pretty (AttachmentConfig.MaxFileSize config) +:+ " bytes")
  else
    let ext := strings_ToLower (filepath_Ext (FileHeader.Filename file)) in
    if (negb (Nat.eqb (List.length (AttachmentConfig.AllowedExtensions config)) 0)
        && negb (strings_Contains
                   (strings_Join (AttachmentConfig.AllowedExtensions config) ",")
                   ext))%bool
    then Some ("file extension " +:+ ext +:+ " is not allowed")
    else None.

(** Section 4.4, step 2, in the words of the specification: the extension
    is a member of [AllowedExtensions], compared case-insensitively. *)
Definition extension_allowed (file : FileHeader.t) (config : AttachmentConfig.t)
  : bool :=
  existsb (fun allowed =>
             String.eqb (strings_ToLower allowed)
                        (strings_ToLower (filepath_Ext (FileHeader.Filename file))))
          (AttachmentConfig.AllowedExtensions config).

(** [getSettingBool]: the value of the row, [defaultValue] on any error
    (no such row, or a failing query). *)
Definition getSettingBool (key : string) (defaultValue : bool) : M bool :=
  fun w =>
    match db_fault (db w) OpQuery with
    | Some _ => (w, Ok defaultValue)
    | None =>
        match settings (db w) !! key with
        | Some v => (w, Ok v)
        | None => (w, Ok defaultValue)
        end
    end.

(** Lines 101-130 of [Attach]: the three conversion toggles are read and
    the converters tried, image first, then video, then audio. *)
Definition Attach_convert (env : Env) (as_ : t) (file : FileHeader.t)
  : M Converted :=
  (* Get media conversion settings from database *)
  convertImages <- getSettingBool "media_convert_images" true ;;
  convertVideos <- getSettingBool "media_convert_videos" true ;;
  convertAudio <- getSettingBool "media_convert_audio" true ;;
  (* Try to convert images to WebP (if enabled) *)
  c1 <- match convertImages, imageProcessor as_ with
        | true, Some ip =>
            wrapM "failed to convert image to webp: "
                  (ImageProcessor.ConvertToWebP env ip file)
        | _, _ => ret (None, "")
        end ;;
  (* If not converted to image, try video conversion to WebM (if enabled) *)
  c2 <- match fst c1, convertVideos, videoConverter as_ with
        | None, true, Some vc =>
            wrapM "failed to convert video to webm: "
                  (VideoConverter.ConvertToWebM env vc file)
        | _, _, _ => ret c1
        end ;;
  (* If not converted to image or video, try audio conversion to Opus *)
  match fst c2, convertAudio, audioConverter as_ with
  | None, true, Some ac =>
      wrapM "failed to convert audio to opus: "
            (AudioConverter.ConvertToOpus env ac file)
  | _, _, _ => ret c2
  end.

(** [finalFile] of [Attach]: the upload itself, or a fresh header for the
    converted data. *)
Definition finalFile (file : FileHeader.t) (c : Converted) : FileHeader.t :=
  match c with
  | (Some convertedData, convertedFilename) =>
      FileHeader.mk convertedFilename (Z.of_nat (List.length convertedData))
                    (FileHeader.Header file) (Content [])
  | (None, _) => file
  end.

(** Lines 143-150 of [Attach]: the record, before the upload. *)
Definition newAttachment (model : Attachable.t) (field : string)
    (final : FileHeader.t) : Attachment.t :=
  Attachment.mk 0 (Attachable.GetModelName model) (Attachable.GetId model)
                field (FileHeader.Filename final) "" "" (FileHeader.Size final)
                false.

Definition uploadConfig (model : Attachable.t) (field : string)
    (config : AttachmentConfig.t) : UploadConfig.t :=
  UploadConfig.mk (AttachmentConfig.AllowedExtensions config)
                  (AttachmentConfig.MaxFileSize config)
                  (filepath_Join [AttachmentConfig.Path config;
                                  Attachable.GetModelName model; field]).

(** Lines 152-170 of [Attach]: upload file using provider (with converted
    data if available). *)
Definition Attach_upload (as_ : t) (model : Attachable.t) (field : string)
    (config : AttachmentConfig.t) (file : FileHeader.t) (c : Converted)
  : M UploadResult.t :=
  let final := finalFile file c in
  match fst c with
  | Some convertedData =>
      provider_UploadBytes (provider as_) convertedData
                           (FileHeader.Filename final)
                           (uploadConfig model field config)
  | None => provider_Upload (provider as_) final (uploadConfig model field config)
  end.

(** Lines 172-183 of [Attach]: the upload result is folded in and the
    record saved; the blob is deleted again when that fails. *)
Definition Attach_persist (as_ : t) (attachment : Attachment.t)
    (result : UploadResult.t) : M Attachment.t :=
  (* Update attachment with upload result *)
  let attachment :=
    Attachment.with_Path_URL attachment (UploadResult.Path result)
      (Provider.GetURL (provider as_) (UploadResult.Path result)) in
  (* Save attachment record *)
  fun w =>
    match db_Create attachment w with
    | (w', Err e) =>
        (* Try to delete uploaded file if record creation fails *)
        let '(w'', _) :=
          provider_Delete (provider as_) (UploadResult.Path result) w' in
        (w'', Err e)
    | (w', Ok row) => (w', Ok row)
    end.

Definition Attach (env : Env) (as_ : t) (model : Attachable.t)
    (field : string) (file : FileHeader.t) : M Attachment.t :=
  (* Get config for model *)
  config <- lift (getConfig as_ (Attachable.GetModelName model) field) ;;
  (* Validate file *)
  match validateFile file config with
  | Some e => fail e
  | None =>
      c <- Attach_convert env as_ file ;;
      result <- Attach_upload as_ model field config file c ;;
      Attach_persist as_ (newAttachment model field (finalFile file c)) result
  end.

Definition Delete (as_ : t) (attachment : Attachment.t) : M unit :=
  err <- provider_Delete (provider as_) (Attachment.Path attachment) ;;
  match err with
  | Some e => fail e
  | None => db_Delete attachment
  end.

Definition GetProvider (as_ : t) : Provider.t := provider as_.

Definition LoadAttachment (as_ : t) (model : Attachable.t) (field : string)
  : M Attachment.t :=
  attachment <- db_First_Attachment (Attachable.GetModelName model)
                                    (Attachable.GetId model) field ;;
  (* Ensure URL has full path with CDN *)
  ret (Attachment.with_URL attachment
         (Provider.GetURL (provider as_) (Attachment.Path attachment))).

End ActiveStorage.

(* ===================================================================== *)
(** * Reading the spy log; the conversion rule of the specification       *)
(* ===================================================================== *)

(** [w] after the calls [evs], store and tables untouched. *)
Definition logged (w : World) (evs : list Event) : World :=
  mkWorld (store w) (db w) (log w ++ evs).

Inductive Kind := KImage | KVideo | KAudio.

(** The converter an event is a call of, if any. *)
Definition converter_of (ev : Event) : option Kind :=
  match ev with
  | EvConvertToWebP _ => Some KImage
  | EvConvertToWebM _ => Some KVideo
  | EvConvertToOpus _ => Some KAudio
  | _ => None
  end.

(** The converters called, in the order of the calls. *)
Fixpoint converter_calls (evs : list Event) : list Kind :=
  match evs with
  | [] => []
  | ev :: rest =>
      match converter_of ev with
      | Some k => k :: converter_calls rest
      | None => converter_calls rest
      end
  end.

Definition is_upload (ev : Event) : bool :=
  match ev with
  | EvUpload _ _ | EvUploadBytes _ _ _ => true
  | _ => false
  end.

(** The provider's [Upload] and [UploadBytes] calls. *)
Definition uploads (evs : list Event) : list Event := List.filter is_upload evs.

(** The provider call [Attach] makes for the converted (or original)
    file. *)
Definition upload_event (model : Attachable.t) (field : string)
    (config : AttachmentConfig.t) (file : FileHeader.t) (c : Converted) : Event :=
  match fst c with
  | Some convertedData =>
      EvUploadBytes convertedData
        (FileHeader.Filename (ActiveStorage.finalFile file c))
        (ActiveStorage.uploadConfig model field config)
  | None =>
      EvUpload (ActiveStorage.finalFile file c)
               (ActiveStorage.uploadConfig model field config)
  end.

(** The file-type predicate of each converter. *)
Definition IsFile (k : Kind) (filename : string) : bool :=
  match k with
  | KImage => ImageProcessor.IsImageFile filename
  | KVideo => VideoConverter.IsVideoFile filename
  | KAudio => AudioConverter.IsAudioFile filename
  end.

(** The extension each converter turns a file name to. *)
Definition target_ext (k : Kind) : string :=
  match k with
  | KImage => ".webp"
  | KVideo => ".webm"
  | KAudio => ".opus"
  end.

(** [m] behaves as a call of the converter [k] on [file]: it touches
    neither the store nor the tables, it is the one converter call in what
    it logs, it uploads nothing, and it yields bytes only for a file its
    predicate accepts, under a name that ends in the target extension. *)
Definition converts_as (k : Kind) (file : FileHeader.t) (m : M Converted) : Prop :=
  forall w, exists evs r,
    m w = (logged w evs, r)
    /\ converter_calls evs = [k]
    /\ uploads evs = []
    /\ (forall c, r = Ok c -> fst c <> None ->
          IsFile k (FileHeader.Filename file) = true
          /\ snd c = strings_TrimSuffix (FileHeader.Filename file)
                       (filepath_Ext (FileHeader.Filename file))
                     +:+ target_ext k).

(** The value of a boolean setting as [getSettingBool] reads it. *)
Definition setting (d : DB) (key : string) (defaultValue : bool) : bool :=
  match db_fault d OpQuery with
  | Some _ => defaultValue
  | None =>
      match settings d !! key with
      | Some v => v
      | None => defaultValue
      end
  end.

(** The calls the image stage makes on a file that is no image. *)
Definition image_stage_calls (as_ : ActiveStorage.t) (file : FileHeader.t)
    (d : DB) : list Event :=
  match setting d "media_convert_images" true, ActiveStorage.imageProcessor as_ with
  | true, Some _ => [EvConvertToWebP file]
  | _, _ => []
  end.

(** Section 4.2, in the words of the specification: the converters are
    attempted in the order given; the first whose output is non-nil wins
    and the later ones are not attempted; an error ends the call; when none
    produces output the result carries no bytes. *)
Fixpoint first_output (converters : list (M Converted)) (none : Converted)
  : M Converted :=
  match converters with
  | [] => ret none
  | convert :: later =>
      c <- convert ;;
      match fst c with
      | Some _ => ret c
      | None => first_output later c
      end
  end.

(** A converter takes part when its setting is on and it is not nil. *)
Definition enabled {A : Type} (on : bool) (converter : option A)
    (convert : A -> M Converted) : list (M Converted) :=
  match on, converter with
  | true, Some x => [convert x]
  | _, _ => []
  end.

(** The converters of one [Attach] call in the fixed order image, video,
    audio, each with the wrapping of its error. *)
Definition converters_in_order (env : Env) (as_ : ActiveStorage.t)
    (file : FileHeader.t) (d : DB) : list (M Converted) :=
  enabled (setting d "media_convert_images" true) (ActiveStorage.imageProcessor as_)
          (fun ip => wrapM "failed to convert image to webp: "
                           (ImageProcessor.ConvertToWebP env ip file))
  ++ enabled (setting d "media_convert_videos" true) (ActiveStorage.videoConverter as_)
             (fun vc => wrapM "failed to convert video to webm: "
                              (VideoConverter.ConvertToWebM env vc file))
  ++ enabled (setting d "media_convert_audio" true) (ActiveStorage.audioConverter as_)
             (fun ac => wrapM "failed to convert audio to opus: "
                              (AudioConverter.ConvertToOpus env ac file)).

(** The same list, each converter with its kind. *)
Definition kinded_converters (env : Env) (as_ : ActiveStorage.t)
    (file : FileHeader.t) (d : DB) : list (Kind * M Converted) :=
  map (pair KImage)
      (enabled (setting d "media_convert_images" true) (ActiveStorage.imageProcessor as_)
          (fun ip => wrapM "failed to convert image to webp: "
                           (ImageProcessor.ConvertToWebP env ip file)))
  ++ map (pair KVideo)
       (enabled (setting d "media_convert_videos" true) (ActiveStorage.videoConverter as_)
             (fun vc => wrapM "failed to convert video to webm: "
                              (VideoConverter.ConvertToWebM env vc file)))
  ++ map (pair KAudio)
       (enabled (setting d "media_convert_audio" true) (ActiveStorage.audioConverter as_)
             (fun ac => wrapM "failed to convert audio to opus: "
                              (AudioConverter.ConvertToOpus env ac file))).

(* ===================================================================== *)
(** * A concrete world, for examples                                      *)
(* ===================================================================== *)

Module Demo.

(** Codecs that recognise a one-letter magic and an encoder that tags its
    output; the encoder binary is on the PATH iff [ffmpeg] says so. *)
Definition decode_magic (magic : ascii) (data : list ascii) : Result Image :=
  match data with
  | c :: pixels => if Ascii.eqb c magic then Ok (Raster 1 1 pixels)
                   else Err "bad magic"
  | [] => Err "unexpected EOF"
  end.

Definition encode_webp (quality : Z) (img : Image) : Result (list ascii) :=
  match img with
  | Raster _ _ pixels => Ok (list_ascii_of_string "RIFF" ++ pixels)%list
  end.

Definition env (ffmpeg : bool) : Env :=
  mkEnv (fun name => "1700000000_" +:+ name)
        (decode_magic "J") (decode_magic "P") (decode_magic "R")
        (fun _ => Err "image: unknown format")
        (fun _ => None)
        encode_webp
        (fun binary => (String.eqb binary "ffmpeg" && ffmpeg)%bool)
        (fun pattern => Ok ("/tmp/" +:+ pattern))
        None
        (fun _ input => inr (list_ascii_of_string "WEBM" ++ input)%list)
        None
        (Ok "/srv/app")
        (fun _ => None).

Definition no_faults (op : DbOp) : option error := None.

Definition create_fails (op : DbOp) : option error :=
  match op with
  | OpCreate => Some "duplicate key"
  | _ => None
  end.

Definition world (faults : DbOp -> option error) (delete_error : option error)
  : World :=
  mkWorld (mkStore ∅ None delete_error) (mkDB [] 1 ∅ faults) [].


Definition r2 : R2.r2Provider :=
  R2.mk "assets" "https://acct.r2.cloudflarestorage.com" "" "https://cdn.example.com/".

Definition r2config : R2.R2Config :=
  R2.mkR2Config "key" "secret" "acct" "assets" "https://files.example.com"
                "https://cdn.example.com//".

Definition avatar : AttachmentConfig.t :=
  AttachmentConfig.mk "avatar" "avatars" [".jpg"; ".jpeg"; ".png"; ".gif"]
                      (5 * 1024 * 1024) false.

Definition media : AttachmentConfig.t :=
  AttachmentConfig.mk "file" "media/files"
    [".jpg"; ".jpeg"; ".png"; ".heic"; ".heif"; ".webp"; ".mp4"; ".mov";
     ".avi"; ".mkv"; ".webm"; ".mp3"; ".wav"; ".ogg"; ".opus"]
    (100 * 1024 * 1024) false.

(** A policy that lists no extension. *)
Definition documents : AttachmentConfig.t :=
  AttachmentConfig.mk "document" "docs" [] (5 * 1024 * 1024) false.

Definition storage (ffmpeg : bool) : ActiveStorage.t :=
  ActiveStorage.RegisterAttachment
   (ActiveStorage.RegisterAttachment
    (ActiveStorage.RegisterAttachment
       (ActiveStorage.mk (R2.as_Provider (env ffmpeg) r2) "/srv/app/storage" ∅
          (Some (ImageProcessor.NewImageProcessor 85))
          (Some (VideoConverter.NewVideoConverter 23))
          (Some (AudioConverter.NewAudioConverter 96)))
       "users" avatar)
    "media" media)
   "users" documents.

Definition user7 : Attachable.t := Attachable.mk "users" 7.
Definition media3 : Attachable.t := Attachable.mk "media" 3.

Definition png : FileHeader.t :=
  FileHeader.mk "Face.PNG" 2048 "image/png" (Content (list_ascii_of_string "Pxyz")).

Definition pdf : FileHeader.t :=
  FileHeader.mk "report.pdf" 10240 "application/pdf"
                (Content (list_ascii_of_string "%PDF")).

Definition gif : FileHeader.t :=
  FileHeader.mk "wave.gif" 512 "image/gif" (Content (list_ascii_of_string "GIF89a")).

Definition mp4 : FileHeader.t :=
  FileHeader.mk "clip.mp4" 4096 "video/mp4" (Content (list_ascii_of_string "mdat")).

End Demo.

(* ===================================================================== *)
(** * Further functions of the package and of its callers                 *)
(* ===================================================================== *)

(** [ConvertToWebPBytes] of [ImageProcessor]: the in-memory variant of
    [ConvertToWebP].  It logs nothing and hands back its input when the
    file is no image or already WebP. *)
Definition ConvertToWebPBytes (env : Env) (ip : ImageProcessor.t)
    (data : option (list ascii)) (originalFilename : string)
  : Result (option (list ascii) * string) :=
  (* Check if it's an image file *)
  if negb (ImageProcessor.IsImageFile originalFilename)
  then Ok (data, originalFilename)
  (* Check if already WebP *)
  else if String.eqb (strings_ToLower (filepath_Ext originalFilename)) ".webp"
  then Ok (data, originalFilename)
  else
    let content := match data with Some l => l | None => [] end in
    match ImageProcessor.decodeImage env content originalFilename with
    | Err e => Err ("failed to decode image: " +:+ e)
    | Ok img =>
        match NewLossyEncoderOptions env (ImageProcessor.Quality ip) with
        | Some e => Err ("failed to create encoder options: " +:+ e)
        | None =>
            match webp_Encode env (ImageProcessor.Quality ip) img with
            | Err e => Err ("failed to encode to webp: " +:+ e)
            | Ok written =>
                let ext := filepath_Ext originalFilename in
                let newFilename :=
                  strings_TrimSuffix originalFilename ext +:+ ".webp" in
                Ok (buffer_Bytes written, newFilename)
            end
        end
    end.

(** [getMediaTypeFromExtension] of [core/app/media/sync.go]: the type the
    R2 sync gives a media record. *)
Definition getMediaTypeFromExtension (filename : string) : string :=
  let ext := strings_ToLower (filepath_Ext filename) in
  let among := existsb (fun e => String.eqb ext e) in
  if among [".jpg"; ".jpeg"; ".png"; ".gif"; ".webp"; ".svg"; ".bmp"; ".tiff"; ".tif"]
  then "image"
  else if among [".mp3"; ".wav"; ".ogg"; ".m4a"; ".flac"] then "audio"
  else if among [".mp4"; ".webm"; ".mov"; ".avi"; ".mkv"] then "video"
  else "other".

(** The name of a [MediaType], as the Go constants spell it. *)
Definition MediaType_name (t : MediaType) : string :=
  match t with
  | MediaTypeImage => "image"
  | MediaTypeVideo => "video"
  | MediaTypeAudio => "audio"
  | MediaTypeDocument => "document"
  | MediaTypeOther => "other"
  end.

(** The same upload under another file name. *)
Definition renamed (file : FileHeader.t) (filename : string) : FileHeader.t :=
  FileHeader.mk filename (FileHeader.Size file) (FileHeader.Header file)
                (FileHeader.Body file).

(** The row carries the owner's key and is not soft-deleted. *)
Definition is_live_for (model : Attachable.t) (field : string)
    (row : Attachment.t) : bool :=
  matches_key (Attachable.GetModelName model) (Attachable.GetId model) field row.

(** Every primary key in the table is below the next one to be given
    out, as auto-increment keeps it. *)
Definition ids_below_next (d : DB) : Prop :=
  Forall (fun row => Attachment.Id row < next_id d) (attachments d).

Module Demo2.

Definition wav : FileHeader.t :=
  FileHeader.mk "voice.wav" 2048 "audio/wav" (Content (list_ascii_of_string "RIFFdata")).

(** A table that already holds a live avatar of user 7. *)
Definition world_with_avatar : World :=
  mkWorld (mkStore ∅ None None)
          (mkDB [Attachment.mk 1 "users" 7 "avatar" "old.webp"
                   "avatars/users/avatar/1600000000_old.webp" "" 9 false]
                2 ∅ Demo.no_faults)
          [].

Definition old_avatar : Attachment.t :=
  Attachment.mk 1 "users" 7 "avatar" "old.webp"
    "avatars/users/avatar/1600000000_old.webp"
    "https://cdn.example.com/avatars/users/avatar/1600000000_old.webp" 9 false.

Definition new_avatar : Attachment.t :=
  Attachment.mk 2 "users" 7 "avatar" "Face.webp"
    "avatars/users/avatar/1700000000_Face.webp"
    "https://cdn.example.com/avatars/users/avatar/1700000000_Face.webp" 7 false.

(** A table with two live avatars of user 7, the newer one first. *)
Definition world_two_avatars : World :=
  mkWorld (mkStore ∅ None None)
          (mkDB [new_avatar; old_avatar] 3 ∅ Demo.no_faults) [].

(** A bucket that refuses every write. *)
Definition world_put_fails : World :=
  mkWorld (mkStore ∅ (Some "503 Slow Down") None) (mkDB [] 1 ∅ Demo.no_faults) [].

Definition s3config : S3.S3Config :=
  S3.mkS3Config "key" "secret" "key" "secret" "" "" "assets"
                "https://files.example.com" "".

Definition config_r2 : Config.t :=
  Config.mk "R2" "storage" "" "key" "secret" "acct" "" "assets"
            "https://cdn.example.com" "".

(** Codecs that hand back what they are given: the decoder keeps the
    bytes as the pixels, the encoder writes the pixels. *)
Definition env_echo : Env :=
  mkEnv (generateUniqueFilename (Demo.env true))
        (fun data => Ok (Raster 1 1 data)) (fun data => Ok (Raster 1 1 data))
        (fun data => Ok (Raster 1 1 data)) (fun data => Ok (Raster 1 1 data))
        (fun _ => None)
        (fun _ img => match img with Raster _ _ pixels => Ok pixels end)
        (exec_LookPath (Demo.env true))
        (os_CreateTemp (Demo.env true))
        None
        (ffmpeg_Run (Demo.env true))
        None
        (os_Getwd (Demo.env true))
        (fun _ => None).

End Demo2.

(* ===================================================================== *)
(** * Examples                                                            *)
(* ===================================================================== *)

Example Ext_photo : filepath_Ext "a/b.c/Photo.PNG" = ".PNG".
Proof. reflexivity. Qed.
Example Ext_dir_dot : filepath_Ext "a/b.c/README" = "".
Proof. reflexivity. Qed.
Example TrimSuffix_png : strings_TrimSuffix "Photo.PNG" ".PNG" = "Photo".
Proof. reflexivity. Qed.
Example Join_three : filepath_Join ["media/files/"; "media"; "file"] = "media/files/media/file".
Proof. reflexivity. Qed.
Example Join_dots : filepath_Join ["/a/../b"; ""; "./c"] = "/b/c".
Proof. reflexivity. Qed.
Example TrimRight_slashes : strings_TrimRight_slash "https://cdn.example.com//" = "https://cdn.example.com".
Proof. reflexivity. Qed.

Example demo_attach_png :
  let '(w, r) := ActiveStorage.Attach (Demo.env true) (Demo.storage true)
                   Demo.user7 "avatar" Demo.png (Demo.world Demo.no_faults None) in
  r = Ok (Attachment.mk 1 "users" 7 "avatar" "Face.webp"
            "avatars/users/avatar/1700000000_Face.webp"
            "https://cdn.example.com/avatars/users/avatar/1700000000_Face.webp"
            7 false)
  /\ objects (store w) !! ("assets", "avatars/users/avatar/1700000000_Face.webp")
     = Some (mkObject "image/webp" (list_ascii_of_string "RIFFxyz")).
Proof. vm_compute. split; reflexivity. Qed.

(* ===================================================================== *)
(** * Facts about the string functions                                    *)
(* ===================================================================== *)

Section StringFacts.

Lemma list_ascii_app (a b : string) :
  list_ascii_of_string (a +:+ b)
  = (list_ascii_of_string a ++ list_ascii_of_string b)%list.
Proof. induction a as [|c a IH]; simpl; [reflexivity | now rewrite IH]. Qed.

Lemma string_of_list_app (l1 l2 : list ascii) :
  string_of_list_ascii (l1 ++ l2)
  = string_of_list_ascii l1 +:+ string_of_list_ascii l2.
Proof. induction l1 as [|c l1 IH]; simpl; [reflexivity | now rewrite IH]. Qed.

Lemma HasPrefix_app (p r : string) : strings_HasPrefix (p +:+ r) p = true.
Proof.
  induction p as [|c p IH]; simpl; [reflexivity |].
  now rewrite Ascii.eqb_refl, IH.
Qed.

Lemma HasPrefix_refl (p : string) : strings_HasPrefix p p = true.
Proof.
  induction p as [|c p IH]; simpl; [reflexivity |].
  now rewrite Ascii.eqb_refl, IH.
Qed.

Lemma HasPrefix_app_l (s p t : string) :
  strings_HasPrefix s p = true -> strings_HasPrefix (s +:+ t) p = true.
Proof.
  revert s; induction p as [|c p IH]; intros s H; [reflexivity |].
  destruct s as [|d s]; simpl in *; [discriminate |].
  apply andb_true_iff in H as [Hc Hp]. rewrite Hc. simpl. now apply IH.
Qed.

Lemma HasSuffix_app (x s : string) : strings_HasSuffix (x +:+ s) s = true.
Proof.
  unfold strings_HasSuffix.
  rewrite list_ascii_app, rev_app_distr, string_of_list_app.
  apply HasPrefix_app.
Qed.

Lemma Contains_prefix (s p : string) :
  strings_HasPrefix s p = true -> strings_Contains s p = true.
Proof. intros H. destruct s; simpl in *; rewrite H; reflexivity. Qed.

Lemma Contains_app_r (t s x : string) :
  strings_Contains s x = true -> strings_Contains (t +:+ s) x = true.
Proof.
  intros H. induction t as [|c t IH]; simpl; [exact H |].
  rewrite IH. apply orb_true_r.
Qed.

Lemma Contains_cons (c : ascii) (s x : string) :
  strings_Contains (String c s) x
  = (strings_HasPrefix (String c s) x || strings_Contains s x)%bool.
Proof. reflexivity. Qed.

Lemma Contains_app_l (s t x : string) :
  strings_Contains s x = true -> strings_Contains (s +:+ t) x = true.
Proof.
  induction s as [|c s IH]; intros H.
  - simpl in H. rewrite orb_false_r in H. destruct x; [|discriminate].
    destruct t; reflexivity.
  - rewrite Contains_cons in H.
    change (String c s +:+ t) with (String c (s +:+ t)).
    rewrite Contains_cons.
    apply orb_true_iff in H as [H | H].
    + apply (HasPrefix_app_l _ _ t) in H.
      change (String c s +:+ t) with (String c (s +:+ t)) in H.
      rewrite H. reflexivity.
    + rewrite (IH H). apply orb_true_r.
Qed.

(** A listed element occurs in the joined list. *)
Lemma Contains_Join (elems : list string) (sep x : string) :
  In x elems -> strings_Contains (strings_Join elems sep) x = true.
Proof.
  induction elems as [|a rest IH]; intros Hin; [destruct Hin |].
  destruct Hin as [-> | Hin].
  - destruct rest as [|b rest]; simpl strings_Join.
    + apply Contains_prefix, HasPrefix_refl.
    + apply Contains_prefix, HasPrefix_app.
  - destruct rest as [|b rest]; [destruct Hin |].
    change (strings_Join (a :: b :: rest) sep)
      with (a +:+ sep +:+ strings_Join (b :: rest) sep).
    apply Contains_app_r, Contains_app_r, IH, Hin.
Qed.

(** [strings.TrimRight(s, "/")] leaves no trailing slash and removes
    nothing but slashes. *)
Lemma drop_slashes_spec (l : list ascii) :
  exists n, l = (repeat "/"%char n ++ drop_slashes l)%list
            /\ (forall r, drop_slashes l <> "/"%char :: r).
Proof.
  induction l as [|c l (n & Hl & Hno)]; simpl.
  - exists 0%nat. split; [reflexivity | discriminate].
  - destruct (Ascii.eqb_spec c "/") as [-> | Hc].
    + exists (S n). split; [simpl; now rewrite <- Hl | exact Hno].
    + exists 0%nat. split; [reflexivity |]. intros r [= E _]. now apply Hc.
Qed.

Lemma TrimRight_slash_spec (s : string) :
  exists n,
    s = strings_TrimRight_slash s +:+ string_of_list_ascii (repeat "/"%char n)
    /\ strings_HasSuffix (strings_TrimRight_slash s) "/" = false.
Proof.
  unfold strings_TrimRight_slash, strings_HasSuffix.
  destruct (drop_slashes_spec (rev (list_ascii_of_string s))) as (n & Hl & Hno).
  exists n. split.
  - rewrite <- string_of_list_app.
    rewrite <- (string_of_list_ascii_of_string s) at 1. f_equal.
    rewrite <- (rev_involutive (list_ascii_of_string s)), Hl at 1.
    rewrite rev_app_distr. f_equal.
    clear. induction n as [|n IH]; simpl; [reflexivity |].
    rewrite IH. clear. induction n as [|n IH]; simpl; [reflexivity | now rewrite <- IH].
  - rewrite list_ascii_of_string_of_list_ascii, rev_involutive.
    destruct (drop_slashes (rev (list_ascii_of_string s))) as [|c r] eqn:E;
      [reflexivity |].
    destruct (Ascii.eqb_spec "/" c) as [<- | Hc]; [now destruct (Hno r) |].
    apply Ascii.eqb_neq in Hc. cbn -[Ascii.eqb]. now rewrite Hc.
Qed.

End StringFacts.

(* ===================================================================== *)
(** * The converters' constructors                                        *)
(* ===================================================================== *)

(** Quality 0 is not kept: the guard of [NewImageProcessor] is
    [quality <= 0], so 0 falls back to the default although it lies in
    0-100.  (C8, as stated, fails at [q = 0].) *)
Lemma NewImageProcessor_zero_is_default :
  0 <= 0 <= 100
  /\ ImageProcessor.Quality (ImageProcessor.NewImageProcessor 0) = 85
  /\ ImageProcessor.Quality (ImageProcessor.NewImageProcessor 0) <> 0.
Proof. split; [lia |]. split; [reflexivity | discriminate]. Qed.

(** C8 (amended): the constructed [ImageProcessor]'s [Quality] is [q] for
    every [q] from 1 to 100 and the default 85 for every other [q]
    (0 included). *)
Theorem NewImageProcessor_Quality (q : Z) :
  ImageProcessor.Quality (ImageProcessor.NewImageProcessor q)
  = if ((1 <=? q) && (q <=? 100))%bool then q else 85.
Proof.
  unfold ImageProcessor.NewImageProcessor. simpl.
  destruct (Z.leb_spec q 0), (Z.gtb_spec q 100), (Z.leb_spec 1 q),
    (Z.leb_spec q 100); simpl; lia.
Qed.

(** The sibling constructors, for comparison: CRF 0 is kept by
    [NewVideoConverter]; a bitrate of 0 is replaced by [NewAudioConverter]. *)
Lemma NewVideoConverter_Quality (q : Z) :
  VideoConverter.Quality (VideoConverter.NewVideoConverter q)
  = if ((0 <=? q) && (q <=? 51))%bool then q else 23.
Proof.
  unfold VideoConverter.NewVideoConverter. simpl.
  destruct (Z.ltb_spec q 0), (Z.gtb_spec q 51), (Z.leb_spec 0 q),
    (Z.leb_spec q 51); simpl; lia.
Qed.

Lemma NewAudioConverter_Bitrate (b : Z) :
  AudioConverter.Bitrate (AudioConverter.NewAudioConverter b)
  = if 1 <=? b then b else 96.
Proof.
  unfold AudioConverter.NewAudioConverter. simpl.
  destruct (Z.leb_spec b 0), (Z.leb_spec 1 b); simpl; lia.
Qed.

(* ===================================================================== *)
(** * The R2 provider                                                     *)
(* ===================================================================== *)

(** The provider [NewR2Provider] builds answers [GetURL] like the
    [r2Provider] made of the configuration's fields. *)
Lemma NewR2Provider_GetURL (env : Env) (config : R2.R2Config)
    (p : Provider.t) (path : string) :
  R2.NewR2Provider env config = Ok p ->
  Provider.GetURL p path
  = R2.GetURL (R2.mk (R2.Bucket config)
                 ("https://" +:+ R2.AccountID config +:+ ".r2.cloudflarestorage.com")
                 (R2.BaseURL config) (R2.CDN config)) path.
Proof.
  unfold R2.NewR2Provider.
  destruct (aws_LoadDefaultConfig_error env "auto"); [discriminate |].
  intros [= <-]. reflexivity.
Qed.

(** C5: [GetURL] of the R2 provider prefers the CDN prefix (trailing
    slashes trimmed) whatever the BaseURL is, then the BaseURL, then the raw
    endpoint and bucket; the trimmed prefix is the configured one without
    its trailing slashes, and ends in none. *)
Theorem R2_GetURL_precedence (env : Env) (config : R2.R2Config)
    (p : Provider.t) (path : string) :
  R2.NewR2Provider env config = Ok p ->
  (R2.CDN config <> "" ->
     Provider.GetURL p path
     = strings_TrimRight_slash (R2.CDN config) +:+ "/" +:+ path
     /\ strings_HasSuffix (strings_TrimRight_slash (R2.CDN config)) "/" = false
     /\ exists n, R2.CDN config
          = strings_TrimRight_slash (R2.CDN config)
            +:+ string_of_list_ascii (repeat "/"%char n))
  /\ (R2.CDN config = "" -> R2.BaseURL config <> "" ->
        Provider.GetURL p path
        = strings_TrimRight_slash (R2.BaseURL config) +:+ "/" +:+ path)
  /\ (R2.CDN config = "" -> R2.BaseURL config = "" ->
        Provider.GetURL p path
        = "https://" +:+ ("https://" +:+ R2.AccountID config
                          +:+ ".r2.cloudflarestorage.com")
          +:+ "/" +:+ R2.Bucket config +:+ "/" +:+ path).
Proof.
  intros Hnew. rewrite (NewR2Provider_GetURL _ _ _ _ Hnew).
  unfold R2.GetURL. simpl.
  repeat split.
  - destruct (String.eqb_spec (R2.CDN config) ""); [contradiction | reflexivity].
  - destruct (TrimRight_slash_spec (R2.CDN config)) as (n & _ & Hs). exact Hs.
  - destruct (TrimRight_slash_spec (R2.CDN config)) as (n & Hn & _). now exists n.
  - intros -> Hb. simpl.
    destruct (String.eqb_spec (R2.BaseURL config) ""); [contradiction | reflexivity].
  - intros -> ->. reflexivity.
Qed.

Lemma R2_GetURL_precedence_witness :
  R2.CDN Demo.r2config <> "" /\
  Provider.GetURL
    (R2.as_Provider (Demo.env true)
       (R2.mk "assets" "https://acct.r2.cloudflarestorage.com"
              "https://files.example.com" "https://cdn.example.com//"))
    "avatars/users/avatar/a.webp"
  = "https://cdn.example.com/avatars/users/avatar/a.webp".
Proof.
  assert (Hcdn : R2.CDN Demo.r2config <> "") by discriminate.
  split; [exact Hcdn |].
  exact (proj1 (proj1 (R2_GetURL_precedence (Demo.env true) Demo.r2config _
                         "avatars/users/avatar/a.webp" eq_refl) Hcdn)).
Defined.

(** The raw-endpoint fallback repeats the scheme: [endpoint] already
    starts with [https://]. *)
Example R2_GetURL_raw_endpoint :
  R2.GetURL (R2.mk "assets" "https://acct.r2.cloudflarestorage.com" "" "") "a.png"
  = "https://https://acct.r2.cloudflarestorage.com/assets/a.png".
Proof. reflexivity. Qed.

(* ===================================================================== *)
(** * Validation                                                          *)
(* ===================================================================== *)

Ltac run :=
  unfold bind, ret, fail, lift, tell, wrapM in *; simpl in *.

Lemma validateFile_too_large (file : FileHeader.t) (config : AttachmentConfig.t) :
  FileHeader.Size file > AttachmentConfig.MaxFileSize config ->
  exists e, ActiveStorage.validateFile file config = Some e.
Proof.
  intros H. unfold ActiveStorage.validateFile.
  destruct (Z.gtb_spec (FileHeader.Size file) (AttachmentConfig.MaxFileSize config));
    [eauto | lia].
Qed.

Lemma validateFile_not_listed (file : FileHeader.t) (config : AttachmentConfig.t) :
  AttachmentConfig.AllowedExtensions config <> [] ->
  strings_Contains (strings_Join (AttachmentConfig.AllowedExtensions config) ",")
                   (strings_ToLower (filepath_Ext (FileHeader.Filename file)))
  = false ->
  exists e, ActiveStorage.validateFile file config = Some e.
Proof.
  intros Hne Hc. unfold ActiveStorage.validateFile.
  destruct (_ >? _); [eauto |].
  rewrite Hc. destruct (AttachmentConfig.AllowedExtensions config);
    [contradiction | simpl; eauto].
Qed.

Lemma validateFile_passes (file : FileHeader.t) (config : AttachmentConfig.t) :
  FileHeader.Size file <= AttachmentConfig.MaxFileSize config ->
  AttachmentConfig.AllowedExtensions config = []
  \/ In (strings_ToLower (filepath_Ext (FileHeader.Filename file)))
        (AttachmentConfig.AllowedExtensions config) ->
  ActiveStorage.validateFile file config = None.
Proof.
  intros Hsz Hext. unfold ActiveStorage.validateFile.
  destruct (Z.gtb_spec (FileHeader.Size file) (AttachmentConfig.MaxFileSize config));
    [lia |].
  destruct Hext as [-> | Hin]; [reflexivity |].
  rewrite (Contains_Join _ _ _ Hin). now rewrite andb_false_r.
Qed.

(** A rejected file ends [Attach] where it started: same store, same
    tables, nothing logged. *)
Lemma Attach_rejected (env : Env) (as_ : ActiveStorage.t) (model : Attachable.t)
    (field : string) (file : FileHeader.t) (config : AttachmentConfig.t)
    (w : World) (e : error) :
  ActiveStorage.getConfig as_ (Attachable.GetModelName model) field = Ok config ->
  ActiveStorage.validateFile file config = Some e ->
  ActiveStorage.Attach env as_ model field file w = (w, Err e).
Proof.
  intros Hc Hv. unfold ActiveStorage.Attach. run. now rewrite Hc, Hv.
Qed.

(** An empty [AllowedExtensions] admits every extension: [validateFile]
    only checks the list when [len(config.AllowedExtensions) > 0].  Here a
    [.pdf], a member of no list, passes validation and is uploaded. (C1, as
    stated, fails at this input.) *)
Lemma validateFile_empty_list_admits_all :
  ActiveStorage.getConfig (Demo.storage true) "users" "document" = Ok Demo.documents
  /\ ActiveStorage.extension_allowed Demo.pdf Demo.documents = false
  /\ ActiveStorage.validateFile Demo.pdf Demo.documents = None
  /\ exists w row,
       ActiveStorage.Attach (Demo.env true) (Demo.storage true) Demo.user7
         "document" Demo.pdf (Demo.world Demo.no_faults None) = (w, Ok row)
       /\ log w = [EvConvertToWebP Demo.pdf; EvConvertToWebM Demo.pdf;
                   EvConvertToOpus Demo.pdf;
                   EvUpload Demo.pdf
                     (UploadConfig.mk [] (5 * 1024 * 1024) "docs/users/document");
                   EvDBCreate (Attachment.with_Id row 0)].
Proof.
  split; [vm_compute; reflexivity |].
  split; [reflexivity |]. split; [reflexivity |].
  eexists _, _. split; vm_compute; reflexivity.
Qed.

(** The extension test is a substring test on the comma-joined list, so an
    extension is also accepted when it occurs inside a listed one, and a
    file without extension always is. *)
Example validateFile_substring :
  ActiveStorage.validateFile
    (FileHeader.mk "notes.pn" 10 "text/plain" (Content [])) Demo.avatar = None
  /\ ActiveStorage.validateFile
       (FileHeader.mk "Makefile" 10 "text/plain" (Content [])) Demo.avatar = None.
Proof. split; reflexivity. Qed.

(** Only the file's extension is lower-cased: an upper-case entry of the
    list matches no file. *)
Example validateFile_uppercase_entry :
  let config := AttachmentConfig.mk "avatar" "avatars" [".PNG"] 4096 false in
  ActiveStorage.extension_allowed Demo.png config = true
  /\ ActiveStorage.validateFile Demo.png config
     = Some "file extension .png is not allowed".
Proof. split; reflexivity. Qed.

(** C1 (amended): with a registered config, [Attach] returns the validation
    error and leaves the world untouched (no provider call, no row, nothing
    logged) whenever the size exceeds [MaxFileSize], or [AllowedExtensions]
    is non-empty and the lower-cased extension occurs nowhere in its
    comma-joined text; and validation passes whenever the size is at most
    [MaxFileSize] and [AllowedExtensions] is empty or lists the lower-cased
    extension verbatim. *)
Theorem Attach_validation (env : Env) (as_ : ActiveStorage.t)
    (model : Attachable.t) (field : string) (file : FileHeader.t)
    (config : AttachmentConfig.t) (w : World) :
  ActiveStorage.getConfig as_ (Attachable.GetModelName model) field = Ok config ->
  let ext := strings_ToLower (filepath_Ext (FileHeader.Filename file)) in
  let allowed := AttachmentConfig.AllowedExtensions config in
  (FileHeader.Size file > AttachmentConfig.MaxFileSize config
   \/ (allowed <> [] /\ strings_Contains (strings_Join allowed ",") ext = false) ->
   exists e,
     ActiveStorage.validateFile file config = Some e
     /\ ActiveStorage.Attach env as_ model field file w = (w, Err e))
  /\ (FileHeader.Size file <= AttachmentConfig.MaxFileSize config ->
      allowed = [] \/ In ext allowed ->
      ActiveStorage.validateFile file config = None).
Proof.
  intros Hc ext allowed. split.
  - intros H.
    assert (exists e, ActiveStorage.validateFile file config = Some e) as [e He].
    { destruct H as [H | [H1 H2]];
        [apply validateFile_too_large | apply validateFile_not_listed]; assumption. }
    exists e. split; [exact He |]. now apply Attach_rejected with config.
  - apply validateFile_passes.
Qed.

Lemma Attach_validation_witness :
  (exists e,
     ActiveStorage.validateFile Demo.pdf Demo.avatar = Some e
     /\ ActiveStorage.Attach (Demo.env true) (Demo.storage true) Demo.user7
          "avatar" Demo.pdf (Demo.world Demo.no_faults None)
        = (Demo.world Demo.no_faults None, Err e))
  /\ ActiveStorage.validateFile Demo.png Demo.avatar = None.
Proof.
  assert (Hc : ActiveStorage.getConfig (Demo.storage true)
                 (Attachable.GetModelName Demo.user7) "avatar" = Ok Demo.avatar)
    by (vm_compute; reflexivity).
  split.
  - apply (proj1 (Attach_validation (Demo.env true) (Demo.storage true)
                    Demo.user7 "avatar" Demo.pdf Demo.avatar
                    (Demo.world Demo.no_faults None) Hc)).
    right. split; [discriminate | reflexivity].
  - apply (proj2 (Attach_validation (Demo.env true) (Demo.storage true)
                    Demo.user7 "avatar" Demo.png Demo.avatar
                    (Demo.world Demo.no_faults None) Hc)).
    + vm_compute; discriminate.
    + right. vm_compute. tauto.
Defined.

(* ===================================================================== *)
(** * Delete                                                              *)
(* ===================================================================== *)

(** C4: [Delete] deletes the blob first.  When the provider reports an
    error, [Delete] returns that error, the relational store is as before
    and no delete was issued on it; when the blob delete succeeds, the row
    delete is issued next, and (unless the store fails) marks the rows with
    the attachment's key as deleted. *)
Theorem Delete_blob_first (as_ : ActiveStorage.t) (a : Attachment.t)
    (w : World) (s' : Store) (r : option error) :
  Provider.Delete (ActiveStorage.provider as_) (Attachment.Path a) (store w)
  = (s', r) ->
  let w1 := mkWorld s' (db w) (log w ++ [EvProviderDelete (Attachment.Path a)]) in
  (forall e, r = Some e -> ActiveStorage.Delete as_ a w = (w1, Err e))
  /\ (r = None ->
      ActiveStorage.Delete as_ a w = db_Delete a w1
      /\ log (fst (ActiveStorage.Delete as_ a w))
         = log w ++ [EvProviderDelete (Attachment.Path a); EvDBDelete a]
      /\ (db_fault (db w) OpDelete = None ->
          snd (ActiveStorage.Delete as_ a w) = Ok tt
          /\ attachments (db (fst (ActiveStorage.Delete as_ a w)))
             = map (fun row =>
                      if Attachment.Id row =? Attachment.Id a
                      then Attachment.with_Deleted row true else row)
                   (attachments (db w)))).
Proof.
  intros Hp w1. unfold ActiveStorage.Delete, provider_Delete. run.
  rewrite Hp. split.
  - intros e ->. reflexivity.
  - intros ->. split; [reflexivity |].
    unfold db_Delete. run. simpl.
    destruct (db_fault (db w) OpDelete) eqn:Hf; simpl;
      (split; [now rewrite <- app_assoc |]); intros [=]; now split.
Qed.

Lemma Delete_blob_first_witness :
  let a := Attachment.mk 1 "users" 7 "avatar" "Face.webp"
             "avatars/users/avatar/1700000000_Face.webp" "" 7 false in
  let w := Demo.world Demo.no_faults (Some "503 Slow Down") in
  ActiveStorage.Delete (Demo.storage true) a w
  = (mkWorld (store w) (db w) [EvProviderDelete (Attachment.Path a)],
     Err "503 Slow Down").
Proof.
  intros a w.
  exact (proj1 (Delete_blob_first (Demo.storage true) a w (store w)
                  (Some "503 Slow Down") eq_refl)
               "503 Slow Down" eq_refl).
Defined.

(* ===================================================================== *)
(** * LoadAttachment                                                      *)
(* ===================================================================== *)

Section Lookup.

Lemma least_Id_fold_In (l : list Attachment.t) (acc : option Attachment.t)
    (row : Attachment.t) :
  fold_left least_Id l acc = Some row -> acc = Some row \/ In row l.
Proof.
  revert acc; induction l as [|x l IH]; intros acc H; simpl in *; [now left |].
  apply IH in H as [H | H]; [| now right; right].
  unfold least_Id in H. destruct acc as [b|].
  - destruct (_ <? _); injection H as <-; [right; now left | now left].
  - injection H as <-. right; now left.
Qed.

Lemma least_Id_fold_some (l : list Attachment.t) (acc : option Attachment.t) :
  acc <> None \/ l <> [] -> exists row, fold_left least_Id l acc = Some row.
Proof.
  revert acc; induction l as [|x l IH]; intros acc H; simpl.
  - destruct H as [H | H]; [| contradiction]. destruct acc; [eauto | contradiction].
  - apply IH. left. unfold least_Id. destruct acc; [destruct (_ <? _) |]; discriminate.
Qed.

(** Rewriting the stored URLs does not change which row is found. *)
Lemma least_Id_fold_URL (g : Attachment.t -> string) (mt : string) (mid : Z)
    (field : string) (l : list Attachment.t) (acc : option Attachment.t) :
  let h := fun row => Attachment.with_URL row (g row) in
  fold_left least_Id (List.filter (matches_key mt mid field) (map h l))
            (option_map h acc)
  = option_map h (fold_left least_Id (List.filter (matches_key mt mid field) l) acc).
Proof.
  intros h. revert acc; induction l as [|x l IH]; intros acc; [reflexivity |].
  simpl. change (matches_key mt mid field (h x)) with (matches_key mt mid field x).
  destruct (matches_key mt mid field x); [| apply IH].
  simpl. rewrite <- IH. f_equal.
  destruct acc as [b|]; simpl; [| reflexivity].
  change (Attachment.Id (h x)) with (Attachment.Id x).
  change (Attachment.Id (h b)) with (Attachment.Id b).
  now destruct (_ <? _).
Qed.

End Lookup.

(** C9: a successful [LoadAttachment] leaves the world as it is and returns
    a live row of the table that carries the owner's (ModelType, ModelId,
    Field), with its URL replaced by [GetURL] of its stored Path: the
    result satisfies URL = GetURL(Path) and is the same whatever URLs the
    rows hold. *)
Theorem LoadAttachment_recomputes_URL (as_ : ActiveStorage.t)
    (model : Attachable.t) (field : string) (w w' : World) (a : Attachment.t) :
  ActiveStorage.LoadAttachment as_ model field w = (w', Ok a) ->
  w' = w
  /\ Attachment.URL a
     = Provider.GetURL (ActiveStorage.provider as_) (Attachment.Path a)
  /\ Attachment.ModelType a = Attachable.GetModelName model
  /\ Attachment.ModelId a = Attachable.GetId model
  /\ Attachment.Field a = field
  /\ Attachment.Deleted a = false
  /\ (exists row,
        In row (attachments (db w))
        /\ a = Attachment.with_URL row
                 (Provider.GetURL (ActiveStorage.provider as_) (Attachment.Path row)))
  /\ (forall g : Attachment.t -> string,
        let d := db w in
        let rows := map (fun row => Attachment.with_URL row (g row)) (attachments d) in
        snd (ActiveStorage.LoadAttachment as_ model field
               (mkWorld (store w)
                        (mkDB rows (next_id d) (settings d) (db_fault d)) (log w)))
        = Ok a).
Proof.
  unfold ActiveStorage.LoadAttachment, db_First_Attachment. run.
  destruct (db_fault (db w) OpQuery) eqn:Hf; [discriminate |].
  destruct (fold_left least_Id _ None) as [row|] eqn:Hrow; [| discriminate].
  intros [= <- <-].
  pose proof (least_Id_fold_In _ _ _ Hrow) as [? | Hin]; [discriminate |].
  apply filter_In in Hin as [Hin Hm].
  unfold matches_key in Hm.
  apply andb_true_iff in Hm as [Hm Hfield].
  apply andb_true_iff in Hm as [Hm Hid].
  apply andb_true_iff in Hm as [Hlive Htype].
  apply String.eqb_eq in Hfield, Htype. apply Z.eqb_eq in Hid.
  apply negb_true_iff in Hlive.
  do 6 (split; [assumption || reflexivity |]).
  split.
  - exists row. now split.
  - intros g.
    pose proof (least_Id_fold_URL g (Attachable.GetModelName model)
                  (Attachable.GetId model) field (attachments (db w)) None) as E.
    simpl in E. rewrite E, Hrow. reflexivity.
Qed.

(** [LoadAttachment] does find a row when a live one carries the key and
    the query itself does not fail. *)
Lemma LoadAttachment_finds (as_ : ActiveStorage.t) (model : Attachable.t)
    (field : string) (w : World) (row : Attachment.t) :
  db_fault (db w) OpQuery = None ->
  In row (attachments (db w)) ->
  matches_key (Attachable.GetModelName model) (Attachable.GetId model) field row
  = true ->
  exists a, ActiveStorage.LoadAttachment as_ model field w = (w, Ok a).
Proof.
  intros Hf Hin Hm.
  unfold ActiveStorage.LoadAttachment, db_First_Attachment. run. rewrite Hf.
  destruct (least_Id_fold_some
              (List.filter (matches_key (Attachable.GetModelName model)
                              (Attachable.GetId model) field) (attachments (db w)))
              None) as [r Hr].
  { right. intros E. assert (Hin' := proj2 (filter_In _ _ _) (conj Hin Hm)).
    rewrite E in Hin'. destruct Hin'. }
  rewrite Hr. eauto.
Qed.

Lemma LoadAttachment_recomputes_URL_witness :
  let stale := Attachment.mk 1 "users" 7 "avatar" "Face.webp"
                 "avatars/users/avatar/1700000000_Face.webp"
                 "https://old.example.com/1700000000_Face.webp" 7 false in
  let w := mkWorld (mkStore ∅ None None) (mkDB [stale] 2 ∅ Demo.no_faults) [] in
  Attachment.URL
    (Attachment.with_URL stale
       "https://cdn.example.com/avatars/users/avatar/1700000000_Face.webp")
  = Provider.GetURL (ActiveStorage.provider (Demo.storage true))
      "avatars/users/avatar/1700000000_Face.webp".
Proof.
  intros stale w.
  exact (proj1 (proj2 (LoadAttachment_recomputes_URL (Demo.storage true)
                         Demo.user7 "avatar" w w
                         (Attachment.with_URL stale
                            "https://cdn.example.com/avatars/users/avatar/1700000000_Face.webp")
                         eq_refl))).
Defined.

(* ===================================================================== *)
(** * The converters, one at a time                                       *)
(* ===================================================================== *)

Section Converters.

Lemma logged_nil (w : World) : logged w [] = w.
Proof. destruct w. unfold logged. simpl. now rewrite app_nil_r. Qed.

Lemma logged_logged (w : World) (a b : list Event) :
  logged (logged w a) b = logged w (a ++ b).
Proof. unfold logged. simpl. now rewrite app_assoc. Qed.

Lemma getSettingBool_run (key : string) (defaultValue : bool) (w : World) :
  ActiveStorage.getSettingBool key defaultValue w
  = (w, Ok (setting (db w) key defaultValue)).
Proof.
  unfold ActiveStorage.getSettingBool, setting.
  destruct (db_fault (db w) OpQuery); [reflexivity |].
  now destruct (settings (db w) !! key).
Qed.

Lemma converter_calls_app (a b : list Event) :
  converter_calls (a ++ b) = converter_calls a ++ converter_calls b.
Proof.
  induction a as [|ev a IH]; simpl; [reflexivity |].
  destruct (converter_of ev); simpl; now rewrite IH.
Qed.

Lemma uploads_app (a b : list Event) : uploads (a ++ b) = uploads a ++ uploads b.
Proof. unfold uploads. apply List.filter_app. Qed.

(** The three file-type predicates exclude one another. *)
Lemma IsFile_exclusive (k1 k2 : Kind) (filename : string) :
  IsFile k1 filename = true -> IsFile k2 filename = true -> k1 = k2.
Proof.
  unfold IsFile, ImageProcessor.IsImageFile, VideoConverter.IsVideoFile,
    AudioConverter.IsAudioFile.
  generalize (strings_ToLower (filepath_Ext filename)); intros ext.
  destruct k1, k2; try reflexivity; intros H1 H2; exfalso;
    apply existsb_exists in H1 as (x & Hx & Ex);
    apply String.eqb_eq in Ex; subst x;
    simpl in Hx;
    repeat (destruct Hx as [<- | Hx]; [vm_compute in H2; discriminate |]);
    destruct Hx.
Qed.

(** Once a file is selected, the encoder pipeline only logs its own run;
    its output, when there is one, is never nil and is named after the
    target format. *)
Lemma run_encoder_run (env : Env) (prefix target : string)
    (args_of : string -> string -> list string) (file : FileHeader.t) (w : World) :
  exists evs r,
    run_encoder env prefix target args_of file w = (logged w evs, r)
    /\ converter_calls evs = [] /\ uploads evs = []
    /\ (forall c, r = Ok c ->
          fst c <> None
          /\ snd c = strings_TrimSuffix (FileHeader.Filename file)
                       (filepath_Ext (FileHeader.Filename file)) +:+ target).
Proof.
  unfold run_encoder. run.
  destruct (os_CreateTemp env _) as [tmpIn | e]; simpl;
    [| exists [], (Err ("failed to create temp input file: " +:+ e));
       rewrite logged_nil; repeat split; discriminate].
  destruct (FileHeader.Body file) as [e | e | data];
    [ eexists [], _; rewrite logged_nil; repeat split; discriminate
    | eexists [], _; rewrite logged_nil; repeat split; discriminate |].
  destruct (tmp_write_error env) as [e |];
    [eexists [], _; rewrite logged_nil; repeat split; discriminate |].
  destruct (os_CreateTemp env _) as [tmpOut | e]; simpl;
    [| eexists [], _; rewrite logged_nil; repeat split; discriminate].
  destruct (ffmpeg_Run env _ data) as [[e stderr] | output];
    [eexists [_], _; repeat split; discriminate |].
  destruct (os_ReadFile_error env) as [e |];
    [eexists [_], _; repeat split; discriminate |].
  eexists [_], _. split; [reflexivity |]. split; [reflexivity |].
  split; [reflexivity |]. intros c [= <-]. split; [discriminate | reflexivity].
Qed.


Lemma ConvertToWebP_noop (env : Env) (ip : ImageProcessor.t) (file : FileHeader.t)
    (w : World) :
  ImageProcessor.IsImageFile (FileHeader.Filename file) = false
  \/ strings_ToLower (filepath_Ext (FileHeader.Filename file)) = ".webp" ->
  ImageProcessor.ConvertToWebP env ip file w
  = (logged w [EvConvertToWebP file], Ok (None, FileHeader.Filename file)).
Proof.
  intros H. unfold ImageProcessor.ConvertToWebP. run.
  destruct (ImageProcessor.IsImageFile _); simpl; [| reflexivity].
  destruct H as [H | ->]; [discriminate | reflexivity].
Qed.

Lemma ConvertToWebM_noop (env : Env) (vc : VideoConverter.t) (file : FileHeader.t)
    (w : World) :
  VideoConverter.IsVideoFile (FileHeader.Filename file) = false
  \/ strings_ToLower (filepath_Ext (FileHeader.Filename file)) = ".webm" ->
  VideoConverter.ConvertToWebM env vc file w
  = (logged w [EvConvertToWebM file], Ok (None, FileHeader.Filename file)).
Proof.
  intros H. unfold VideoConverter.ConvertToWebM. run.
  destruct (VideoConverter.IsVideoFile _); simpl; [| reflexivity].
  destruct H as [H | ->]; [discriminate | reflexivity].
Qed.

Lemma ConvertToOpus_noop (env : Env) (ac : AudioConverter.t) (file : FileHeader.t)
    (w : World) :
  AudioConverter.IsAudioFile (FileHeader.Filename file) = false
  \/ strings_ToLower (filepath_Ext (FileHeader.Filename file)) = ".opus" ->
  AudioConverter.ConvertToOpus env ac file w
  = (logged w [EvConvertToOpus file], Ok (None, FileHeader.Filename file)).
Proof.
  intros H. unfold AudioConverter.ConvertToOpus. run.
  destruct (AudioConverter.IsAudioFile _); simpl; [| reflexivity].
  destruct H as [H | ->]; [discriminate | reflexivity].
Qed.

(** What [ConvertToWebP] does to a file it selects: the bytes of the
    upload are decoded and re-encoded, and those are the bytes returned. *)
Lemma ConvertToWebP_selected (env : Env) (ip : ImageProcessor.t)
    (file : FileHeader.t) (w : World) :
  ImageProcessor.IsImageFile (FileHeader.Filename file) = true ->
  strings_ToLower (filepath_Ext (FileHeader.Filename file)) <> ".webp" ->
  exists r,
    ImageProcessor.ConvertToWebP env ip file w = (logged w [EvConvertToWebP file], r)
    /\ forall c, r = Ok c ->
         snd c = strings_TrimSuffix (FileHeader.Filename file)
                   (filepath_Ext (FileHeader.Filename file)) +:+ ".webp"
         /\ exists data img written,
              FileHeader.Body file = Content data
              /\ ImageProcessor.decodeImage env data (FileHeader.Filename file) = Ok img
              /\ webp_Encode env (ImageProcessor.Quality ip) img = Ok written
              /\ fst c = buffer_Bytes written.
Proof.
  intros Himg Hext. unfold ImageProcessor.ConvertToWebP. run. rewrite Himg. simpl.
  destruct (String.eqb_spec (strings_ToLower (filepath_Ext (FileHeader.Filename file)))
              ".webp") as [E | _]; [contradiction |].
  destruct (FileHeader.Body file) as [e | e | data];
    [eexists; split; [reflexivity | discriminate] ..|].
  destruct (ImageProcessor.decodeImage env data _) as [img | e] eqn:Hd; simpl;
    [| eexists; split; [reflexivity | discriminate]].
  destruct (NewLossyEncoderOptions env _) as [e |];
    [eexists; split; [reflexivity | discriminate] |].
  destruct (webp_Encode env _ img) as [written | e] eqn:He; simpl;
    [| eexists; split; [reflexivity | discriminate]].
  eexists; split; [reflexivity |]. intros c [= <-]. split; [reflexivity |].
  exists data, img, written. auto.
Qed.

Lemma buffer_Bytes_Some (written data : list ascii) :
  buffer_Bytes written = Some data -> written = data /\ data <> [].
Proof. destruct written; simpl; [discriminate |]. intros [= <-]. now split. Qed.

Lemma ConvertToWebP_converts (env : Env) (ip : ImageProcessor.t) (file : FileHeader.t) :
  converts_as KImage file (ImageProcessor.ConvertToWebP env ip file).
Proof.
  intros w.
  destruct (ImageProcessor.IsImageFile (FileHeader.Filename file)) eqn:Himg.
  2:{ eexists _, _. split; [apply ConvertToWebP_noop; now left |].
      do 2 (split; [reflexivity |]). intros c [= <-] H. now destruct H. }
  destruct (String.eqb_spec (strings_ToLower (filepath_Ext (FileHeader.Filename file)))
              ".webp") as [E | N].
  { eexists _, _. split; [apply ConvertToWebP_noop; now right |].
    do 2 (split; [reflexivity |]). intros c [= <-] H. now destruct H. }
  destruct (ConvertToWebP_selected env ip file w Himg N) as (r & E & Hr).
  exists [EvConvertToWebP file], r. split; [exact E |].
  do 2 (split; [reflexivity |]). intros c -> _.
  split; [exact Himg | apply (Hr c eq_refl)].
Qed.

Lemma ConvertToWebM_converts (env : Env) (vc : VideoConverter.t) (file : FileHeader.t) :
  converts_as KVideo file (VideoConverter.ConvertToWebM env vc file).
Proof.
  intros w.
  destruct (VideoConverter.IsVideoFile (FileHeader.Filename file)) eqn:Hk.
  2:{ eexists _, _. split; [apply ConvertToWebM_noop; now left |].
      do 2 (split; [reflexivity |]). intros c [= <-] H. now destruct H. }
  destruct (String.eqb_spec (strings_ToLower (filepath_Ext (FileHeader.Filename file)))
              ".webm") as [E | N].
  { eexists _, _. split; [apply ConvertToWebM_noop; now right |].
    do 2 (split; [reflexivity |]). intros c [= <-] H. now destruct H. }
  unfold VideoConverter.ConvertToWebM. run. rewrite Hk. simpl.
  apply String.eqb_neq in N. rewrite N.
  destruct (exec_LookPath env "ffmpeg"); simpl.
  - match goal with
    | |- context [run_encoder _ _ _ _ _ ?w0] =>
        destruct (run_encoder_run env "video" ".webm" (VideoConverter.ffmpeg_args vc) file w0)
          as (evs & r & E & Hc & Hu & Hr)
    end.
    rewrite E.
    exists ([EvConvertToWebM file] ++ [EvLookPath "ffmpeg"] ++ evs), r.
    split; [unfold logged; simpl; now rewrite <- !app_assoc |].
    split; [simpl; now rewrite Hc |]. split; [simpl; exact Hu |].
    intros c Hrc _. split; [reflexivity || exact Hk | exact (proj2 (Hr c Hrc))].
  - exists [EvConvertToWebM file; EvLookPath "ffmpeg"]. eexists.
    split; [unfold logged; simpl; now rewrite <- app_assoc |].
    do 2 (split; [reflexivity |]). discriminate.
Qed.

Lemma ConvertToOpus_converts (env : Env) (ac : AudioConverter.t) (file : FileHeader.t) :
  converts_as KAudio file (AudioConverter.ConvertToOpus env ac file).
Proof.
  intros w.
  destruct (AudioConverter.IsAudioFile (FileHeader.Filename file)) eqn:Hk.
  2:{ eexists _, _. split; [apply ConvertToOpus_noop; now left |].
      do 2 (split; [reflexivity |]). intros c [= <-] H. now destruct H. }
  destruct (String.eqb_spec (strings_ToLower (filepath_Ext (FileHeader.Filename file)))
              ".opus") as [E | N].
  { eexists _, _. split; [apply ConvertToOpus_noop; now right |].
    do 2 (split; [reflexivity |]). intros c [= <-] H. now destruct H. }
  unfold AudioConverter.ConvertToOpus. run. rewrite Hk. simpl.
  apply String.eqb_neq in N. rewrite N.
  destruct (exec_LookPath env "ffmpeg"); simpl.
  - match goal with
    | |- context [run_encoder _ _ _ _ _ ?w0] =>
        destruct (run_encoder_run env "audio" ".opus" (AudioConverter.ffmpeg_args ac) file w0)
          as (evs & r & E & Hc & Hu & Hr)
    end.
    rewrite E.
    exists ([EvConvertToOpus file] ++ [EvLookPath "ffmpeg"] ++ evs), r.
    split; [unfold logged; simpl; now rewrite <- !app_assoc |].
    split; [simpl; now rewrite Hc |]. split; [simpl; exact Hu |].
    intros c Hrc _. split; [reflexivity || exact Hk | exact (proj2 (Hr c Hrc))].
  - exists [EvConvertToOpus file; EvLookPath "ffmpeg"]. eexists.
    split; [unfold logged; simpl; now rewrite <- app_assoc |].
    do 2 (split; [reflexivity |]). discriminate.
Qed.

Lemma wrapM_converts (k : Kind) (file : FileHeader.t) (ctx : string)
    (m : M Converted) :
  converts_as k file m -> converts_as k file (wrapM ctx m).
Proof.
  intros H w. destruct (H w) as (evs & r & E & Hc & Hu & Hr).
  exists evs, (wrap ctx r). unfold wrapM. rewrite E.
  split; [reflexivity |]. split; [exact Hc |]. split; [exact Hu |].
  intros c Hw. destruct r; [injection Hw as ->; now apply Hr | discriminate].
Qed.

End Converters.

(* ===================================================================== *)
(** * The order of conversion                                             *)
(* ===================================================================== *)

Section ConversionOrder.

Variables (env : Env) (as_ : ActiveStorage.t) (file : FileHeader.t).

(** [Attach_convert] is the rule of the specification applied to the
    converters that are switched on, in the order image, video, audio. *)
Lemma Attach_convert_first_output (w : World) :
  ActiveStorage.Attach_convert env as_ file w
  = first_output (converters_in_order env as_ file (db w)) (None, "") w.
Proof.
  unfold ActiveStorage.Attach_convert, converters_in_order, enabled, bind.
  rewrite !getSettingBool_run.
  destruct (setting (db w) "media_convert_images" true),
    (ActiveStorage.imageProcessor as_) as [ip |],
    (setting (db w) "media_convert_videos" true),
    (ActiveStorage.videoConverter as_) as [vc |],
    (setting (db w) "media_convert_audio" true),
    (ActiveStorage.audioConverter as_) as [ac |];
    simpl; unfold bind, ret;
    repeat match goal with
      | |- context [wrapM ?ctx ?m ?w0] =>
          destruct (wrapM ctx m w0) as [? [[[?|] ?] | ?]]; simpl; try reflexivity
      end;
    reflexivity.
Qed.

Lemma kinded_converters_snd (d : DB) :
  map snd (kinded_converters env as_ file d) = converters_in_order env as_ file d.
Proof.
  unfold kinded_converters, converters_in_order, enabled.
  destruct (setting d "media_convert_images" true),
    (ActiveStorage.imageProcessor as_),
    (setting d "media_convert_videos" true),
    (ActiveStorage.videoConverter as_),
    (setting d "media_convert_audio" true),
    (ActiveStorage.audioConverter as_); reflexivity.
Qed.

Lemma kinded_converters_order (d : DB) :
  sublist (map fst (kinded_converters env as_ file d)) [KImage; KVideo; KAudio].
Proof.
  unfold kinded_converters, enabled.
  destruct (setting d "media_convert_images" true),
    (ActiveStorage.imageProcessor as_),
    (setting d "media_convert_videos" true),
    (ActiveStorage.videoConverter as_),
    (setting d "media_convert_audio" true),
    (ActiveStorage.audioConverter as_); simpl;
    repeat first [apply sublist_nil | apply sublist_skip | apply sublist_cons].
Qed.

Lemma kinded_converters_convert (d : DB) :
  Forall (fun km => converts_as (fst km) file (snd km))
         (kinded_converters env as_ file d).
Proof.
  unfold kinded_converters, enabled.
  repeat apply Forall_app_2;
    match goal with
    | |- context [setting d ?key true] =>
        destruct (setting d key true); [| constructor]
    end.
  - destruct (ActiveStorage.imageProcessor as_); repeat constructor.
    apply wrapM_converts, ConvertToWebP_converts.
  - destruct (ActiveStorage.videoConverter as_); repeat constructor.
    apply wrapM_converts, ConvertToWebM_converts.
  - destruct (ActiveStorage.audioConverter as_); repeat constructor.
    apply wrapM_converts, ConvertToOpus_converts.
Qed.

(** The calls of [first_output] are a prefix of the list it is given, and
    bytes come from the converter called last. *)
Lemma first_output_trace (cs : list (Kind * M Converted)) :
  Forall (fun km => converts_as (fst km) file (snd km)) cs ->
  forall (none : Converted) (w : World),
    fst none = None ->
    exists evs r,
      first_output (map snd cs) none w = (logged w evs, r)
      /\ uploads evs = []
      /\ (exists rest, map fst cs = converter_calls evs ++ rest)
      /\ (forall c, r = Ok c -> fst c <> None ->
            exists before k,
              converter_calls evs = before ++ [k]
              /\ IsFile k (FileHeader.Filename file) = true
              /\ snd c = strings_TrimSuffix (FileHeader.Filename file)
                           (filepath_Ext (FileHeader.Filename file))
                         +:+ target_ext k).
Proof.
  induction 1 as [| [k m] cs Hm _ IH]; intros none w Hnone.
  - exists [], (Ok none). simpl. unfold ret. rewrite logged_nil.
    split; [reflexivity |]. split; [reflexivity |]. split; [now exists [] |].
    intros c [= <-] H. now destruct H.
  - simpl in Hm. destruct (Hm w) as (evs1 & r1 & E1 & Hc1 & Hu1 & Hr1).
    simpl. unfold bind. rewrite E1. destruct r1 as [c1 | e].
    + destruct (fst c1) as [data |] eqn:Hfst.
      * exists evs1, (Ok c1). unfold ret.
        split; [reflexivity |]. split; [exact Hu1 |].
        split; [exists (map fst cs); now rewrite Hc1 |].
        intros c [= <-] Hsome. exists [], k. rewrite Hc1.
        split; [reflexivity | now apply Hr1].
      * destruct (IH c1 (logged w evs1) Hfst) as (evs2 & r2 & E2 & Hu2 & [rest Hrest] & Hr2).
        exists (evs1 ++ evs2), r2. rewrite E2, logged_logged.
        split; [reflexivity |].
        split; [now rewrite uploads_app, Hu1, Hu2 |].
        rewrite converter_calls_app, Hc1.
        split; [exists rest; simpl; now rewrite Hrest |].
        intros c Hc Hsome. destruct (Hr2 c Hc Hsome) as (before & k2 & Hb & Hk).
        exists (k :: before), k2. rewrite Hb. now split.
    + exists evs1, (Err e).
      split; [reflexivity |]. split; [exact Hu1 |].
      split; [exists (map fst cs); now rewrite Hc1 |]. discriminate.
Qed.

(** What one run of the conversion stage looks like from outside. *)
Lemma Attach_convert_trace (w : World) :
  exists evs r,
    ActiveStorage.Attach_convert env as_ file w = (logged w evs, r)
    /\ uploads evs = []
    /\ sublist (converter_calls evs) [KImage; KVideo; KAudio]
    /\ (forall c, r = Ok c -> fst c <> None ->
          exists before k,
            converter_calls evs = before ++ [k]
            /\ IsFile k (FileHeader.Filename file) = true
            /\ snd c = strings_TrimSuffix (FileHeader.Filename file)
                         (filepath_Ext (FileHeader.Filename file))
                       +:+ target_ext k).
Proof.
  rewrite Attach_convert_first_output, <- kinded_converters_snd.
  destruct (first_output_trace _ (kinded_converters_convert (db w)) (None, "") w eq_refl)
    as (evs & r & E & Hu & [rest Hrest] & Hr).
  exists evs, r. split; [exact E |]. split; [exact Hu |]. split; [| exact Hr].
  transitivity (map fst (kinded_converters env as_ file (db w)));
    [| apply kinded_converters_order].
  rewrite Hrest. now apply sublist_inserts_r.
Qed.

End ConversionOrder.


(** An image wins and the others are never run; a video is not touched by
    the image converter. *)
Example Attach_convert_png :
  ActiveStorage.Attach_convert (Demo.env true) (Demo.storage true) Demo.png
    (Demo.world Demo.no_faults None)
  = (logged (Demo.world Demo.no_faults None) [EvConvertToWebP Demo.png],
     Ok (Some (list_ascii_of_string "RIFFxyz"), "Face.webp")).
Proof. vm_compute. reflexivity. Qed.

Example Attach_convert_mp4 :
  converter_calls
    (log (fst (ActiveStorage.Attach_convert (Demo.env true) (Demo.storage true)
                 Demo.mp4 (Demo.world Demo.no_faults None))))
  = [KImage; KVideo]
  /\ snd (ActiveStorage.Attach_convert (Demo.env true) (Demo.storage true)
            Demo.mp4 (Demo.world Demo.no_faults None))
     = Ok (Some (list_ascii_of_string "WEBMmdat"), "clip.webm").
Proof. split; vm_compute; reflexivity. Qed.

(* ===================================================================== *)
(** * Upload and persistence                                              *)
(* ===================================================================== *)

Section Phases.

Variables (env : Env) (as_ : ActiveStorage.t) (model : Attachable.t)
  (field : string) (file : FileHeader.t).

(** [Attach], once the earlier phases are known to succeed. *)
Lemma Attach_phases (config : AttachmentConfig.t) (c : Converted)
    (result : UploadResult.t) (w w1 w2 : World) :
  ActiveStorage.getConfig as_ (Attachable.GetModelName model) field = Ok config ->
  ActiveStorage.validateFile file config = None ->
  ActiveStorage.Attach_convert env as_ file w = (w1, Ok c) ->
  ActiveStorage.Attach_upload as_ model field config file c w1 = (w2, Ok result) ->
  ActiveStorage.Attach env as_ model field file w
  = ActiveStorage.Attach_persist as_
      (ActiveStorage.newAttachment model field (ActiveStorage.finalFile file c))
      result w2.
Proof.
  intros Hc Hv Hconv Hup. unfold ActiveStorage.Attach, bind, lift.
  now rewrite Hc, Hv, Hconv, Hup.
Qed.

(** A successful [Attach] went through every phase. *)
Lemma Attach_Ok_inv (w w' : World) (a : Attachment.t) :
  ActiveStorage.Attach env as_ model field file w = (w', Ok a) ->
  exists config c result w1 w2,
    ActiveStorage.getConfig as_ (Attachable.GetModelName model) field = Ok config
    /\ ActiveStorage.validateFile file config = None
    /\ ActiveStorage.Attach_convert env as_ file w = (w1, Ok c)
    /\ ActiveStorage.Attach_upload as_ model field config file c w1 = (w2, Ok result)
    /\ ActiveStorage.Attach_persist as_
         (ActiveStorage.newAttachment model field (ActiveStorage.finalFile file c))
         result w2 = (w', Ok a).
Proof.
  unfold ActiveStorage.Attach, bind, lift, fail.
  destruct (ActiveStorage.getConfig _ _ _) as [config | e]; [| discriminate].
  destruct (ActiveStorage.validateFile file config) eqn:Hv; [discriminate |].
  destruct (ActiveStorage.Attach_convert env as_ file w) as [w1 [c | e]];
    [| discriminate].
  destruct (ActiveStorage.Attach_upload _ _ _ _ _ _ w1) as [w2 [result | e]] eqn:Hup;
    [| discriminate].
  intros H. exists config, c, result, w1, w2. auto.
Qed.

(** The persistence step, by the outcome of the insert. *)
Lemma Attach_persist_run (final : FileHeader.t) (result : UploadResult.t)
    (w : World) :
  let path := UploadResult.Path result in
  let att :=
    Attachment.with_Path_URL (ActiveStorage.newAttachment model field final) path
      (Provider.GetURL (ActiveStorage.provider as_) path) in
  ActiveStorage.Attach_persist as_ (ActiveStorage.newAttachment model field final)
    result w
  = match db_fault (db w) OpCreate with
    | Some e =>
        (mkWorld (fst (Provider.Delete (ActiveStorage.provider as_) path (store w)))
                 (db w)
                 (log w ++ [EvDBCreate att; EvProviderDelete path]),
         Err e)
    | None =>
        let row := Attachment.with_Id att (next_id (db w)) in
        (mkWorld (store w)
                 (mkDB (attachments (db w) ++ [row])
                       (Z.max (next_id (db w)) (next_id (db w)) + 1)
                       (settings (db w)) (db_fault (db w)))
                 (log w ++ [EvDBCreate att]),
         Ok row)
    end.
Proof.
  intros path att. unfold ActiveStorage.Attach_persist, db_Create, provider_Delete.
  run. fold path. fold att.
  destruct (db_fault (db w) OpCreate) as [e |]; simpl.
  - destruct (Provider.Delete _ path (store w)) as [s' outcome]. simpl.
    now rewrite <- app_assoc.
  - reflexivity.
Qed.

End Phases.

(** C3: after a successful upload, a failing insert makes [Attach] call the
    provider's [Delete] on the path just uploaded and return exactly the
    insert's error, whatever that delete answers; a succeeding insert makes
    [Attach] return the row as persisted. *)
Theorem Attach_insert_failure (env : Env) (as_ : ActiveStorage.t)
    (model : Attachable.t) (field : string) (file : FileHeader.t)
    (config : AttachmentConfig.t) (c : Converted) (result : UploadResult.t)
    (w w1 w2 : World) :
  ActiveStorage.getConfig as_ (Attachable.GetModelName model) field = Ok config ->
  ActiveStorage.validateFile file config = None ->
  ActiveStorage.Attach_convert env as_ file w = (w1, Ok c) ->
  ActiveStorage.Attach_upload as_ model field config file c w1 = (w2, Ok result) ->
  let path := UploadResult.Path result in
  let att :=
    Attachment.with_Path_URL
      (ActiveStorage.newAttachment model field (ActiveStorage.finalFile file c))
      path (Provider.GetURL (ActiveStorage.provider as_) path) in
  (forall e, db_fault (db w2) OpCreate = Some e ->
     forall s' (outcome : option error),
       Provider.Delete (ActiveStorage.provider as_) path (store w2) = (s', outcome) ->
       ActiveStorage.Attach env as_ model field file w
       = (mkWorld s' (db w2) (log w2 ++ [EvDBCreate att; EvProviderDelete path]),
          Err e))
  /\ (db_fault (db w2) OpCreate = None ->
      exists w3 row,
        ActiveStorage.Attach env as_ model field file w = (w3, Ok row)
        /\ row = Attachment.with_Id att (next_id (db w2))
        /\ attachments (db w3) = attachments (db w2) ++ [row]
        /\ store w3 = store w2
        /\ log w3 = log w2 ++ [EvDBCreate att]).
Proof.
  intros Hc Hv Hconv Hup path att.
  rewrite (Attach_phases env as_ model field file config c result w w1 w2 Hc Hv Hconv Hup).
  pose proof (Attach_persist_run as_ model field (ActiveStorage.finalFile file c)
                result w2) as E.
  cbv zeta in E. fold path in E. fold att in E. rewrite E. split.
  - intros e -> s' outcome Hdel. now rewrite Hdel.
  - intros ->. eexists _, _. split; [reflexivity |]. simpl. auto.
Qed.

Lemma Attach_insert_failure_witness :
  let w := Demo.world Demo.create_fails (Some "503 Slow Down") in
  let r := ActiveStorage.Attach (Demo.env true) (Demo.storage true) Demo.user7
             "avatar" Demo.png w in
  snd r = Err "duplicate key"
  /\ uploads (log (fst r))
     = [EvUploadBytes (list_ascii_of_string "RIFFxyz") "Face.webp"
          (UploadConfig.mk [".jpg"; ".jpeg"; ".png"; ".gif"] (5 * 1024 * 1024)
             "avatars/users/avatar")]
  /\ List.last (log (fst r)) (EvLookPath "")
     = EvProviderDelete "avatars/users/avatar/1700000000_Face.webp"
  /\ attachments (db (fst r)) = [].
Proof.
  intros w r.
  pose (c := (Some (list_ascii_of_string "RIFFxyz"), "Face.webp") : Converted).
  pose (result := UploadResult.mk "1700000000_Face.webp"
                    "avatars/users/avatar/1700000000_Face.webp" 7).
  pose (w1 := fst (ActiveStorage.Attach_convert (Demo.env true) (Demo.storage true)
                     Demo.png w)).
  pose (w2 := fst (ActiveStorage.Attach_upload (Demo.storage true) Demo.user7
                     "avatar" Demo.avatar Demo.png c w1)).
  assert (H1 : ActiveStorage.getConfig (Demo.storage true)
                 (Attachable.GetModelName Demo.user7) "avatar" = Ok Demo.avatar)
    by (vm_compute; reflexivity).
  assert (H2 : ActiveStorage.validateFile Demo.png Demo.avatar = None)
    by (vm_compute; reflexivity).
  assert (H3 : ActiveStorage.Attach_convert (Demo.env true) (Demo.storage true)
                 Demo.png w = (w1, Ok c))
    by (vm_compute; reflexivity).
  assert (H4 : ActiveStorage.Attach_upload (Demo.storage true) Demo.user7 "avatar"
                 Demo.avatar Demo.png c w1 = (w2, Ok result))
    by (vm_compute; reflexivity).
  assert (H5 : Provider.Delete (ActiveStorage.provider (Demo.storage true))
                 (UploadResult.Path result) (store w2)
               = (store w2, Some "503 Slow Down"))
    by (vm_compute; reflexivity).
  pose proof (proj1 (Attach_insert_failure (Demo.env true) (Demo.storage true)
                       Demo.user7 "avatar" Demo.png Demo.avatar c result w w1 w2
                       H1 H2 H3 H4)
                    "duplicate key" eq_refl (store w2) (Some "503 Slow Down") H5) as E.
  subst r. rewrite E. vm_compute. repeat split.
Defined.

(* ===================================================================== *)
(** * What a successful Attach persists                                   *)
(* ===================================================================== *)

(** The R2 provider names the object [UploadPath/unique], where [unique]
    is the generated name, and reports both. *)
Lemma R2_upload_result (env : Env) (p : R2.r2Provider) (as_ : ActiveStorage.t)
    (model : Attachable.t) (field : string) (config : AttachmentConfig.t)
    (file : FileHeader.t) (c : Converted) (w w' : World) (result : UploadResult.t) :
  ActiveStorage.provider as_ = R2.as_Provider env p ->
  ActiveStorage.Attach_upload as_ model field config file c w = (w', Ok result) ->
  let unique :=
    generateUniqueFilename env (FileHeader.Filename (ActiveStorage.finalFile file c)) in
  UploadResult.Filename result = unique
  /\ UploadResult.Path result
     = UploadConfig.UploadPath (ActiveStorage.uploadConfig model field config)
       +:+ "/" +:+ unique.
Proof.
  intros Hp. unfold ActiveStorage.Attach_upload, provider_Upload, provider_UploadBytes.
  rewrite Hp. run.
  destruct c as [[data |] name]; simpl.
  - unfold R2.UploadBytes. destruct (PutObject _ _ _ _ _) as [s' [e |]];
      intros [= <- <-]; now split.
  - unfold R2.Upload.
    destruct (FileHeader.Body file) as [e | e | data]; [discriminate | |];
      destruct (PutObject _ _ _ _ _) as [s' [e' |]]; intros [= <- <-]; now split.
Qed.

(** C10: the row a successful [Attach] persists carries the name and size
    of the final file as they were before the upload (the converter's file
    name and the length of its output when a conversion produced bytes,
    the client's file name and size otherwise); from the provider's result
    it takes the Path, and the URL computed from that Path.  With the R2
    provider the generated unique name is the last element of the Path,
    while the stored Filename is the name it was generated from. *)
Theorem Attach_persisted_fields (env : Env) (as_ : ActiveStorage.t)
    (model : Attachable.t) (field : string) (file : FileHeader.t)
    (w w' : World) (a : Attachment.t) :
  ActiveStorage.Attach env as_ model field file w = (w', Ok a) ->
  exists config c result w1 w2,
    ActiveStorage.getConfig as_ (Attachable.GetModelName model) field = Ok config
    /\ ActiveStorage.Attach_convert env as_ file w = (w1, Ok c)
    /\ ActiveStorage.Attach_upload as_ model field config file c w1 = (w2, Ok result)
    /\ Attachment.Filename a = FileHeader.Filename (ActiveStorage.finalFile file c)
    /\ Attachment.Size a = FileHeader.Size (ActiveStorage.finalFile file c)
    /\ match fst c with
       | Some data =>
           Attachment.Filename a = snd c
           /\ Attachment.Size a = Z.of_nat (List.length data)
       | None =>
           Attachment.Filename a = FileHeader.Filename file
           /\ Attachment.Size a = FileHeader.Size file
       end
    /\ Attachment.Path a = UploadResult.Path result
    /\ Attachment.URL a
       = Provider.GetURL (ActiveStorage.provider as_) (UploadResult.Path result)
    /\ In a (attachments (db w'))
    /\ (forall env' p,
          ActiveStorage.provider as_ = R2.as_Provider env' p ->
          UploadResult.Filename result
          = generateUniqueFilename env' (Attachment.Filename a)
          /\ Attachment.Path a
             = UploadConfig.UploadPath (ActiveStorage.uploadConfig model field config)
               +:+ "/" +:+ generateUniqueFilename env' (Attachment.Filename a)).
Proof.
  intros H.
  destruct (Attach_Ok_inv env as_ model field file w w' a H)
    as (config & c & result & w1 & w2 & Hc & Hv & Hconv & Hup & Hper).
  exists config, c, result, w1, w2.
  do 3 (split; [assumption |]).
  rewrite Attach_persist_run in Hper. cbv zeta in Hper.
  destruct (db_fault (db w2) OpCreate); [discriminate |].
  injection Hper as <- <-. simpl.
  do 2 (split; [reflexivity |]).
  split; [destruct c as [[data |] name]; simpl; now split |].
  do 2 (split; [reflexivity |]).
  split; [apply in_or_app; right; now left |].
  intros env' p Hp.
  exact (R2_upload_result env' p as_ model field config file c w1 w2 result Hp Hup).
Qed.

Lemma Attach_persisted_fields_witness :
  let w := Demo.world Demo.no_faults None in
  let a := Attachment.mk 1 "users" 7 "avatar" "Face.webp"
             "avatars/users/avatar/1700000000_Face.webp"
             "https://cdn.example.com/avatars/users/avatar/1700000000_Face.webp"
             7 false in
  exists config c result w1 w2,
    ActiveStorage.getConfig (Demo.storage true) "users" "avatar" = Ok config
    /\ ActiveStorage.Attach_convert (Demo.env true) (Demo.storage true) Demo.png w
       = (w1, Ok c)
    /\ ActiveStorage.Attach_upload (Demo.storage true) Demo.user7 "avatar" config
         Demo.png c w1 = (w2, Ok result)
    /\ Attachment.Filename a = FileHeader.Filename (ActiveStorage.finalFile Demo.png c)
    /\ Attachment.Size a = FileHeader.Size (ActiveStorage.finalFile Demo.png c)
    /\ Attachment.Path a = UploadResult.Path result.
Proof.
  intros w a.
  assert (E : ActiveStorage.Attach (Demo.env true) (Demo.storage true) Demo.user7
                "avatar" Demo.png w
              = (fst (ActiveStorage.Attach (Demo.env true) (Demo.storage true)
                        Demo.user7 "avatar" Demo.png w), Ok a))
    by (vm_compute; reflexivity).
  destruct (Attach_persisted_fields _ _ _ _ _ _ _ _ E)
    as (config & c & result & w1 & w2 & H1 & H2 & H3 & H4 & H5 & _ & H6 & _).
  exists config, c, result, w1, w2. auto 10.
Defined.

(* ===================================================================== *)
(** * A missing encoder                                                   *)
(* ===================================================================== *)

Section Ffmpeg.

Variables (env : Env) (file : FileHeader.t).

Lemma ConvertToWebM_no_ffmpeg (vc : VideoConverter.t) (w : World) :
  exec_LookPath env "ffmpeg" = false ->
  VideoConverter.IsVideoFile (FileHeader.Filename file) = true ->
  strings_ToLower (filepath_Ext (FileHeader.Filename file)) <> ".webm" ->
  VideoConverter.ConvertToWebM env vc file w
  = (logged w [EvConvertToWebM file; EvLookPath "ffmpeg"],
     Err "ffmpeg not found: video conversion requires ffmpeg to be installed").
Proof.
  intros Hlook Hk Hext. unfold VideoConverter.ConvertToWebM. run.
  rewrite Hk, Hlook. apply String.eqb_neq in Hext. rewrite Hext. simpl.
  unfold logged. simpl. now rewrite <- app_assoc.
Qed.

Lemma Attach_convert_no_ffmpeg (as_ : ActiveStorage.t) (vc : VideoConverter.t)
    (w : World) :
  exec_LookPath env "ffmpeg" = false ->
  VideoConverter.IsVideoFile (FileHeader.Filename file) = true ->
  strings_ToLower (filepath_Ext (FileHeader.Filename file)) <> ".webm" ->
  ActiveStorage.videoConverter as_ = Some vc ->
  setting (db w) "media_convert_videos" true = true ->
  ActiveStorage.Attach_convert env as_ file w
  = (logged w (image_stage_calls as_ file (db w)
               ++ [EvConvertToWebM file; EvLookPath "ffmpeg"]),
     Err ("failed to convert video to webm: "
          +:+ "ffmpeg not found: video conversion requires ffmpeg to be installed")).
Proof.
  intros Hlook Hk Hext Hvc Hset.
  assert (Himg : ImageProcessor.IsImageFile (FileHeader.Filename file) = false).
  { destruct (ImageProcessor.IsImageFile _) eqn:E; [| reflexivity].
    now pose proof (IsFile_exclusive KImage KVideo _ E Hk). }
  unfold ActiveStorage.Attach_convert, image_stage_calls, bind.
  rewrite !getSettingBool_run, Hset, Hvc.
  destruct (setting (db w) "media_convert_images" true),
    (ActiveStorage.imageProcessor as_) as [ip |]; simpl; unfold wrapM, ret;
    try rewrite (ConvertToWebP_noop env ip file w (or_introl Himg)); simpl;
    rewrite ConvertToWebM_no_ffmpeg by assumption; simpl;
    rewrite ?logged_logged, ?logged_nil; reflexivity.
Qed.

End Ffmpeg.

(** C6: with no encoder on the PATH, [ConvertToWebM] on a video file that
    is not already [.webm] returns the explicit "ffmpeg not found" error
    after looking the encoder up; [Attach] with video conversion switched on
    then fails having called neither [Upload] nor [UploadBytes] and having
    left store and tables as they were (with the conversion error, once
    config and validation pass); and on a file that is no video, or is
    already [.webm], [ConvertToWebM] returns no bytes, the original file
    name and no error without looking the encoder up. *)
Theorem ConvertToWebM_encoder_absent (env : Env) (file : FileHeader.t) :
  exec_LookPath env "ffmpeg" = false ->
  (VideoConverter.IsVideoFile (FileHeader.Filename file) = true ->
   strings_ToLower (filepath_Ext (FileHeader.Filename file)) <> ".webm" ->
   (forall vc w,
      VideoConverter.ConvertToWebM env vc file w
      = (logged w [EvConvertToWebM file; EvLookPath "ffmpeg"],
         Err "ffmpeg not found: video conversion requires ffmpeg to be installed"))
   /\ (forall as_ model field vc w,
         ActiveStorage.videoConverter as_ = Some vc ->
         setting (db w) "media_convert_videos" true = true ->
         exists evs e,
           ActiveStorage.Attach env as_ model field file w = (logged w evs, Err e)
           /\ uploads evs = []
           /\ (forall config,
                 ActiveStorage.getConfig as_ (Attachable.GetModelName model) field
                 = Ok config ->
                 ActiveStorage.validateFile file config = None ->
                 e = "failed to convert video to webm: "
                     +:+ "ffmpeg not found: video conversion requires ffmpeg to be installed")))
  /\ (VideoConverter.IsVideoFile (FileHeader.Filename file) = false
      \/ strings_ToLower (filepath_Ext (FileHeader.Filename file)) = ".webm" ->
      forall vc w,
        VideoConverter.ConvertToWebM env vc file w
        = (logged w [EvConvertToWebM file], Ok (None, FileHeader.Filename file))).
Proof.
  intros Hlook. split.
  - intros Hk Hext. split.
    + intros vc w. now apply ConvertToWebM_no_ffmpeg.
    + intros as_ model field vc w Hvc Hset.
      unfold ActiveStorage.Attach, bind, lift, fail.
      destruct (ActiveStorage.getConfig _ _ _) as [config | e].
      2:{ exists [], e. rewrite logged_nil. repeat split. discriminate. }
      destruct (ActiveStorage.validateFile file config) as [e |] eqn:Hv.
      { exists [], e. rewrite logged_nil. repeat split. intros ? [= <-] Hn. congruence. }
      rewrite (Attach_convert_no_ffmpeg env file as_ vc w Hlook Hk Hext Hvc Hset).
      eexists _, _. split; [reflexivity |]. split; [| reflexivity].
      unfold image_stage_calls.
      destruct (setting (db w) "media_convert_images" true),
        (ActiveStorage.imageProcessor as_); reflexivity.
  - intros H vc w. now apply ConvertToWebM_noop.
Qed.

Lemma ConvertToWebM_encoder_absent_witness :
  (exists evs e,
     ActiveStorage.Attach (Demo.env false) (Demo.storage false) Demo.media3 "file"
       Demo.mp4 (Demo.world Demo.no_faults None)
     = (logged (Demo.world Demo.no_faults None) evs, Err e)
     /\ uploads evs = []
     /\ (forall config,
           ActiveStorage.getConfig (Demo.storage false)
             (Attachable.GetModelName Demo.media3) "file" = Ok config ->
           ActiveStorage.validateFile Demo.mp4 config = None ->
           e = "failed to convert video to webm: "
               +:+ "ffmpeg not found: video conversion requires ffmpeg to be installed"))
  /\ VideoConverter.ConvertToWebM (Demo.env false) (VideoConverter.NewVideoConverter 23)
       Demo.png (Demo.world Demo.no_faults None)
     = (logged (Demo.world Demo.no_faults None) [EvConvertToWebM Demo.png],
        Ok (None, "Face.PNG")).
Proof.
  pose proof (ConvertToWebM_encoder_absent (Demo.env false) Demo.mp4 eq_refl) as [Hv _].
  pose proof (ConvertToWebM_encoder_absent (Demo.env false) Demo.png eq_refl) as [_ Hn].
  split.
  - assert (Hext : strings_ToLower (filepath_Ext (FileHeader.Filename Demo.mp4))
                   <> ".webm") by (vm_compute; discriminate).
    exact (proj2 (Hv eq_refl Hext) (Demo.storage false) Demo.media3 "file"
             (VideoConverter.NewVideoConverter 23) (Demo.world Demo.no_faults None)
             eq_refl eq_refl).
  - exact (Hn (or_introl eq_refl) (VideoConverter.NewVideoConverter 23)
              (Demo.world Demo.no_faults None)).
Defined.

(* ===================================================================== *)
(** * Image conversion, switched on and off                               *)
(* ===================================================================== *)

Section Images.

Variables (env : Env) (as_ : ActiveStorage.t) (model : Attachable.t)
  (field : string) (file : FileHeader.t).

Lemma Attach_upload_log (config : AttachmentConfig.t) (c : Converted)
    (w w' : World) (r : Result UploadResult.t) :
  ActiveStorage.Attach_upload as_ model field config file c w = (w', r) ->
  log w' = log w ++ [upload_event model field config file c] /\ db w' = db w.
Proof.
  unfold ActiveStorage.Attach_upload, upload_event, provider_Upload,
    provider_UploadBytes. run.
  destruct (fst c) as [data |].
  - destruct (Provider.UploadBytes _ _ _ _ _) as [s' r']. intros [= <- <-]. now split.
  - destruct (Provider.Upload _ _ _ _) as [s' r']. intros [= <- <-]. now split.
Qed.




End Images.

(** C2: one [Attach] call that passes validation.  Its conversion stage is
    the rule "image, then video, then audio; the first non-nil output wins
    and nothing is attempted after it" applied to the converters that are
    switched on, and everything the call does is that stage followed by the
    rest: the converter calls of the whole call are those of the stage, a
    subsequence of image, video, audio.  When the stage fails the call
    ends there with its error.  When it yields bytes, they come from the
    converter called last, whose file-type predicate accepts the file and
    is the only one that does, and the one upload of the call is
    [UploadBytes] of exactly these bytes under the converted name.  When it
    yields none, the one upload of the call is [Upload] of the original
    file header: its stream and its name. *)
Theorem Attach_conversion_order (env : Env) (as_ : ActiveStorage.t)
    (model : Attachable.t) (field : string) (file : FileHeader.t)
    (config : AttachmentConfig.t) (w : World) :
  ActiveStorage.getConfig as_ (Attachable.GetModelName model) field = Ok config ->
  ActiveStorage.validateFile file config = None ->
  exists evs rc w' r tail,
    ActiveStorage.Attach_convert env as_ file w = (logged w evs, rc)
    /\ ActiveStorage.Attach_convert env as_ file w
       = first_output (converters_in_order env as_ file (db w)) (None, "") w
    /\ sublist (converter_calls evs) [KImage; KVideo; KAudio]
    /\ ActiveStorage.Attach env as_ model field file w = (w', r)
    /\ log w' = log w ++ evs ++ tail
    /\ converter_calls tail = []
    /\ match rc with
       | Err e => r = Err e /\ tail = []
       | Ok c =>
           match fst c with
           | Some data =>
               uploads (evs ++ tail)
               = [EvUploadBytes data (snd c)
                    (ActiveStorage.uploadConfig model field config)]
               /\ exists before k,
                    converter_calls evs = before ++ [k]
                    /\ IsFile k (FileHeader.Filename file) = true
                    /\ (forall k', IsFile k' (FileHeader.Filename file) = true ->
                          k' = k)
                    /\ snd c = strings_TrimSuffix (FileHeader.Filename file)
                                 (filepath_Ext (FileHeader.Filename file))
                               +:+ target_ext k
           | None =>
               uploads (evs ++ tail)
               = [EvUpload file (ActiveStorage.uploadConfig model field config)]
           end
       end.
Proof.
  intros Hc Hv.
  destruct (Attach_convert_trace env as_ file w) as (evs & rc & E & Hu & Hsub & Hr).
  assert (HA : ActiveStorage.Attach env as_ model field file w
               = match rc with
                 | Ok c =>
                     match ActiveStorage.Attach_upload as_ model field config file c
                             (logged w evs) with
                     | (w2, Ok result) =>
                         ActiveStorage.Attach_persist as_
                           (ActiveStorage.newAttachment model field
                              (ActiveStorage.finalFile file c)) result w2
                     | (w2, Err e) => (w2, Err e)
                     end
                 | Err e => (logged w evs, Err e)
                 end).
  { unfold ActiveStorage.Attach, bind, lift. rewrite Hc, Hv, E.
    destruct rc as [c | e]; [| reflexivity].
    now destruct (ActiveStorage.Attach_upload _ _ _ _ _ _ _) as [w2 [result | e]]. }
  assert (Hwin : forall c, rc = Ok c ->
            match fst c with
            | Some data =>
                exists before k,
                  converter_calls evs = before ++ [k]
                  /\ IsFile k (FileHeader.Filename file) = true
                  /\ (forall k', IsFile k' (FileHeader.Filename file) = true -> k' = k)
                  /\ snd c = strings_TrimSuffix (FileHeader.Filename file)
                               (filepath_Ext (FileHeader.Filename file))
                             +:+ target_ext k
            | None => True
            end).
  { intros c Hrc. destruct (fst c) as [data |] eqn:Hfst; [| exact I].
    destruct (Hr c Hrc) as (before & k & Hb & Hk & Hn); [now rewrite Hfst |].
    exists before, k. split; [exact Hb |]. split; [exact Hk |]. split; [| exact Hn].
    intros k' Hk'. now apply IsFile_exclusive with (FileHeader.Filename file). }
  assert (Hone : forall c rest,
            converter_calls rest = [] -> uploads rest = [] ->
            converter_calls (upload_event model field config file c :: rest) = []
            /\ uploads (evs ++ upload_event model field config file c :: rest)
               = [upload_event model field config file c]).
  { intros c rest Hcr Hur. rewrite uploads_app, Hu.
    unfold upload_event. destruct (fst c); simpl; now rewrite Hcr, Hur. }
  assert (Hev : forall c,
            match fst c with
            | Some data =>
                upload_event model field config file c
                = EvUploadBytes data (snd c)
                    (ActiveStorage.uploadConfig model field config)
            | None =>
                upload_event model field config file c
                = EvUpload file (ActiveStorage.uploadConfig model field config)
            end).
  { intros [[data |] name]; reflexivity. }
  destruct rc as [c | e].
  - specialize (Hwin c eq_refl). specialize (Hev c).
    destruct (ActiveStorage.Attach_upload as_ model field config file c (logged w evs))
      as [w2 ru] eqn:Hup.
    destruct (Attach_upload_log as_ model field file config c _ _ _ Hup) as [Hlog _].
    simpl in Hlog.
    assert (Hfin : exists w' r rest,
              ActiveStorage.Attach env as_ model field file w = (w', r)
              /\ log w' = log w2 ++ rest
              /\ converter_calls rest = [] /\ uploads rest = []).
    { rewrite HA. destruct ru as [result | e].
      - rewrite Attach_persist_run. cbv zeta.
        destruct (db_fault (db w2) OpCreate);
          do 2 eexists; eexists; (split; [reflexivity |]); simpl;
          (split; [reflexivity |]); now split.
      - exists w2, (Err e), []. now rewrite app_nil_r. }
    destruct Hfin as (w' & r & rest & HAw & Hlog' & Hcr & Hur).
    destruct (Hone c rest Hcr Hur) as [Hc0 Hu1].
    exists evs, (Ok c), w', r, (upload_event model field config file c :: rest).
    split; [exact E |]. split; [apply Attach_convert_first_output |].
    split; [exact Hsub |]. split; [exact HAw |].
    split; [rewrite Hlog', Hlog, <- !app_assoc; reflexivity |].
    split; [exact Hc0 |].
    destruct (fst c) as [data |]; rewrite <- Hev; [now split | exact Hu1].
  - exists evs, (Err e), (logged w evs), (Err e), [].
    split; [exact E |]. split; [apply Attach_convert_first_output |].
    split; [exact Hsub |]. split; [exact HA |].
    split; [simpl; now rewrite app_nil_r |]. now split.
Qed.

Lemma Attach_conversion_order_witness :
  let w := Demo.world Demo.no_faults None in
  exists w' a,
    ActiveStorage.Attach (Demo.env true) (Demo.storage true) Demo.media3 "file"
      Demo.mp4 w = (w', Ok a)
    /\ converter_calls (log w') = [KImage; KVideo]
    /\ uploads (log w')
       = [EvUploadBytes (list_ascii_of_string "WEBMmdat") "clip.webm"
            (ActiveStorage.uploadConfig Demo.media3 "file" Demo.media)]
    /\ Attachment.Filename a = "clip.webm".
Proof.
  intros w.
  assert (Hc : ActiveStorage.getConfig (Demo.storage true)
                 (Attachable.GetModelName Demo.media3) "file" = Ok Demo.media)
    by (vm_compute; reflexivity).
  assert (Hv : ActiveStorage.validateFile Demo.mp4 Demo.media = None)
    by (vm_compute; reflexivity).
  destruct (Attach_conversion_order (Demo.env true) (Demo.storage true) Demo.media3
              "file" Demo.mp4 Demo.media w Hc Hv)
    as (evs & rc & w' & r & tail & E & _ & _ & HA & Hlog & Htail & Hrc).
  assert (Ec : ActiveStorage.Attach_convert (Demo.env true) (Demo.storage true)
                 Demo.mp4 w
               = (logged w [EvConvertToWebP Demo.mp4; EvConvertToWebM Demo.mp4;
                            EvLookPath "ffmpeg";
                            EvRunFfmpeg
                              (VideoConverter.ffmpeg_args
                                 (VideoConverter.NewVideoConverter 23)
                                 "/tmp/video-input-*.mp4" "/tmp/video-output-*.webm")],
                  Ok (Some (list_ascii_of_string "WEBMmdat"), "clip.webm")))
    by (vm_compute; reflexivity).
  rewrite Ec in E. injection E as Hevs <-.
  subst evs. simpl in Hrc. destruct Hrc as [Hup _].
  assert (Ea : exists a,
             snd (ActiveStorage.Attach (Demo.env true) (Demo.storage true)
                    Demo.media3 "file" Demo.mp4 w) = Ok a
             /\ Attachment.Filename a = "clip.webm")
    by (vm_compute; eexists; split; reflexivity).
  rewrite HA in Ea. destruct Ea as (a & Hr & Hname). simpl in Hr. subst r.
  exists w', a. split; [exact HA |].
  assert (Hw : log w' = [EvConvertToWebP Demo.mp4; EvConvertToWebM Demo.mp4;
                         EvLookPath "ffmpeg";
                         EvRunFfmpeg
                           (VideoConverter.ffmpeg_args
                              (VideoConverter.NewVideoConverter 23)
                              "/tmp/video-input-*.mp4" "/tmp/video-output-*.webm")]
                        ++ tail) by exact Hlog.
  rewrite Hw, converter_calls_app, Htail.
  split; [reflexivity |]. split; [exact Hup | exact Hname].
Defined.




(** Nothing in the package compares the encoder's output with the upload:
    with codecs that hand back what they are given, the bytes passed to
    [UploadBytes] are those of the upload, under the [.webp] name. *)
Example encoder_output_is_not_compared :
  let out := ActiveStorage.Attach Demo2.env_echo (Demo.storage true) Demo.user7
               "avatar" Demo.png (Demo.world Demo.no_faults None) in
  FileHeader.Body Demo.png = Content (list_ascii_of_string "Pxyz")
  /\ uploads (log (fst out))
     = [EvUploadBytes (list_ascii_of_string "Pxyz") "Face.webp"
          (ActiveStorage.uploadConfig Demo.user7 "avatar" Demo.avatar)]
  /\ exists a, snd out = Ok a /\ Attachment.Filename a = "Face.webp".
Proof.
  intros out. split; [reflexivity |]. split; [vm_compute; reflexivity |].
  eexists. split; vm_compute; reflexivity.
Qed.

(* ===================================================================== *)
(** * The orchestrator as constructed, and what ends up in the bucket     *)
(* ===================================================================== *)

(** [NewActiveStorage] never leaves a converter nil, and registrations do
    not change them. *)
Lemma NewActiveStorage_converters (env : Env)
    (newLocal : string -> string -> Result Provider.t) (config : Config.t)
    (w w' : World) (as_ : ActiveStorage.t) :
  ActiveStorage.NewActiveStorage env newLocal config w = (w', Ok as_) ->
  ActiveStorage.imageProcessor as_ = Some (ImageProcessor.mk 85)
  /\ ActiveStorage.videoConverter as_ = Some (VideoConverter.mk 23)
  /\ ActiveStorage.audioConverter as_ = Some (AudioConverter.mk 96)
  /\ ActiveStorage.configs as_ = ∅.
Proof.
  unfold ActiveStorage.NewActiveStorage. run.
  destruct (os_Getwd env); simpl; [| discriminate].
  match goal with
  | |- context [match ?made with Some _ => _ | None => _ end] => destruct made as [r |]
  end; [| discriminate].
  destruct r as [p | e]; simpl; [| discriminate].
  unfold db_AutoMigrate. destruct (db_fault (db w) OpMigrate); simpl; [discriminate |].
  intros [= _ <-]. simpl. auto.
Qed.

Lemma RegisterAttachment_converters (as_ : ActiveStorage.t) (modelName : string)
    (config : AttachmentConfig.t) :
  let as' := ActiveStorage.RegisterAttachment as_ modelName config in
  ActiveStorage.imageProcessor as' = ActiveStorage.imageProcessor as_
  /\ ActiveStorage.videoConverter as' = ActiveStorage.videoConverter as_
  /\ ActiveStorage.audioConverter as' = ActiveStorage.audioConverter as_
  /\ ActiveStorage.provider as' = ActiveStorage.provider as_.
Proof. simpl. auto. Qed.

(** A registered policy is the one [getConfig] finds; a later registration
    for the same (model, field) replaces it. *)
Lemma getConfig_RegisterAttachment (as_ : ActiveStorage.t) (modelName : string)
    (config : AttachmentConfig.t) :
  ActiveStorage.getConfig (ActiveStorage.RegisterAttachment as_ modelName config)
    modelName (AttachmentConfig.Field config) = Ok config.
Proof.
  unfold ActiveStorage.getConfig, ActiveStorage.RegisterAttachment. simpl.
  now rewrite !lookup_insert_eq.
Qed.

(** [DetectMediaType] calls [.gif] and [.svg] images and [ShouldConvert]
    asks for their conversion, but [IsImageFile] does not list them: a GIF
    is stored as it came, conversion switched on. *)
Example gif_is_not_converted :
  DetectMediaType "wave.gif" = MediaTypeImage
  /\ ShouldConvert "wave.gif" = true
  /\ ImageProcessor.IsImageFile "wave.gif" = false
  /\ snd (ActiveStorage.Attach (Demo.env true) (Demo.storage true) Demo.user7
            "avatar" Demo.gif (Demo.world Demo.no_faults None))
     = Ok (Attachment.mk 1 "users" 7 "avatar" "wave.gif"
             "avatars/users/avatar/1700000000_wave.gif"
             "https://cdn.example.com/avatars/users/avatar/1700000000_wave.gif"
             512 false).
Proof. repeat split; vm_compute; reflexivity. Qed.

(** With the R2 provider, the object found under the persisted Path after
    a successful [Attach] holds the converter's output when there is one,
    and the uploaded bytes otherwise. *)
Lemma Attach_R2_object (env env' : Env) (p : R2.r2Provider)
    (as_ : ActiveStorage.t) (model : Attachable.t) (field : string)
    (file : FileHeader.t) (w w' : World) (a : Attachment.t) :
  ActiveStorage.provider as_ = R2.as_Provider env' p ->
  ActiveStorage.Attach env as_ model field file w = (w', Ok a) ->
  exists c w1 object,
    ActiveStorage.Attach_convert env as_ file w = (w1, Ok c)
    /\ objects (store w') !! (R2.bucket p, Attachment.Path a) = Some object
    /\ match fst c with
       | Some data => obj_Body object = data
       | None => FileHeader.Body file = Content (obj_Body object)
       end.
Proof.
  intros Hp H.
  destruct (Attach_Ok_inv env as_ model field file w w' a H)
    as (config & c & result & w1 & w2 & Hc & Hv & Hconv & Hup & Hper).
  rewrite Attach_persist_run in Hper. cbv zeta in Hper.
  destruct (db_fault (db w2) OpCreate); [discriminate |].
  injection Hper as <- <-. simpl.
  revert Hup. unfold ActiveStorage.Attach_upload, provider_Upload, provider_UploadBytes.
  rewrite Hp. run.
  destruct c as [[data |] name]; simpl.
  - unfold R2.UploadBytes, PutObject.
    destruct (put_error (store w1)); simpl; [discriminate |].
    intros [= <- <-]. simpl.
    eexists (Some data, name), w1, _. split; [exact Hconv |].
    split; [apply lookup_insert_eq | reflexivity].
  - unfold R2.Upload, PutObject.
    destruct (FileHeader.Body file) as [e | e | data] eqn:Hb; [discriminate | |];
      destruct (put_error (store w1)); simpl; try discriminate.
    intros [= <- <-]. simpl.
    eexists (None, name), w1, _. split; [exact Hconv |].
    split; [apply lookup_insert_eq | reflexivity].
Qed.

(* ===================================================================== *)
(** * The registry of upload policies                                     *)
(* ===================================================================== *)

(** X1: a registered policy is the one [getConfig] finds under its model
    and field; for every other (model, field) pair the policy found, if
    any, is the one found before; and registering the same policy twice is
    registering it once. *)
Theorem RegisterAttachment_getConfig (as_ : ActiveStorage.t) (modelName : string)
    (config : AttachmentConfig.t) :
  let as' := ActiveStorage.RegisterAttachment as_ modelName config in
  ActiveStorage.getConfig as' modelName (AttachmentConfig.Field config) = Ok config
  /\ (forall m f c,
        (m, f) <> (modelName, AttachmentConfig.Field config) ->
        (ActiveStorage.getConfig as' m f = Ok c
         <-> ActiveStorage.getConfig as_ m f = Ok c))
  /\ ActiveStorage.RegisterAttachment as' modelName config = as'.
Proof.
  intros as'. split; [apply getConfig_RegisterAttachment |]. split.
  - intros m f c Hne. subst as'.
    unfold ActiveStorage.getConfig, ActiveStorage.RegisterAttachment. simpl.
    destruct (decide (modelName = m)) as [<- | Hm].
    + rewrite lookup_insert_eq.
      assert (Hf : AttachmentConfig.Field config <> f) by congruence.
      rewrite lookup_insert_ne by exact Hf.
      destruct (ActiveStorage.configs as_ !! modelName) as [fields |];
        [reflexivity |].
      rewrite lookup_empty. split; discriminate.
    + now rewrite lookup_insert_ne.
  - subst as'. unfold ActiveStorage.RegisterAttachment. simpl.
    rewrite lookup_insert_eq, !insert_insert_eq. reflexivity.
Qed.

(** X2: an [Attach] for which no policy is registered returns the error of
    [getConfig] and does nothing else: the world is as before.  A storage
    fresh from [NewActiveStorage] has no policy at all, so every [Attach]
    on it ends that way. *)
Theorem Attach_without_config (env : Env) (as_ : ActiveStorage.t)
    (model : Attachable.t) (field : string) (file : FileHeader.t) (w : World) :
  (forall e,
     ActiveStorage.getConfig as_ (Attachable.GetModelName model) field = Err e ->
     ActiveStorage.Attach env as_ model field file w = (w, Err e))
  /\ (forall newLocal config w0 w1,
        ActiveStorage.NewActiveStorage env newLocal config w0 = (w1, Ok as_) ->
        ActiveStorage.Attach env as_ model field file w
        = (w, Err ("no attachment config found for model "
                   +:+ Attachable.GetModelName model))).
Proof.
  split.
  - intros e He. unfold ActiveStorage.Attach, bind, lift. now rewrite He.
  - intros newLocal config w0 w1 Hnew.
    destruct (NewActiveStorage_converters env newLocal config w0 w1 as_ Hnew)
      as (_ & _ & _ & Hempty).
    unfold ActiveStorage.Attach, ActiveStorage.getConfig, bind, lift.
    rewrite Hempty, lookup_empty. reflexivity.
Qed.

(* ===================================================================== *)
(** * The ways Attach fails after validation                              *)
(* ===================================================================== *)

Section AttachFailures.

Variables (env : Env) (as_ : ActiveStorage.t) (model : Attachable.t)
  (field : string) (file : FileHeader.t).

(** X3: when a converter fails, [Attach] returns the converter's (wrapped)
    error as it is; nothing was uploaded, and store and tables are as
    before. *)
Theorem Attach_conversion_error (config : AttachmentConfig.t) (w w1 : World)
    (e : error) :
  ActiveStorage.getConfig as_ (Attachable.GetModelName model) field = Ok config ->
  ActiveStorage.validateFile file config = None ->
  ActiveStorage.Attach_convert env as_ file w = (w1, Err e) ->
  ActiveStorage.Attach env as_ model field file w = (w1, Err e)
  /\ store w1 = store w /\ db w1 = db w
  /\ uploads (log w1) = uploads (log w).
Proof.
  intros Hc Hv Hconv. split.
  - unfold ActiveStorage.Attach, bind, lift. now rewrite Hc, Hv, Hconv.
  - destruct (Attach_convert_trace env as_ file w) as (evs & r & E & Hu & _).
    rewrite E in Hconv. injection Hconv as <- _. unfold logged. simpl.
    rewrite uploads_app, Hu, app_nil_r. auto.
Qed.

(** X4: when the provider's upload fails, [Attach] returns the provider's
    error as it is; no row is inserted, no insert and no compensating
    delete is issued: the upload call is the last thing logged. *)
Theorem Attach_upload_error (config : AttachmentConfig.t) (c : Converted)
    (w w1 w2 : World) (e : error) :
  ActiveStorage.getConfig as_ (Attachable.GetModelName model) field = Ok config ->
  ActiveStorage.validateFile file config = None ->
  ActiveStorage.Attach_convert env as_ file w = (w1, Ok c) ->
  ActiveStorage.Attach_upload as_ model field config file c w1 = (w2, Err e) ->
  ActiveStorage.Attach env as_ model field file w = (w2, Err e)
  /\ db w2 = db w
  /\ log w2 = log w1 ++ [upload_event model field config file c].
Proof.
  intros Hc Hv Hconv Hup. split.
  - unfold ActiveStorage.Attach, bind, lift. now rewrite Hc, Hv, Hconv, Hup.
  - destruct (Attach_upload_log as_ model field file config c w1 w2 _ Hup) as [Hl Hd].
    destruct (Attach_convert_trace env as_ file w) as (evs & r & E & _).
    rewrite E in Hconv. injection Hconv as <- _. rewrite Hd. now split.
Qed.

(** X5: whatever its outcome, [Attach] leaves the settings and every
    existing row as they are and makes at most one upload call; it appends
    exactly one row, the one it returns, when it succeeds and none when it
    fails. *)
Theorem Attach_rows (w w' : World) (r : Result Attachment.t) :
  ActiveStorage.Attach env as_ model field file w = (w', r) ->
  settings (db w') = settings (db w)
  /\ db_fault (db w') = db_fault (db w)
  /\ (exists evs, log w' = log w ++ evs /\ (List.length (uploads evs) <= 1)%nat)
  /\ match r with
     | Ok a =>
         attachments (db w') = attachments (db w) ++ [a]
         /\ Attachment.Id a = next_id (db w)
         /\ next_id (db w') = next_id (db w) + 1
     | Err _ =>
         attachments (db w') = attachments (db w)
         /\ next_id (db w') = next_id (db w)
     end.
Proof.
  unfold ActiveStorage.Attach, bind, lift, fail.
  destruct (ActiveStorage.getConfig _ _ _) as [config | e].
  2:{ intros [= <- <-]. do 2 (split; [reflexivity |]).
      split; [exists []; rewrite app_nil_r; simpl; auto | auto]. }
  destruct (ActiveStorage.validateFile file config) as [e |].
  { intros [= <- <-]. do 2 (split; [reflexivity |]).
    split; [exists []; rewrite app_nil_r; simpl; auto | auto]. }
  destruct (Attach_convert_trace env as_ file w) as (evs & rc & E & Hu & _).
  rewrite E. destruct rc as [c | e].
  2:{ intros [= <- <-]. simpl. do 2 (split; [reflexivity |]).
      split; [exists evs; rewrite Hu; simpl; auto | auto]. }
  destruct (ActiveStorage.Attach_upload as_ model field config file c (logged w evs))
    as [w2 ru] eqn:Hup.
  destruct (Attach_upload_log as_ model field file config c _ _ _ Hup) as [Hl Hd].
  simpl in Hl, Hd.
  assert (Hone : (List.length (uploads (evs ++ [upload_event model field config file c]))
                  <= 1)%nat).
  { rewrite uploads_app, Hu. unfold upload_event. destruct (fst c); simpl; lia. }
  destruct ru as [result | e].
  2:{ intros [= <- <-]. rewrite Hd. do 2 (split; [reflexivity |]).
      split; [| auto]. eexists. split; [rewrite Hl, <- app_assoc; reflexivity |].
      exact Hone. }
  rewrite Attach_persist_run. cbv zeta. rewrite Hd.
  destruct (db_fault (db w) OpCreate) as [e |]; intros [= <- <-]; simpl.
  - do 2 (split; [reflexivity |]). split; [| auto].
    eexists. split; [rewrite Hl, <- !app_assoc; reflexivity |].
    rewrite app_assoc, uploads_app. simpl. rewrite app_nil_r. exact Hone.
  - do 2 (split; [reflexivity |]). split.
    + eexists. split; [rewrite Hl, <- !app_assoc; reflexivity |].
      rewrite app_assoc, uploads_app. simpl. rewrite app_nil_r. exact Hone.
    + split; [reflexivity |]. split; [reflexivity | lia].
Qed.

End AttachFailures.

Lemma Attach_conversion_error_witness :
  let w := Demo.world Demo.no_faults None in
  let r := ActiveStorage.Attach (Demo.env false) (Demo.storage false) Demo.media3
             "file" Demo.mp4 w in
  snd r = Err ("failed to convert video to webm: "
               +:+ "ffmpeg not found: video conversion requires ffmpeg to be installed")
  /\ store (fst r) = store w /\ db (fst r) = db w
  /\ uploads (log (fst r)) = uploads (log w).
Proof.
  intros w r.
  pose (w1 := fst (ActiveStorage.Attach_convert (Demo.env false) (Demo.storage false)
                     Demo.mp4 w)).
  assert (H1 : ActiveStorage.getConfig (Demo.storage false)
                 (Attachable.GetModelName Demo.media3) "file" = Ok Demo.media)
    by (vm_compute; reflexivity).
  assert (H2 : ActiveStorage.validateFile Demo.mp4 Demo.media = None)
    by (vm_compute; reflexivity).
  assert (H3 : ActiveStorage.Attach_convert (Demo.env false) (Demo.storage false)
                 Demo.mp4 w
               = (w1, Err ("failed to convert video to webm: "
                    +:+ "ffmpeg not found: video conversion requires ffmpeg to be installed")))
    by (vm_compute; reflexivity).
  destruct (Attach_conversion_error (Demo.env false) (Demo.storage false) Demo.media3
              "file" Demo.mp4 Demo.media w w1 _ H1 H2 H3) as (E & Hs & Hd & Hu).
  subst r. rewrite E. simpl. auto.
Defined.

Lemma Attach_upload_error_witness :
  let r := ActiveStorage.Attach (Demo.env true) (Demo.storage true) Demo.user7
             "avatar" Demo.png Demo2.world_put_fails in
  snd r = Err "failed to upload to R2: 503 Slow Down"
  /\ db (fst r) = db Demo2.world_put_fails.
Proof.
  intros r.
  pose (c := (Some (list_ascii_of_string "RIFFxyz"), "Face.webp") : Converted).
  pose (w1 := fst (ActiveStorage.Attach_convert (Demo.env true) (Demo.storage true)
                     Demo.png Demo2.world_put_fails)).
  pose (w2 := fst (ActiveStorage.Attach_upload (Demo.storage true) Demo.user7
                     "avatar" Demo.avatar Demo.png c w1)).
  assert (H1 : ActiveStorage.getConfig (Demo.storage true)
                 (Attachable.GetModelName Demo.user7) "avatar" = Ok Demo.avatar)
    by (vm_compute; reflexivity).
  assert (H2 : ActiveStorage.validateFile Demo.png Demo.avatar = None)
    by (vm_compute; reflexivity).
  assert (H3 : ActiveStorage.Attach_convert (Demo.env true) (Demo.storage true)
                 Demo.png Demo2.world_put_fails = (w1, Ok c))
    by (vm_compute; reflexivity).
  assert (H4 : ActiveStorage.Attach_upload (Demo.storage true) Demo.user7 "avatar"
                 Demo.avatar Demo.png c w1
               = (w2, Err "failed to upload to R2: 503 Slow Down"))
    by (vm_compute; reflexivity).
  destruct (Attach_upload_error (Demo.env true) (Demo.storage true) Demo.user7
              "avatar" Demo.png Demo.avatar c Demo2.world_put_fails w1 w2 _
              H1 H2 H3 H4) as (E & Hd & _).
  subst r. rewrite E. simpl. auto.
Defined.

Lemma Attach_rows_witness :
  let w := Demo2.world_with_avatar in
  let r := ActiveStorage.Attach (Demo.env true) (Demo.storage true) Demo.user7
             "avatar" Demo.png w in
  exists a,
    snd r = Ok a
    /\ attachments (db (fst r)) = attachments (db w) ++ [a]
    /\ Attachment.Id a = 2.
Proof.
  intros w r.
  destruct r as [w' [a | e]] eqn:E; [| vm_compute in E; discriminate].
  destruct (Attach_rows (Demo.env true) (Demo.storage true) Demo.user7 "avatar"
              Demo.png w w' (Ok a) E) as (_ & _ & _ & Hrows & Hid & _).
  exists a. simpl. auto.
Defined.

(* ===================================================================== *)
(** * Reading back what was attached                                      *)
(* ===================================================================== *)

Section ReadBack.

Variables (env : Env) (as_ : ActiveStorage.t) (model : Attachable.t)
  (field : string).

Lemma filter_none {A : Type} (f : A -> bool) (l : list A) :
  Forall (fun x => f x = false) l <-> List.filter f l = [].
Proof.
  induction l as [| x l IH]; simpl; [split; auto |].
  destruct (f x) eqn:E; split; intros H.
  - inversion H; congruence.
  - discriminate.
  - inversion H; subst. now apply IH.
  - constructor; [exact E | now apply IH].
Qed.

Lemma fresh_filter (rows : list Attachment.t) :
  Forall (fun row => is_live_for model field row = false) rows
  <-> List.filter (matches_key (Attachable.GetModelName model)
                     (Attachable.GetId model) field) rows = [].
Proof. apply (filter_none (is_live_for model field)). Qed.

Lemma least_Id_fold_min (l : list Attachment.t) (acc : option Attachment.t)
    (b : Attachment.t) :
  fold_left least_Id l acc = Some b ->
  (forall x, In x l -> Attachment.Id b <= Attachment.Id x)
  /\ (forall c, acc = Some c -> Attachment.Id b <= Attachment.Id c).
Proof.
  revert acc; induction l as [| y l IH]; intros acc H; simpl in H.
  - split; [intros x [] |]. intros c ->. injection H as <-. lia.
  - destruct (IH _ H) as [Hl Hacc]. split.
    + intros x [<- | Hx]; [| now apply Hl].
      unfold least_Id in Hacc. destruct acc as [c |].
      * destruct (Z.ltb_spec (Attachment.Id y) (Attachment.Id c));
          specialize (Hacc _ eq_refl); lia.
      * apply (Hacc y eq_refl).
    + intros c ->. unfold least_Id in Hacc.
      destruct (Z.ltb_spec (Attachment.Id y) (Attachment.Id c));
        specialize (Hacc _ eq_refl); lia.
Qed.

(** The row a successful [Attach] appends: the owner's key, not deleted,
    the fresh primary key, and a URL that is [GetURL] of its Path. *)
Lemma Attach_Ok_row (file : FileHeader.t) (w w' : World) (a : Attachment.t) :
  ActiveStorage.Attach env as_ model field file w = (w', Ok a) ->
  attachments (db w') = attachments (db w) ++ [a]
  /\ db_fault (db w') = db_fault (db w)
  /\ Attachment.Id a = next_id (db w)
  /\ is_live_for model field a = true
  /\ Attachment.with_URL a
       (Provider.GetURL (ActiveStorage.provider as_) (Attachment.Path a)) = a.
Proof.
  intros H.
  destruct (Attach_Ok_inv env as_ model field file w w' a H)
    as (config & c & result & w1 & w2 & Hc & Hv & Hconv & Hup & Hper).
  destruct (Attach_convert_trace env as_ file w) as (evs & r & E & _).
  rewrite E in Hconv. injection Hconv as <- _.
  destruct (Attach_upload_log as_ model field file config c _ _ _ Hup) as [_ Hd].
  simpl in Hd.
  rewrite Attach_persist_run in Hper. cbv zeta in Hper. rewrite Hd in Hper.
  destruct (db_fault (db w) OpCreate); [discriminate |].
  injection Hper as <- <-. simpl.
  do 3 (split; [reflexivity |]). split; [| reflexivity].
  unfold is_live_for, matches_key. simpl.
  now rewrite !String.eqb_refl, Z.eqb_refl.
Qed.

(** X6: a successful [Attach] for an owner and field that had no live
    attachment is read back by [LoadAttachment] exactly as it was
    returned, when the query itself does not fail. *)
Theorem Attach_then_LoadAttachment (file : FileHeader.t) (w w' : World)
    (a : Attachment.t) :
  ActiveStorage.Attach env as_ model field file w = (w', Ok a) ->
  db_fault (db w) OpQuery = None ->
  Forall (fun row => is_live_for model field row = false) (attachments (db w)) ->
  ActiveStorage.LoadAttachment as_ model field w' = (w', Ok a).
Proof.
  intros H Hq Hfresh.
  destruct (Attach_Ok_row file w w' a H) as (Hrows & Hf & _ & Hlive & Hurl).
  unfold ActiveStorage.LoadAttachment, db_First_Attachment, bind, ret.
  rewrite Hf, Hq, Hrows, List.filter_app.
  apply fresh_filter in Hfresh. unfold is_live_for in Hlive.
  rewrite Hfresh. simpl. rewrite Hlive. simpl. now rewrite Hurl.
Qed.

(** X7: [Attach] does not replace.  When the owner and field already have
    a live attachment, a further successful [Attach] adds a second row,
    and [LoadAttachment] goes on returning the older one. *)
Theorem Attach_does_not_replace (file : FileHeader.t) (w w' : World)
    (old a : Attachment.t) :
  ids_below_next (db w) ->
  ActiveStorage.LoadAttachment as_ model field w = (w, Ok old) ->
  ActiveStorage.Attach env as_ model field file w = (w', Ok a) ->
  ActiveStorage.LoadAttachment as_ model field w' = (w', Ok old)
  /\ Attachment.Id old < Attachment.Id a
  /\ In a (attachments (db w')).
Proof.
  intros Hids Hload H.
  destruct (Attach_Ok_row file w w' a H) as (Hrows & Hf & Hid & Hlive & _).
  revert Hload.
  unfold ActiveStorage.LoadAttachment, db_First_Attachment, bind, ret.
  rewrite Hf. destruct (db_fault (db w) OpQuery); [discriminate |].
  destruct (fold_left least_Id _ None) as [row |] eqn:Hrow; [| discriminate].
  intros [= <-].
  assert (Hlt : Attachment.Id row < Attachment.Id a).
  { destruct (least_Id_fold_In _ _ _ Hrow) as [? | Hin]; [discriminate |].
    apply filter_In in Hin as [Hin _].
    rewrite Hid. exact (proj1 (List.Forall_forall _ _) Hids row Hin). }
  rewrite Hrows, List.filter_app, fold_left_app, Hrow. simpl.
  unfold is_live_for in Hlive. rewrite Hlive. simpl.
  destruct (Z.ltb_spec (Attachment.Id a) (Attachment.Id row)); [lia |].
  split; [reflexivity |]. split; [exact Hlt |].
  apply in_or_app. right. now left.
Qed.

(** X8: [LoadAttachment] never changes the world.  When the query does
    not fail, it answers "record not found" exactly when no live row
    carries the owner's key; a failing query's error is returned as it
    is. *)
Theorem LoadAttachment_not_found (w w' : World) (r : Result Attachment.t) :
  ActiveStorage.LoadAttachment as_ model field w = (w', r) ->
  w' = w
  /\ (db_fault (db w) OpQuery = None ->
      (r = Err "record not found"
       <-> Forall (fun row => is_live_for model field row = false)
                  (attachments (db w))))
  /\ (forall e, db_fault (db w) OpQuery = Some e -> r = Err e).
Proof.
  unfold ActiveStorage.LoadAttachment, db_First_Attachment, bind, ret.
  destruct (db_fault (db w) OpQuery) as [e |].
  - intros [= <- <-]. split; [reflexivity |]. split; [discriminate |].
    now intros ? [= <-].
  - destruct (fold_left least_Id _ None) as [row |] eqn:Hrow; intros [= <- <-];
      (split; [reflexivity |]); (split; [| discriminate]); intros _.
    + split; [discriminate |]. intros Hnone. apply fresh_filter in Hnone.
      rewrite Hnone in Hrow. discriminate.
    + split; [| reflexivity]. intros _. apply fresh_filter.
      destruct (List.filter _ (attachments (db w))) as [| x l] eqn:Hl;
        [reflexivity |].
      destruct (least_Id_fold_some (x :: l) None) as [b Hb];
        [right; discriminate |]. congruence.
Qed.

(** X9: among the live rows that carry the owner's key, [LoadAttachment]
    returns the one of least primary key. *)
Theorem LoadAttachment_oldest (w w' : World) (a : Attachment.t) :
  ActiveStorage.LoadAttachment as_ model field w = (w', Ok a) ->
  forall row,
    In row (attachments (db w)) ->
    is_live_for model field row = true ->
    Attachment.Id a <= Attachment.Id row.
Proof.
  unfold ActiveStorage.LoadAttachment, db_First_Attachment, bind, ret.
  destruct (db_fault (db w) OpQuery); [discriminate |].
  destruct (fold_left least_Id _ None) as [b |] eqn:Hb; [| discriminate].
  intros [= _ <-] row Hin Hlive. simpl.
  apply (proj1 (least_Id_fold_min _ _ _ Hb)).
  apply filter_In. now split.
Qed.


End ReadBack.

Lemma Attach_then_LoadAttachment_witness :
  let w := Demo.world Demo.no_faults None in
  let w' := fst (ActiveStorage.Attach (Demo.env true) (Demo.storage true)
                   Demo.user7 "avatar" Demo.png w) in
  ActiveStorage.LoadAttachment (Demo.storage true) Demo.user7 "avatar" w'
  = (w', Ok (Attachment.with_Id Demo2.new_avatar 1)).
Proof.
  intros w w'.
  apply (Attach_then_LoadAttachment (Demo.env true) (Demo.storage true) Demo.user7
           "avatar" Demo.png w w').
  - vm_compute. reflexivity.
  - reflexivity.
  - constructor.
Defined.

Lemma Attach_does_not_replace_witness :
  let w := Demo2.world_with_avatar in
  let w' := fst (ActiveStorage.Attach (Demo.env true) (Demo.storage true)
                   Demo.user7 "avatar" Demo.png w) in
  ActiveStorage.LoadAttachment (Demo.storage true) Demo.user7 "avatar" w'
  = (w', Ok Demo2.old_avatar)
  /\ Attachment.Id Demo2.old_avatar < Attachment.Id Demo2.new_avatar
  /\ In Demo2.new_avatar (attachments (db w')).
Proof.
  intros w w'.
  apply (Attach_does_not_replace (Demo.env true) (Demo.storage true) Demo.user7
           "avatar" Demo.png w w').
  - repeat constructor.
  - vm_compute. reflexivity.
  - vm_compute. reflexivity.
Defined.

Lemma LoadAttachment_not_found_witness :
  snd (ActiveStorage.LoadAttachment (Demo.storage true) (Attachable.mk "users" 8)
         "avatar" Demo2.world_with_avatar)
  = Err "record not found".
Proof.
  destruct (ActiveStorage.LoadAttachment (Demo.storage true) (Attachable.mk "users" 8)
              "avatar" Demo2.world_with_avatar) as [w' r] eqn:E.
  destruct (LoadAttachment_not_found (Demo.storage true) (Attachable.mk "users" 8)
              "avatar" _ _ _ E) as (_ & Hiff & _).
  apply (Hiff eq_refl). repeat constructor.
Defined.

Lemma LoadAttachment_oldest_witness :
  Attachment.Id Demo2.old_avatar <= Attachment.Id Demo2.new_avatar.
Proof.
  apply (LoadAttachment_oldest (Demo.storage true) Demo.user7 "avatar"
           Demo2.world_two_avatars Demo2.world_two_avatars Demo2.old_avatar).
  - vm_compute. reflexivity.
  - now left.
  - reflexivity.
Defined.


(* ===================================================================== *)
(** * The providers                                                       *)
(* ===================================================================== *)

Section MoreStringFacts.

Lemma append_assoc (a b c : string) : (a +:+ b) +:+ c = a +:+ (b +:+ c).
Proof.
  induction a as [| x a IH]; [reflexivity |].
  change (String x ((a +:+ b) +:+ c) = String x (a +:+ (b +:+ c))).
  now rewrite IH.
Qed.

Lemma append_inj_r (x a b : string) : x +:+ a = x +:+ b -> a = b.
Proof.
  induction x as [| c x IH]; [intros H; exact H |].
  change (String c (x +:+ a) = String c (x +:+ b) -> a = b).
  intros [= H]. now apply IH.
Qed.

Lemma ToLower_app (a b : string) :
  strings_ToLower (a +:+ b) = strings_ToLower a +:+ strings_ToLower b.
Proof.
  induction a as [| x a IH]; [reflexivity |].
  change (String (lower_ascii x) (strings_ToLower (a +:+ b))
          = String (lower_ascii x) (strings_ToLower a +:+ strings_ToLower b)).
  now rewrite IH.
Qed.

(** A name that ends in one five-letter extension does not end in another
    one that differs in its last letter. *)
Lemma HasSuffix_app_other (x : string) (a b c d e a' b' c' d' e' : ascii) :
  e <> e' ->
  strings_HasSuffix
    (x +:+ String a (String b (String c (String d (String e "")))))
    (String a' (String b' (String c' (String d' (String e' ""))))) = false.
Proof.
  intros Hne. unfold strings_HasSuffix.
  rewrite list_ascii_app, rev_app_distr. cbn -[Ascii.eqb].
  apply Ascii.eqb_neq in Hne. rewrite Ascii.eqb_sym, Hne. reflexivity.
Qed.

End MoreStringFacts.

(** X11: [UploadBytes] of the R2 provider.  On success the bucket holds
    the given bytes under the returned Path, whatever was there before,
    the Path is [UploadPath/Filename] with the generated unique name, the
    Size is the length of the bytes, and no other object changes; a
    following [Delete] of that Path that succeeds removes exactly this
    object.  On failure the bucket is as before and the error is the
    request's, prefixed. *)
Theorem R2_UploadBytes_roundtrip (env : Env) (p : R2.r2Provider)
    (data : list ascii) (filename : string) (config : UploadConfig.t) (s : Store) :
  match R2.UploadBytes env p data filename config s with
  | (s', Ok res) =>
      UploadResult.Filename res = generateUniqueFilename env filename
      /\ UploadResult.Path res
         = UploadConfig.UploadPath config +:+ "/" +:+ UploadResult.Filename res
      /\ UploadResult.Size res = Z.of_nat (List.length data)
      /\ (exists contentType,
            objects s' !! (R2.bucket p, UploadResult.Path res)
            = Some (mkObject contentType data))
      /\ (forall k, k <> (R2.bucket p, UploadResult.Path res) ->
            objects s' !! k = objects s !! k)
      /\ (forall s'',
            R2.Delete p (UploadResult.Path res) s' = (s'', None) ->
            objects s'' !! (R2.bucket p, UploadResult.Path res) = None
            /\ forall k, k <> (R2.bucket p, UploadResult.Path res) ->
                 objects s'' !! k = objects s !! k)
  | (s', Err e) =>
      s' = s /\ exists e', put_error s = Some e'
                           /\ e = "failed to upload to R2: " +:+ e'
  end.
Proof.
  unfold R2.UploadBytes, PutObject.
  destruct (put_error s) as [e' |] eqn:Hput; simpl; [eauto |].
  do 3 (split; [reflexivity |]).
  split; [eexists; apply lookup_insert_eq |].
  split; [intros k Hk; now apply lookup_insert_ne |].
  intros s''. unfold R2.Delete, DeleteObject. simpl.
  destruct (delete_error s); [discriminate |]. intros [= <-]. simpl.
  split; [apply lookup_delete_eq |].
  intros k Hk. rewrite lookup_delete_ne, lookup_insert_ne by congruence. reflexivity.
Qed.

(** X12: [Upload] of the R2 provider, the streaming path.  On success the
    object under the returned Path holds the bytes of the upload with the
    client's Content-Type, while the reported Size is the size the client
    declared, whatever the length of those bytes; on failure the bucket is
    as before. *)
Theorem R2_Upload_stores (env : Env) (p : R2.r2Provider) (file : FileHeader.t)
    (config : UploadConfig.t) (s : Store) :
  match R2.Upload env p file config s with
  | (s', Ok res) =>
      exists data,
        FileHeader.Body file = Content data
        /\ objects s' !! (R2.bucket p, UploadResult.Path res)
           = Some (mkObject (FileHeader.Header file) data)
        /\ UploadResult.Size res = FileHeader.Size file
        /\ UploadResult.Path res
           = UploadConfig.UploadPath config +:+ "/"
             +:+ generateUniqueFilename env (FileHeader.Filename file)
  | (s', Err e) => s' = s
  end.
Proof.
  unfold R2.Upload, PutObject.
  destruct (FileHeader.Body file) as [e | e | data]; [reflexivity | |];
    destruct (put_error s); simpl; try reflexivity.
  exists data. split; [reflexivity |]. split; [apply lookup_insert_eq |]. now split.
Qed.

(** X13: the Content-Type [UploadBytes] of the R2 provider gives to what
    the converters produce: [image/webp] for a [.webp] name, [video/webm]
    for a [.webm] name, and the generic [application/octet-stream] for an
    [.opus] name. *)
Theorem R2_content_type_of_converted (env : Env) (p : R2.r2Provider)
    (data : list ascii) (stem : string) (k : Kind) (config : UploadConfig.t)
    (s s' : Store) (res : UploadResult.t) :
  R2.UploadBytes env p data (stem +:+ target_ext k) config s = (s', Ok res) ->
  objects s' !! (R2.bucket p, UploadResult.Path res)
  = Some (mkObject match k with
                   | KImage => "image/webp"
                   | KVideo => "video/webm"
                   | KAudio => "application/octet-stream"
                   end data).
Proof.
  unfold R2.UploadBytes, PutObject.
  destruct (put_error s); simpl; [discriminate |]. intros [= <- <-]. simpl.
  rewrite lookup_insert_eq, ToLower_app. do 2 f_equal.
  destruct k; simpl target_ext;
    change (strings_ToLower ".webp") with ".webp";
    change (strings_ToLower ".webm") with ".webm";
    change (strings_ToLower ".opus") with ".opus".
  - now rewrite HasSuffix_app.
  - rewrite HasSuffix_app_other by discriminate. now rewrite HasSuffix_app.
  - now rewrite !HasSuffix_app_other by discriminate.
Qed.

Lemma R2_content_type_of_converted_witness :
  exists s',
    fst (R2.UploadBytes (Demo.env true) Demo.r2 (list_ascii_of_string "OggS")
           ("voice" +:+ target_ext KAudio)
           (UploadConfig.mk [] 10 "media/files") (mkStore ∅ None None)) = s'
    /\ objects s' !! ("assets", "media/files/1700000000_voice.opus")
       = Some (mkObject "application/octet-stream" (list_ascii_of_string "OggS")).
Proof.
  eexists. split; [reflexivity |].
  exact (R2_content_type_of_converted (Demo.env true) Demo.r2
           (list_ascii_of_string "OggS") "voice" KAudio
           (UploadConfig.mk [] 10 "media/files") (mkStore ∅ None None) _
           (UploadResult.mk "1700000000_voice.opus"
              "media/files/1700000000_voice.opus" 4) eq_refl).
Defined.

(** X14: for one R2 provider, [GetURL] ends in a slash followed by the
    Path, and different Paths get different URLs. *)
Theorem R2_GetURL_injective (p : R2.r2Provider) (path : string) :
  strings_HasSuffix (R2.GetURL p path) ("/" +:+ path) = true
  /\ forall path', R2.GetURL p path = R2.GetURL p path' -> path = path'.
Proof.
  unfold R2.GetURL.
  destruct (negb (String.eqb (R2.cdn p) ""));
    [| destruct (negb (String.eqb (R2.baseURL p) ""))].
  - split; [apply HasSuffix_app |]. intros path' H.
    apply append_inj_r in H. now injection H.
  - split; [apply HasSuffix_app |]. intros path' H.
    apply append_inj_r in H. now injection H.
  - split.
    + rewrite <- !append_assoc. rewrite !append_assoc.
      rewrite <- (append_assoc "https://"), <- (append_assoc _ "/" (R2.bucket p +:+ _)),
        <- (append_assoc _ (R2.bucket p)).
      apply HasSuffix_app.
    + intros path' H. do 4 apply append_inj_r in H. now injection H.
Qed.

(** X15: the S3 provider resolves URLs path-style from its endpoint and
    bucket alone: the endpoint defaults to [s3.amazonaws.com], and the
    configured BaseURL plays no part. *)
Theorem S3_GetURL_ignores_BaseURL (env : Env) (config : S3.S3Config)
    (p : Provider.t) (path : string) :
  S3.NewS3Provider env config = Ok p ->
  Provider.GetURL p path
  = "https://"
    +:+ (if String.eqb (S3.Endpoint config) "" then "s3.amazonaws.com"
         else S3.Endpoint config)
    +:+ "/" +:+ S3.Bucket config +:+ "/" +:+ path
  /\ forall baseURL p',
       S3.NewS3Provider env
         (S3.mkS3Config (S3.APIKey config) (S3.APISecret config)
            (S3.AccessKeyID config) (S3.AccessKeySecret config)
            (S3.AccountID config) (S3.Endpoint config) (S3.Bucket config)
            baseURL (S3.Region config)) = Ok p' ->
       Provider.GetURL p' path = Provider.GetURL p path.
Proof.
  unfold S3.NewS3Provider. simpl.
  destruct (aws_LoadDefaultConfig_error env _); [discriminate |].
  intros [= <-]. split; [reflexivity |].
  intros baseURL p' [= <-]. reflexivity.
Qed.

Lemma S3_GetURL_ignores_BaseURL_witness :
  exists p,
    S3.NewS3Provider (Demo.env true) Demo2.s3config = Ok p
    /\ Provider.GetURL p "avatars/a.webp"
       = "https://s3.amazonaws.com/assets/avatars/a.webp".
Proof.
  eexists. split; [reflexivity |].
  exact (proj1 (S3_GetURL_ignores_BaseURL (Demo.env true) Demo2.s3config _
                  "avatars/a.webp" eq_refl)).
Defined.

(* ===================================================================== *)
(** * Construction                                                        *)
(* ===================================================================== *)

Lemma lower_ascii_idem (c : ascii) : lower_ascii (lower_ascii c) = lower_ascii c.
Proof. destruct c as [[] [] [] [] [] [] [] []]; reflexivity. Qed.

Lemma ToLower_idem (s : string) :
  strings_ToLower (strings_ToLower s) = strings_ToLower s.
Proof.
  induction s as [| c s IH]; simpl; [reflexivity |].
  now rewrite lower_ascii_idem, IH.
Qed.

Lemma Clean_rooted (path : string) :
  strings_HasPrefix path "/" = true ->
  strings_HasPrefix (filepath_Clean path) "/" = true.
Proof. intros H. unfold filepath_Clean. rewrite H. reflexivity. Qed.

Lemma Join_rooted (first : string) (others : list string) :
  strings_HasPrefix first "/" = true ->
  strings_HasPrefix (filepath_Join (first :: others)) "/" = true.
Proof.
  intros H. unfold filepath_Join. simpl.
  destruct first as [| c first]; [discriminate |]. simpl.
  apply Clean_rooted.
  destruct (List.filter _ others) as [| o l]; [exact H |].
  change (strings_Join (String c first :: o :: l) "/")
    with (String c first +:+ "/" +:+ strings_Join (o :: l) "/").
  now apply HasPrefix_app_l.
Qed.

(** X16: a storage that [NewActiveStorage] succeeds in building has an
    absolute default path whenever the working directory is absolute (the
    configured path itself when that is absolute), and the provider name
    is matched without regard to case: the lower-cased name builds the
    same storage. *)
Theorem NewActiveStorage_path_and_name (env : Env)
    (newLocal : string -> string -> Result Provider.t) (config : Config.t)
    (w w' : World) (as_ : ActiveStorage.t) :
  ActiveStorage.NewActiveStorage env newLocal config w = (w', Ok as_) ->
  (forall cwd, os_Getwd env = Ok cwd -> strings_HasPrefix cwd "/" = true ->
     strings_HasPrefix (ActiveStorage.defaultPath as_) "/" = true)
  /\ (strings_HasPrefix (Config.Path config) "/" = true ->
      ActiveStorage.defaultPath as_ = Config.Path config)
  /\ ActiveStorage.NewActiveStorage env newLocal
       (Config.mk (strings_ToLower (Config.Provider config)) (Config.Path config)
          (Config.BaseURL config) (Config.APIKey config) (Config.APISecret config)
          (Config.AccountID config) (Config.Endpoint config) (Config.Bucket config)
          (Config.CDN config) (Config.Region config)) w
     = (w', Ok as_).
Proof.
  unfold ActiveStorage.NewActiveStorage, bind, lift.
  cbn [Config.Provider Config.Path Config.BaseURL Config.APIKey Config.APISecret
       Config.AccountID Config.Endpoint Config.Bucket Config.CDN Config.Region].
  rewrite ToLower_idem.
  destruct (os_Getwd env) as [cwd | e]; cbv beta iota delta [wrap];
    [| discriminate].
  remember (if strings_HasPrefix (Config.Path config) "/" then Config.Path config
            else filepath_Join [cwd; Config.Path config]) as storagePath eqn:Hsp.
  match goal with
  | |- context [match ?made with Some _ => _ | None => _ end] =>
      destruct made as [r |]
  end; [| discriminate].
  destruct r as [p | e]; [| discriminate].
  unfold wrapM, db_AutoMigrate, ret.
  destruct (db_fault (db w) OpMigrate); [discriminate |].
  intros [= <- <-]. cbn [ActiveStorage.defaultPath].
  split; [| split].
  - intros cwd' [= <-] Hcwd. subst storagePath.
    destruct (strings_HasPrefix (Config.Path config) "/") eqn:Hp; [exact Hp |].
    now apply Join_rooted.
  - intros Hp. subst storagePath. now rewrite Hp.
  - reflexivity.
Qed.

Lemma NewActiveStorage_path_and_name_witness :
  let w := Demo.world Demo.no_faults None in
  let as_ :=
    ActiveStorage.mk
      (R2.as_Provider (Demo.env true)
         (R2.mk "assets" "https://acct.r2.cloudflarestorage.com" ""
                "https://cdn.example.com"))
      "/srv/app/storage" ∅
      (Some (ImageProcessor.NewImageProcessor 85))
      (Some (VideoConverter.NewVideoConverter 23))
      (Some (AudioConverter.NewAudioConverter 96)) in
  ActiveStorage.NewActiveStorage (Demo.env true) (fun _ _ => Err "no local provider")
    Demo2.config_r2 w = (w, Ok as_)
  /\ strings_HasPrefix (ActiveStorage.defaultPath as_) "/" = true.
Proof.
  intros w as_.
  assert (E : ActiveStorage.NewActiveStorage (Demo.env true)
                (fun _ _ => Err "no local provider") Demo2.config_r2 w
              = (w, Ok as_)) by reflexivity.
  split; [exact E |].
  exact (proj1 (NewActiveStorage_path_and_name _ _ _ _ _ _ E) "/srv/app"
           eq_refl eq_refl).
Defined.

(* ===================================================================== *)
(** * File names through the conversion stage                             *)
(* ===================================================================== *)

Section Names.

Lemma Ext_app_target (stem : string) (k : Kind) :
  filepath_Ext (stem +:+ target_ext k) = target_ext k.
Proof.
  unfold filepath_Ext. rewrite list_ascii_app, rev_app_distr.
  destruct k; reflexivity.
Qed.

Lemma ext_scan_suffix (rev_path acc : list ascii) :
  exists pre, rev rev_path ++ acc = pre ++ ext_scan rev_path acc.
Proof.
  revert acc; induction rev_path as [| c before IH]; intros acc; simpl.
  - exists acc. now rewrite app_nil_r.
  - destruct (Ascii.eqb c "/").
    + exists (rev before ++ c :: acc). now rewrite app_nil_r, <- app_assoc.
    + destruct (Ascii.eqb c ".").
      * exists (rev before). now rewrite <- app_assoc.
      * destruct (IH (c :: acc)) as [pre Hpre]. exists pre.
        now rewrite <- app_assoc.
Qed.

(** A path is a stem followed by its extension. *)
Lemma Ext_suffix (path : string) :
  exists stem, path = stem +:+ filepath_Ext path.
Proof.
  destruct (ext_scan_suffix (rev (list_ascii_of_string path)) []) as [pre Hpre].
  rewrite rev_involutive, app_nil_r in Hpre.
  exists (string_of_list_ascii pre). unfold filepath_Ext.
  rewrite <- string_of_list_app, <- Hpre. symmetry.
  apply string_of_list_ascii_of_string.
Qed.

Lemma length_append (a b : string) :
  String.length (a +:+ b) = (String.length a + String.length b)%nat.
Proof.
  induction a as [| c a IH]; [reflexivity |].
  change (String c a +:+ b) with (String c (a +:+ b)). simpl. now rewrite IH.
Qed.

Lemma substring_stem (stem suffix : string) :
  String.substring 0 (String.length stem) (stem +:+ suffix) = stem.
Proof.
  induction stem as [| c stem IH]; [now destruct suffix |].
  change (String c stem +:+ suffix) with (String c (stem +:+ suffix)). simpl.
  now rewrite IH.
Qed.

Lemma TrimSuffix_app (stem suffix : string) :
  strings_TrimSuffix (stem +:+ suffix) suffix = stem.
Proof.
  unfold strings_TrimSuffix. rewrite HasSuffix_app, length_append.
  replace (String.length stem + String.length suffix - String.length suffix)%nat
    with (String.length stem) by lia.
  apply substring_stem.
Qed.

End Names.

Section Stage.

Variables (env : Env) (as_ : ActiveStorage.t) (file : FileHeader.t).

(** When every converter either rejects the file or finds it already in
    its target format, the stage only logs the calls of the converters and
    yields no bytes. *)
Lemma Attach_convert_noop (w : World) :
  (forall k, IsFile k (FileHeader.Filename file) = false
             \/ strings_ToLower (filepath_Ext (FileHeader.Filename file))
                = target_ext k) ->
  exists evs c,
    ActiveStorage.Attach_convert env as_ file w = (logged w evs, Ok c)
    /\ fst c = None
    /\ List.length (converter_calls evs) = List.length evs.
Proof.
  intros Hk.
  pose proof (Hk KImage) as HI. pose proof (Hk KVideo) as HV.
  pose proof (Hk KAudio) as HA. simpl in HI, HV, HA.
  unfold ActiveStorage.Attach_convert, bind. rewrite !getSettingBool_run.
  destruct (setting (db w) "media_convert_images" true),
    (ActiveStorage.imageProcessor as_) as [ip |],
    (setting (db w) "media_convert_videos" true),
    (ActiveStorage.videoConverter as_) as [vc |],
    (setting (db w) "media_convert_audio" true),
    (ActiveStorage.audioConverter as_) as [ac |];
    simpl; unfold wrapM, ret;
    rewrite ?(fun w0 => ConvertToWebP_noop env ip file w0 HI); simpl;
    rewrite ?(fun w0 => ConvertToWebM_noop env vc file w0 HV); simpl;
    rewrite ?(fun w0 => ConvertToOpus_noop env ac file w0 HA); simpl;
    rewrite ?logged_logged;
    lazymatch goal with
    | |- exists evs c, (logged w ?l, Ok ?c0) = _ /\ _ => exists l, c0
    | |- exists evs c, (w, Ok ?c0) = _ /\ _ => exists [], c0; rewrite logged_nil
    end;
    (split; [reflexivity |]); simpl; auto.
Qed.

End Stage.

(** X17: a file whose name already ends in a target extension ([.webp],
    [.webm] or [.opus]) goes through the conversion stage unconverted: no
    converter fails, none yields bytes, and nothing but the converters'
    calls is logged (the encoder is not even looked up). *)
Theorem converted_name_is_final (env : Env) (as_ : ActiveStorage.t)
    (file : FileHeader.t) (stem : string) (k : Kind) (w : World) :
  FileHeader.Filename file = stem +:+ target_ext k ->
  exists evs c,
    ActiveStorage.Attach_convert env as_ file w = (logged w evs, Ok c)
    /\ fst c = None
    /\ List.length (converter_calls evs) = List.length evs.
Proof.
  intros Hname. apply Attach_convert_noop. rewrite Hname, Ext_app_target.
  intros k'. destruct k, k'; simpl; rewrite ?ToLower_app;
    try (right; reflexivity); left;
    unfold ImageProcessor.IsImageFile, VideoConverter.IsVideoFile,
      AudioConverter.IsAudioFile;
    rewrite Ext_app_target with (k := KImage) || rewrite Ext_app_target with (k := KVideo)
      || rewrite Ext_app_target with (k := KAudio); reflexivity.
Qed.

Lemma converted_name_is_final_witness :
  exists evs c,
    ActiveStorage.Attach_convert (Demo.env false) (Demo.storage false)
      (renamed Demo.mp4 ("clip" +:+ target_ext KVideo))
      (Demo.world Demo.no_faults None)
    = (logged (Demo.world Demo.no_faults None) evs, Ok c)
    /\ fst c = None
    /\ List.length (converter_calls evs) = List.length evs.
Proof.
  exact (converted_name_is_final (Demo.env false) (Demo.storage false)
           (renamed Demo.mp4 ("clip" +:+ target_ext KVideo)) "clip" KVideo
           (Demo.world Demo.no_faults None) eq_refl).
Defined.

(** X18: a conversion that yields bytes replaces exactly the extension:
    the file name is a stem followed by its extension, the new name is the
    same stem followed by the target extension of the converter that ran
    last, and that is the new name's extension. *)
Theorem conversion_replaces_extension (env : Env) (as_ : ActiveStorage.t)
    (file : FileHeader.t) (w w' : World) (data : list ascii) (name : string) :
  ActiveStorage.Attach_convert env as_ file w = (w', Ok (Some data, name)) ->
  exists stem k,
    FileHeader.Filename file = stem +:+ filepath_Ext (FileHeader.Filename file)
    /\ name = stem +:+ target_ext k
    /\ filepath_Ext name = target_ext k
    /\ IsFile k (FileHeader.Filename file) = true.
Proof.
  intros H.
  destruct (Attach_convert_trace env as_ file w) as (evs & r & E & _ & _ & Hr).
  rewrite E in H. injection H as _ ->.
  destruct (Hr _ eq_refl) as (before & k & _ & Hk & Hname); [discriminate |].
  simpl in Hname.
  destruct (Ext_suffix (FileHeader.Filename file)) as [stem Hstem].
  exists stem, k. split; [exact Hstem |].
  assert (Hn : name = stem +:+ target_ext k).
  { rewrite Hname. rewrite Hstem at 1. now rewrite TrimSuffix_app. }
  split; [exact Hn |]. split; [| exact Hk].
  rewrite Hn. apply Ext_app_target.
Qed.

Lemma conversion_replaces_extension_witness :
  exists stem k,
    FileHeader.Filename Demo.png = stem +:+ filepath_Ext (FileHeader.Filename Demo.png)
    /\ "Face.webp" = stem +:+ target_ext k
    /\ filepath_Ext "Face.webp" = target_ext k
    /\ IsFile k (FileHeader.Filename Demo.png) = true.
Proof.
  apply (conversion_replaces_extension (Demo.env true) (Demo.storage true) Demo.png
           (Demo.world Demo.no_faults None)
           (logged (Demo.world Demo.no_faults None) [EvConvertToWebP Demo.png])
           (list_ascii_of_string "RIFFxyz") "Face.webp").
  vm_compute. reflexivity.
Defined.

(* ===================================================================== *)
(** * The audio converter and the in-memory image converter               *)
(* ===================================================================== *)

Lemma ConvertToOpus_no_ffmpeg (env : Env) (ac : AudioConverter.t)
    (file : FileHeader.t) (w : World) :
  exec_LookPath env "ffmpeg" = false ->
  AudioConverter.IsAudioFile (FileHeader.Filename file) = true ->
  strings_ToLower (filepath_Ext (FileHeader.Filename file)) <> ".opus" ->
  AudioConverter.ConvertToOpus env ac file w
  = (logged w [EvConvertToOpus file; EvLookPath "ffmpeg"],
     Err "ffmpeg not found: audio conversion requires ffmpeg to be installed").
Proof.
  intros Hlook Hk Hext. unfold AudioConverter.ConvertToOpus. run.
  rewrite Hk, Hlook. apply String.eqb_neq in Hext. rewrite Hext. simpl.
  unfold logged. simpl. now rewrite <- app_assoc.
Qed.

(** X19: with no encoder on the PATH, an audio file that is not already
    [.opus] makes [ConvertToOpus] return the explicit "ffmpeg not found"
    error, and [Attach] with audio conversion switched on fail without any
    upload and with store and tables untouched, with that error wrapped
    once config and validation pass. *)
Theorem ConvertToOpus_encoder_absent (env : Env) (file : FileHeader.t) :
  exec_LookPath env "ffmpeg" = false ->
  AudioConverter.IsAudioFile (FileHeader.Filename file) = true ->
  strings_ToLower (filepath_Ext (FileHeader.Filename file)) <> ".opus" ->
  (forall ac w,
     AudioConverter.ConvertToOpus env ac file w
     = (logged w [EvConvertToOpus file; EvLookPath "ffmpeg"],
        Err "ffmpeg not found: audio conversion requires ffmpeg to be installed"))
  /\ (forall as_ model field ac w,
        ActiveStorage.audioConverter as_ = Some ac ->
        setting (db w) "media_convert_audio" true = true ->
        exists evs e,
          ActiveStorage.Attach env as_ model field file w = (logged w evs, Err e)
          /\ uploads evs = []
          /\ (forall config,
                ActiveStorage.getConfig as_ (Attachable.GetModelName model) field
                = Ok config ->
                ActiveStorage.validateFile file config = None ->
                e = "failed to convert audio to opus: "
                    +:+ "ffmpeg not found: audio conversion requires ffmpeg to be installed")).
Proof.
  intros Hlook Hk Hext. split.
  - intros ac w. now apply ConvertToOpus_no_ffmpeg.
  - intros as_ model field ac w Hac Hset.
    assert (Himg : ImageProcessor.IsImageFile (FileHeader.Filename file) = false).
    { destruct (ImageProcessor.IsImageFile _) eqn:E; [| reflexivity].
      now pose proof (IsFile_exclusive KImage KAudio _ E Hk). }
    assert (Hvid : VideoConverter.IsVideoFile (FileHeader.Filename file) = false).
    { destruct (VideoConverter.IsVideoFile _) eqn:E; [| reflexivity].
      now pose proof (IsFile_exclusive KVideo KAudio _ E Hk). }
    unfold ActiveStorage.Attach, bind, lift, fail.
    destruct (ActiveStorage.getConfig _ _ _) as [config | e].
    2:{ exists [], e. rewrite logged_nil. repeat split. discriminate. }
    destruct (ActiveStorage.validateFile file config) as [e |] eqn:Hv.
    { exists [], e. rewrite logged_nil. repeat split. intros ? [= <-] Hn. congruence. }
    destruct (Attach_convert_trace env as_ file w) as (evs & r & E & Hu & _).
    rewrite E.
    assert (Hr : r = Err ("failed to convert audio to opus: "
                   +:+ "ffmpeg not found: audio conversion requires ffmpeg to be installed")).
    { revert E. unfold ActiveStorage.Attach_convert, bind.
      rewrite !getSettingBool_run, Hset, Hac.
      destruct (setting (db w) "media_convert_images" true),
        (ActiveStorage.imageProcessor as_) as [ip |],
        (setting (db w) "media_convert_videos" true),
        (ActiveStorage.videoConverter as_) as [vc |];
        simpl; unfold wrapM, ret;
        rewrite ?(fun w0 => ConvertToWebP_noop env ip file w0 (or_introl Himg)); simpl;
        rewrite ?(fun w0 => ConvertToWebM_noop env vc file w0 (or_introl Hvid)); simpl;
        rewrite ConvertToOpus_no_ffmpeg by assumption; simpl;
        intros [= _ <-]; reflexivity. }
    subst r. exists evs. eexists. split; [reflexivity |]. split; [exact Hu |].
    reflexivity.
Qed.

Lemma ConvertToOpus_encoder_absent_witness :
  exists evs e,
    ActiveStorage.Attach (Demo.env false) (Demo.storage false) Demo.media3 "file"
      Demo2.wav (Demo.world Demo.no_faults None)
    = (logged (Demo.world Demo.no_faults None) evs, Err e)
    /\ uploads evs = []
    /\ (forall config,
          ActiveStorage.getConfig (Demo.storage false)
            (Attachable.GetModelName Demo.media3) "file" = Ok config ->
          ActiveStorage.validateFile Demo2.wav config = None ->
          e = "failed to convert audio to opus: "
              +:+ "ffmpeg not found: audio conversion requires ffmpeg to be installed").
Proof.
  assert (Hext : strings_ToLower (filepath_Ext (FileHeader.Filename Demo2.wav))
                 <> ".opus") by (vm_compute; discriminate).
  exact (proj2 (ConvertToOpus_encoder_absent (Demo.env false) Demo2.wav
                  eq_refl eq_refl Hext)
               (Demo.storage false) Demo.media3 "file"
               (AudioConverter.NewAudioConverter 96)
               (Demo.world Demo.no_faults None) eq_refl eq_refl).
Defined.

(** X20: [ConvertToWebPBytes] and [ConvertToWebP] on the same bytes.  On
    a file the image converter selects they return the same result, error
    for error; on any other file [ConvertToWebP] returns nil bytes while
    [ConvertToWebPBytes] hands back its input, both under the unchanged
    name. *)
Theorem ConvertToWebPBytes_agrees (env : Env) (ip : ImageProcessor.t)
    (file : FileHeader.t) (data : list ascii) (w : World) :
  FileHeader.Body file = Content data ->
  let name := FileHeader.Filename file in
  let selected :=
    (ImageProcessor.IsImageFile name
     && negb (String.eqb (strings_ToLower (filepath_Ext name)) ".webp"))%bool in
  if selected
  then snd (ImageProcessor.ConvertToWebP env ip file w)
       = ConvertToWebPBytes env ip (Some data) name
  else snd (ImageProcessor.ConvertToWebP env ip file w) = Ok (None, name)
       /\ ConvertToWebPBytes env ip (Some data) name = Ok (Some data, name).
Proof.
  intros Hbody name selected. subst name selected.
  unfold ImageProcessor.ConvertToWebP, ConvertToWebPBytes. run.
  destruct (ImageProcessor.IsImageFile (FileHeader.Filename file)); simpl;
    [| now split].
  destruct (String.eqb _ ".webp"); simpl; [now split |].
  rewrite Hbody.
  destruct (ImageProcessor.decodeImage env data _) as [img | e]; simpl;
    [| reflexivity].
  destruct (NewLossyEncoderOptions env _); [reflexivity |].
  destruct (webp_Encode env _ img); reflexivity.
Qed.

Lemma ConvertToWebPBytes_agrees_witness :
  snd (ImageProcessor.ConvertToWebP (Demo.env true) (ImageProcessor.NewImageProcessor 85)
         Demo.png (Demo.world Demo.no_faults None))
  = ConvertToWebPBytes (Demo.env true) (ImageProcessor.NewImageProcessor 85)
      (Some (list_ascii_of_string "Pxyz")) "Face.PNG".
Proof.
  exact (ConvertToWebPBytes_agrees (Demo.env true) (ImageProcessor.NewImageProcessor 85)
           Demo.png (list_ascii_of_string "Pxyz") (Demo.world Demo.no_faults None)
           eq_refl).
Defined.

(* ===================================================================== *)
(** * Classification by extension                                         *)
(* ===================================================================== *)

(** Membership of an extension in a list of literals, decided by
    running the list. *)
Ltac among_cases H :=
  apply existsb_exists in H as (?x & ?Hx & ?Ex);
  apply String.eqb_eq in Ex; subst;
  simpl in Hx;
  repeat (destruct Hx as [<- | Hx]; [try (vm_compute; reflexivity);
                                     try (vm_compute; discriminate) |]);
  try destruct Hx.

Lemma DetectMediaType_by_ext (n1 n2 : string) :
  strings_ToLower (filepath_Ext n1) = strings_ToLower (filepath_Ext n2) ->
  DetectMediaType n1 = DetectMediaType n2
  /\ ShouldConvert n1 = ShouldConvert n2
  /\ getMediaTypeFromExtension n1 = getMediaTypeFromExtension n2
  /\ forall k, IsFile k n1 = IsFile k n2.
Proof.
  intros H.
  unfold ShouldConvert, DetectMediaType, getMediaTypeFromExtension, IsFile,
    ImageProcessor.IsImageFile, VideoConverter.IsVideoFile,
    AudioConverter.IsAudioFile.
  rewrite H. do 3 (split; [reflexivity |]). intros []; reflexivity.
Qed.

Lemma lower_ascii_sep (c : ascii) :
  Ascii.eqb (lower_ascii c) "/" = Ascii.eqb c "/"
  /\ Ascii.eqb (lower_ascii c) "." = Ascii.eqb c ".".
Proof. destruct c as [[] [] [] [] [] [] [] []]; split; reflexivity. Qed.

Lemma list_ascii_ToLower (s : string) :
  list_ascii_of_string (strings_ToLower s) = map lower_ascii (list_ascii_of_string s).
Proof. induction s as [| c s IH]; simpl; [reflexivity | now rewrite IH]. Qed.

Lemma string_of_list_map_lower (l : list ascii) :
  string_of_list_ascii (map lower_ascii l) = strings_ToLower (string_of_list_ascii l).
Proof. induction l as [| c l IH]; simpl; [reflexivity | now rewrite IH]. Qed.

Lemma ext_scan_lower (rev_path acc : list ascii) :
  ext_scan (map lower_ascii rev_path) (map lower_ascii acc)
  = map lower_ascii (ext_scan rev_path acc).
Proof.
  revert acc; induction rev_path as [| c before IH]; intros acc; simpl;
    [reflexivity |].
  destruct (lower_ascii_sep c) as [-> ->].
  destruct (Ascii.eqb c "/"); [reflexivity |].
  destruct (Ascii.eqb c "."); [reflexivity |].
  apply (IH (c :: acc)).
Qed.

(** Lower-casing a path lower-cases its extension. *)
Lemma Ext_ToLower (path : string) :
  filepath_Ext (strings_ToLower path) = strings_ToLower (filepath_Ext path).
Proof.
  unfold filepath_Ext.
  rewrite list_ascii_ToLower, <- List.map_rev.
  pose proof (ext_scan_lower (rev (list_ascii_of_string path)) []) as H.
  simpl in H. rewrite H.
  apply string_of_list_map_lower.
Qed.

(** X21: the letter case of a file name plays no part.  The lower-cased
    name is classified like the name itself by [DetectMediaType],
    [ShouldConvert], the three converter predicates and the sync's
    [getMediaTypeFromExtension], and it passes or fails [validateFile] with
    the same error. *)
Theorem classification_ignores_case (file : FileHeader.t)
    (config : AttachmentConfig.t) :
  let name := FileHeader.Filename file in
  let lower := strings_ToLower name in
  DetectMediaType lower = DetectMediaType name
  /\ ShouldConvert lower = ShouldConvert name
  /\ getMediaTypeFromExtension lower = getMediaTypeFromExtension name
  /\ (forall k, IsFile k lower = IsFile k name)
  /\ ActiveStorage.validateFile (renamed file lower) config
     = ActiveStorage.validateFile file config.
Proof.
  intros name lower.
  assert (H : strings_ToLower (filepath_Ext lower) = strings_ToLower (filepath_Ext name)).
  { subst lower. now rewrite Ext_ToLower, ToLower_idem. }
  destruct (DetectMediaType_by_ext lower name H) as (H1 & H2 & H3 & H4).
  do 4 (split; [assumption |]).
  unfold ActiveStorage.validateFile, renamed. simpl. fold name. fold lower.
  now rewrite H.
Qed.

(** X22: the classifier and the converters.  [IsVideoFile] and
    [IsAudioFile] hold exactly for the files [DetectMediaType] calls video
    and audio; [IsImageFile] holds only for files it calls image, and the
    image files it leaves out are exactly those with extension [.gif] or
    [.svg]. *)
Theorem DetectMediaType_vs_converters (filename : string) :
  let ext := strings_ToLower (filepath_Ext filename) in
  (VideoConverter.IsVideoFile filename = true
   <-> DetectMediaType filename = MediaTypeVideo)
  /\ (AudioConverter.IsAudioFile filename = true
      <-> DetectMediaType filename = MediaTypeAudio)
  /\ (ImageProcessor.IsImageFile filename = true ->
      DetectMediaType filename = MediaTypeImage)
  /\ (DetectMediaType filename = MediaTypeImage
      /\ ImageProcessor.IsImageFile filename = false
      <-> ext = ".gif" \/ ext = ".svg").
Proof.
  intros ext. subst ext.
  unfold DetectMediaType, ImageProcessor.IsImageFile, VideoConverter.IsVideoFile,
    AudioConverter.IsAudioFile, VideoConverter.supportedExts,
    AudioConverter.supportedExts, ImageProcessor.supportedExts.
  generalize (strings_ToLower (filepath_Ext filename)); intros ext.
  split; [| split; [| split]].
  - split; intros H.
    + among_cases H.
    + repeat match type of H with
             | (if ?b then _ else _) = _ => destruct b eqn:?E; try discriminate
             end.
      match goal with
      | E : existsb _ [".mp4"; _; _; _; _; _; _; _; _; _] = true |- _ => among_cases E
      end.
  - split; intros H.
    + among_cases H.
    + repeat match type of H with
             | (if ?b then _ else _) = _ => destruct b eqn:?E; try discriminate
             end.
      match goal with
      | E : existsb _ [".mp3"; _; _; _; _; _; _; _] = true |- _ => among_cases E
      end.
  - intros H. among_cases H.
  - split.
    + intros [H Hn].
      destruct (existsb (fun e => String.eqb ext e)
                  [".jpg"; ".jpeg"; ".png"; ".gif"; ".webp"; ".bmp"; ".tiff"; ".tif";
                   ".svg"]) eqn:E.
      * apply existsb_exists in E as (x & Hx & Ex).
        apply String.eqb_eq in Ex; subst x. simpl in Hx.
        repeat (destruct Hx as [<- | Hx];
                [first [now left | now right | vm_compute in Hn; discriminate] |]).
        destruct Hx.
      * repeat match type of H with
               | (if ?b then _ else _) = _ => destruct b; try discriminate
               end.
    + intros [-> | ->]; split; reflexivity.
Qed.

(** X23: the sync's [getMediaTypeFromExtension] against the storage's
    [DetectMediaType].  They agree on what is an image; what the sync
    calls video or audio the storage calls so too; and the video and audio
    files the sync calls "other" are exactly those with extension [.flv],
    [.wmv], [.m4v], [.mpeg], [.mpg], and [.aac], [.wma], [.opus] (the
    target format of audio conversion). *)
Theorem getMediaTypeFromExtension_vs_DetectMediaType (filename : string) :
  let ext := strings_ToLower (filepath_Ext filename) in
  (getMediaTypeFromExtension filename = "image"
   <-> DetectMediaType filename = MediaTypeImage)
  /\ (getMediaTypeFromExtension filename = "video" ->
      DetectMediaType filename = MediaTypeVideo)
  /\ (getMediaTypeFromExtension filename = "audio" ->
      DetectMediaType filename = MediaTypeAudio)
  /\ (DetectMediaType filename = MediaTypeVideo
      /\ getMediaTypeFromExtension filename = "other"
      <-> In ext [".flv"; ".wmv"; ".m4v"; ".mpeg"; ".mpg"])
  /\ (DetectMediaType filename = MediaTypeAudio
      /\ getMediaTypeFromExtension filename = "other"
      <-> In ext [".aac"; ".wma"; ".opus"]).
Proof.
  intros ext. subst ext.
  unfold DetectMediaType, getMediaTypeFromExtension.
  generalize (strings_ToLower (filepath_Ext filename)); intros ext.
  assert (Hdec : forall l : list string,
             existsb (fun e => String.eqb ext e) l = true -> In ext l).
  { intros l H. apply existsb_exists in H as (x & Hx & Ex).
    apply String.eqb_eq in Ex. now subst. }
  split; [| split; [| split; [| split]]].
  - split; intros H;
      repeat match type of H with
             | (if ?b then _ else _) = _ => destruct b eqn:?E; try discriminate
             end;
      match goal with
      | E : existsb _ _ = true |- _ =>
          apply Hdec in E; simpl in E;
          repeat (destruct E as [<- | E]; [vm_compute; reflexivity |]); destruct E
      end.
  - intros H;
      repeat match type of H with
             | (if ?b then _ else _) = _ => destruct b eqn:?E; try discriminate
             end.
    match goal with
    | E : existsb _ [".mp4"; _; _; _; _] = true |- _ =>
        apply Hdec in E; simpl in E;
        repeat (destruct E as [<- | E]; [vm_compute; reflexivity |]); destruct E
    end.
  - intros H;
      repeat match type of H with
             | (if ?b then _ else _) = _ => destruct b eqn:?E; try discriminate
             end.
    match goal with
    | E : existsb _ [".mp3"; _; _; _; _] = true |- _ =>
        apply Hdec in E; simpl in E;
        repeat (destruct E as [<- | E]; [vm_compute; reflexivity |]); destruct E
    end.
  - split.
    + intros [H Ho].
      repeat match type of H with
             | (if ?b then _ else _) = _ => destruct b eqn:?E; try discriminate
             end.
      match goal with
      | E : existsb _ [".mp4"; _; _; _; _; _; _; _; _; _] = true |- _ =>
          apply Hdec in E; simpl in E;
          repeat (destruct E as [<- | E];
                  [first [vm_compute in Ho; discriminate | simpl; tauto] |]);
          destruct E
      end.
    + intros H. simpl in H.
      repeat (destruct H as [<- | H]; [split; vm_compute; reflexivity |]). destruct H.
  - split.
    + intros [H Ho].
      repeat match type of H with
             | (if ?b then _ else _) = _ => destruct b eqn:?E; try discriminate
             end.
      match goal with
      | E : existsb _ [".mp3"; _; _; _; _; _; _; _] = true |- _ =>
          apply Hdec in E; simpl in E;
          repeat (destruct E as [<- | E];
                  [first [vm_compute in Ho; discriminate | simpl; tauto] |]);
          destruct E
      end.
    + intros H. simpl in H.
      repeat (destruct H as [<- | H]; [split; vm_compute; reflexivity |]). destruct H.
Qed.

(** A file a converter accepts is of the media type whose target format is
    that converter's. *)
Lemma IsFile_target (k : Kind) (filename : string) :
  IsFile k filename = true ->
  "." +:+ GetTargetFormat (DetectMediaType filename) = target_ext k.
Proof.
  unfold IsFile, DetectMediaType, ImageProcessor.IsImageFile,
    VideoConverter.IsVideoFile, AudioConverter.IsAudioFile.
  generalize (strings_ToLower (filepath_Ext filename)); intros ext.
  destruct k; intros H; among_cases H.
Qed.

(** X24: [ShouldConvert] is a safe "no": a file for which it answers false
    goes through the conversion stage of [Attach] unconverted, without
    error and without the encoder being looked up. *)
Theorem ShouldConvert_false_no_conversion (env : Env) (as_ : ActiveStorage.t)
    (file : FileHeader.t) (w : World) :
  ShouldConvert (FileHeader.Filename file) = false ->
  exists evs c,
    ActiveStorage.Attach_convert env as_ file w = (logged w evs, Ok c)
    /\ fst c = None
    /\ List.length (converter_calls evs) = List.length evs.
Proof.
  intros Hs. apply Attach_convert_noop. intros k.
  destruct (IsFile k (FileHeader.Filename file)) eqn:Hk; [right | now left].
  apply IsFile_target in Hk. unfold ShouldConvert in Hs. cbv zeta in Hs.
  destruct (String.eqb (GetTargetFormat (DetectMediaType (FileHeader.Filename file))) "")
    eqn:Ht.
  - exfalso. apply String.eqb_eq in Ht. rewrite Ht in Hk.
    destruct k; discriminate Hk.
  - apply negb_false_iff, String.eqb_eq in Hs. rewrite Hs. exact Hk.
Qed.

Lemma ShouldConvert_false_no_conversion_witness :
  exists evs c,
    ActiveStorage.Attach_convert (Demo.env false) (Demo.storage false) Demo.pdf
      (Demo.world Demo.no_faults None)
    = (logged (Demo.world Demo.no_faults None) evs, Ok c)
    /\ fst c = None
    /\ List.length (converter_calls evs) = List.length evs.
Proof.
  exact (ShouldConvert_false_no_conversion (Demo.env false) (Demo.storage false)
           Demo.pdf (Demo.world Demo.no_faults None) eq_refl).
Defined.
